(** * ISI geometry core: landmark detection, alignment and its verification

    A shallow embedding of the geometric subsystem of the ISI repository:

    - [ISI-Core/src/interfaces/geometry_interfaces.py] (the pydantic value
      objects and their validators),
    - [ISI-Core/src/services/geometry_service.py] (normalisation, Rodrigues
      rotation, alignment matrix, homogeneous application, verification),
    - [ISI-Integration/src/python/density_landmark_detector.py] and
      [ISI-Integration/src/python/geometric_landmark_detector.py]
      (the two landmark detectors).

    Numbers.  Python floats are idealised as real numbers: [math.sqrt],
    [math.acos], [math.sin], [math.cos] and [math.degrees] are the real
    functions, and rounding, underflow, overflow and NaN are not modelled.
    A statement said to hold "over the reals" is an exact equality or an
    exact case distinction of this idealisation: the binary64 program
    agrees with it up to rounding only (a computed 0 may be 1e-16, and the
    norm of a vector such as (1e-200, 0, 0) underflows to 0).  Statements
    without that qualification are inequalities, tolerances or facts about
    the structure of the results, which do not rest on exact arithmetic.

    Exceptions are modelled by the [result] type; the [isinstance] guards of
    the source (TypeError) are discharged by typing.  [Ok] of a detector
    carries the object after a call that returns; the object after a call
    that raises is not modelled. *)

From Stdlib Require Import Reals Lra Lia String List Bool Arith Psatz DecimalString.
Import ListNotations.
Open Scope R_scope.

(** ** Exceptions and the error monad *)

Inductive exn : Type :=
| TypeError (msg : string)
| ValueError (msg : string)
| ValidationError (msg : string)
| IndexError (msg : string)
| LinAlgError (msg : string).

Inductive result (A : Type) : Type :=
| Ok (a : A)
| Raise (e : exn).
Arguments Ok {A} a.
Arguments Raise {A} e.

Definition bind {A B : Type} (c : result A) (k : A -> result B) : result B :=
  match c with
  | Ok a => k a
  | Raise e => Raise e
  end.

Notation "x <- c ;; k" := (bind c (fun x => k))
  (at level 61, c at next level, right associativity).
Notation "' p <- c ;; k" := (bind c (fun x => let 'p := x in k))
  (at level 61, p pattern, c at next level, right associativity).

(** ** Comparisons of floats, as booleans *)

Definition Rleb (a b : R) : bool := if Rle_dec a b then true else false.
Definition Rltb (a b : R) : bool := if Rlt_dec a b then true else false.
Definition Reqb (a b : R) : bool := if Req_dec_T a b then true else false.

(** [list[i]] and [array[i]]: IndexError out of range. *)
Definition getitem {A : Type} (l : list A) (i : nat) : result A :=
  match nth_error l i with
  | Some a => Ok a
  | None => Raise (IndexError "index out of range")
  end.

(** ** numpy: vectors as lists of floats, matrices as lists of rows *)

Definition np_sum (l : list R) : R := fold_right Rplus 0 l.

(** [np.dot] of two 1-D arrays. *)
Definition np_dot (a b : list R) : R :=
  np_sum (map (fun ab => fst ab * snd ab) (combine a b)).

Definition column (j : nat) (m : list (list R)) : list R :=
  map (fun row => nth j row 0) m.

Definition ncols (m : list (list R)) : nat :=
  match m with
  | [] => 0
  | row :: _ => length row
  end.

(** [np.dot] of two 2-D arrays. *)
Definition matmul (a b : list (list R)) : list (list R) :=
  map (fun row => map (fun j => np_dot row (column j b)) (seq 0 (ncols b))) a.

(** [np.dot] of a 2-D array and a 1-D array: the shapes must agree. *)
Definition mat_vec (m : list (list R)) (v : list R) : result (list R) :=
  if forallb (fun row => Nat.eqb (length row) (length v)) m
  then Ok (map (fun row => np_dot row v) m)
  else Raise (ValueError "shapes not aligned").

Definition mat_add (a b : list (list R)) : list (list R) :=
  map (fun rr => map (fun xy => fst xy + snd xy) (combine (fst rr) (snd rr)))
      (combine a b).

Definition mat_scale (c : R) (a : list (list R)) : list (list R) :=
  map (map (fun x => c * x)) a.

(** [np.eye(n)]. *)
Definition eye (n : nat) : list (list R) :=
  map (fun i => map (fun j => if Nat.eqb i j then 1 else 0) (seq 0 n)) (seq 0 n).

(** [m[:k, :k] = r] for a [k]x[k] block [r]: the leading entries of the
    leading rows are overwritten. *)
Fixpoint assign_block (m r : list (list R)) : list (list R) :=
  match m, r with
  | mrow :: m', rrow :: r' =>
      (rrow ++ skipn (length rrow) mrow) :: assign_block m' r'
  | _, _ => m
  end.

(** numpy arrays of three floats. *)
Record Vec3 : Type := V3 { c0 : R; c1 : R; c2 : R }.

Definition v3_dot (a b : Vec3) : R := c0 a * c0 b + c1 a * c1 b + c2 a * c2 b.
Definition v3_cross (a b : Vec3) : Vec3 :=
  V3 (c1 a * c2 b - c2 a * c1 b)
     (c2 a * c0 b - c0 a * c2 b)
     (c0 a * c1 b - c1 a * c0 b).
(** [np.linalg.norm] of a 1-D array. *)
Definition v3_norm (a : Vec3) : R := sqrt (v3_dot a a).
Definition v3_div (a : Vec3) (d : R) : Vec3 := V3 (c0 a / d) (c1 a / d) (c2 a / d).
Definition v3_scale (c : R) (a : Vec3) : Vec3 := V3 (c * c0 a) (c * c1 a) (c * c2 a).
Definition v3_add (a b : Vec3) : Vec3 := V3 (c0 a + c0 b) (c1 a + c1 b) (c2 a + c2 b).
Definition v3_sub (a b : Vec3) : Vec3 := V3 (c0 a - c0 b) (c1 a - c1 b) (c2 a - c2 b).
Definition v3_tolist (a : Vec3) : list R := [c0 a; c1 a; c2 a].

(** [np.allclose(a, b)] on scalars, with numpy's default tolerances:
    [|a - b| <= atol + rtol * |b|]. *)
Definition rtol : R := 1e-5.
Definition atol : R := 1e-8.
Definition np_allclose (a b : R) : bool := Rleb (Rabs (a - b)) (atol + rtol * Rabs b).

(** [math.degrees]. *)
Definition degrees (x : R) : R := x * (180 / PI).

(** ** geometry_interfaces.py: the value objects *)

Module Interfaces.

(** [Vector3D]: a frozen pydantic model; every coordinate goes through
  [validate_finite]. *)
Record Vector3D : Type := mkVector3D { x : R; y : R; z : R }.

Definition validate_finite (v : R) : result R :=
if Rleb (-1e10) v && Rleb v 1e10 then Ok v
else Raise (ValidationError "Coordinate must be a finite number").

(** The constructor call [Vector3D(x=.., y=.., z=..)]. *)
Definition Vector3D_new (vx vy vz : R) : result Vector3D :=
x' <- validate_finite vx ;;
y' <- validate_finite vy ;;
z' <- validate_finite vz ;;
Ok (mkVector3D x' y' z').

(** [TransformationMatrix]: a list of rows, validated to be 4x4 with
  entries in range. *)
Record TransformationMatrix : Type := mkTransformationMatrix { matrix : list (list R) }.

Definition validate_matrix_dimensions (v : list (list R)) : result (list (list R)) :=
if negb (Nat.eqb (length v) 4) || existsb (fun row => negb (Nat.eqb (length row) 4)) v
then Raise (ValidationError "Matrix must be 4x4")
else Ok v.

Definition validate_matrix_values (v : list (list R)) : result (list (list R)) :=
if forallb (forallb (fun val => Rleb (-1e10) val && Rleb val 1e10)) v
then Ok v
else Raise (ValidationError "Matrix values must be finite numbers").

(** The constructor call [TransformationMatrix(matrix=..)]. *)
Definition TransformationMatrix_new (m : list (list R)) : result TransformationMatrix :=
v <- validate_matrix_dimensions m ;;
v' <- validate_matrix_values v ;;
Ok (mkTransformationMatrix v').

(** [LandmarkSet]: nose, tail and both ears are required fields
  ([Field(...)]); only [face_center] is [Optional]. *)
Record LandmarkSet : Type := mkLandmarkSet {
nose : Vector3D;
tail : Vector3D;
left_ear : Vector3D;
right_ear : Vector3D;
face_center : option Vector3D
}.

(** A required field ([Field(...)]) that is missing.  pydantic collects
    every missing field into one ValidationError; the first one is kept
    here. *)
Definition required {A : Type} (field : string) (v : option A) : result A :=
match v with
| Some a => Ok a
| None => Raise (ValidationError (field ++ ": field required")%string)
end.

(** The constructor call [LandmarkSet(...)]: a keyword argument that is
  left out (or passed as [None]) is [None] here. *)
Definition LandmarkSet_new (nose tail left_ear right_ear face_center : option Vector3D)
: result LandmarkSet :=
n <- required "nose" nose ;;
t <- required "tail" tail ;;
l <- required "left_ear" left_ear ;;
r <- required "right_ear" right_ear ;;
Ok (mkLandmarkSet n t l r face_center).

(** [GeometryParameters]. *)
Record GeometryParameters : Type := mkGeometryParameters {
scale_factor : R;
alignment_tolerance : R;
ear_alignment_axis : string;
nose_tail_axis : string
}.

Definition validate_axis (v : string) : result string :=
if existsb (String.eqb v) ["x"; "y"; "z"]%string then Ok v
else Raise (ValidationError "Axis must be x, y, or z").

(** The constructor call [GeometryParameters(...)] with the [gt]/[le]
  bounds of the fields. *)
Definition GeometryParameters_new (scale tol : R) (ear_axis nt_axis : string)
: result GeometryParameters :=
if negb (Rltb 0 scale) then Raise (ValidationError "scale_factor: ensure this value is greater than 0")
else if negb (Rltb 0 tol) then Raise (ValidationError "alignment_tolerance: ensure this value is greater than 0")
else if negb (Rleb tol 5) then Raise (ValidationError "alignment_tolerance: ensure this value is less than or equal to 5.0")
else
  e <- validate_axis ear_axis ;;
  n <- validate_axis nt_axis ;;
  Ok (mkGeometryParameters scale tol e n).

(** [AlignmentResult]; [alignment_errors] is a dict from names to floats,
  kept in insertion order. *)
Record AlignmentResult : Type := mkAlignmentResult {
transformation_matrix : TransformationMatrix;
alignment_errors : list (string * R);
is_valid : bool
}.

Definition dict_get {V : Type} (d : list (string * V)) (k : string) : option V :=
match find (fun kv => String.eqb (fst kv) k) d with
| Some kv => Some (snd kv)
| None => None
end.

Definition has_key {V : Type} (d : list (string * V)) (k : string) : bool :=
existsb (fun kv => String.eqb (fst kv) k) d.

Definition validate_errors (v : list (string * R)) : result (list (string * R)) :=
if forallb (has_key v) ["nose_tail_alignment"; "ear_alignment"; "overall_error"]%string
then Ok v
else Raise (ValidationError "alignment_errors must contain the required keys").

Definition AlignmentResult_new (m : TransformationMatrix) (errors : list (string * R))
         (valid : bool) : result AlignmentResult :=
e <- validate_errors errors ;;
Ok (mkAlignmentResult m e valid).

End Interfaces.

(** ** geometry_service.py *)

Module GeometryService.
Import Interfaces.

(** *** NumpyGeometryProvider *)

(** [math.isfinite] holds of every real number: the guards on the distance
  and on the magnitude are discharged by the number model.  The square
  root is the real one; the tests [magnitude == 0.0] below and
  [v1_norm == 0] in the rotation are tests on the real norm, which is 0
  for the zero vector only. *)
Definition calculate_distance (point1 point2 : Vector3D) : result R :=
let dx := x point2 - x point1 in
let dy := y point2 - y point1 in
let dz := z point2 - z point1 in
let distance := sqrt (dx * dx + dy * dy + dz * dz) in
Ok distance.

Definition calculate_midpoint (point1 point2 : Vector3D) : result Vector3D :=
let mid_x := (x point1 + x point2) / 2 in
let mid_y := (y point1 + y point2) / 2 in
let mid_z := (z point1 + z point2) / 2 in
Vector3D_new mid_x mid_y mid_z.

Definition normalize_vector (vector : Vector3D) : result Vector3D :=
let magnitude := sqrt (x vector ^ 2 + y vector ^ 2 + z vector ^ 2) in
if Reqb magnitude 0 then Raise (ValueError "Cannot normalize zero vector")
else Vector3D_new (x vector / magnitude) (y vector / magnitude) (z vector / magnitude).

(** *** QuaternionTransformationCalculator *)

(** The cross-product matrix [K] of an axis. *)
Definition skew (k : Vec3) : list (list R) :=
[ [0; - c2 k; c1 k];
  [c2 k; 0; - c0 k];
  [- c1 k; c0 k; 0] ].

(** [matrix_4x4 = np.eye(4); matrix_4x4[:3, :3] = R]. *)
Definition embed_rotation (r : list (list R)) : list (list R) :=
assign_block (eye 4) r.

Definition calculate_rotation_matrix (from_vector to_vector : Vector3D)
: result TransformationMatrix :=
let v1 := V3 (x from_vector) (y from_vector) (z from_vector) in
let v2 := V3 (x to_vector) (y to_vector) (z to_vector) in
let v1_norm := v3_norm v1 in
let v2_norm := v3_norm v2 in
if Reqb v1_norm 0 || Reqb v2_norm 0
then Raise (ValueError "Cannot calculate rotation with zero vectors")
else
  let v1 := v3_div v1 v1_norm in
  let v2 := v3_div v2 v2_norm in
  let dot_product := v3_dot v1 v2 in
  let cross_product := v3_cross v1 v2 in
  if np_allclose dot_product 1 then
    TransformationMatrix_new (eye 4)
  else if np_allclose dot_product (-1) then
    let perp := if Rltb (Rabs (c0 v1)) 0.9 then V3 1 0 0 else V3 0 1 0 in
    let axis := v3_cross v1 perp in
    let axis := v3_div axis (v3_norm axis) in
    let K := skew axis in
    let R := mat_add (eye 3) (mat_scale 2 (matmul K K)) in
    TransformationMatrix_new (embed_rotation R)
  else
    let k := v3_div cross_product (v3_norm cross_product) in
    let theta := acos (Rmax (-1) (Rmin 1 dot_product)) in
    let K := skew k in
    let R := mat_add (mat_add (eye 3) (mat_scale (sin theta) K))
                     (mat_scale (1 - cos theta) (matmul K K)) in
    TransformationMatrix_new (embed_rotation R).

(** The canonical axis named by a parameter; shared by the four places
  of the source that spell out the same [if]/[elif] chain. *)
Definition axis_vector (what axis : string) : result Vector3D :=
if String.eqb axis "x" then Vector3D_new 1 0 0
else if String.eqb axis "y" then Vector3D_new 0 1 0
else if String.eqb axis "z" then Vector3D_new 0 0 1
else Raise (ValueError ("Invalid " ++ what ++ ": " ++ axis)%string).

Definition calculate_alignment_matrix (landmarks : LandmarkSet) (params : GeometryParameters)
: result TransformationMatrix :=
nose_tail_vector <-
  Vector3D_new (x (tail landmarks) - x (nose landmarks))
               (y (tail landmarks) - y (nose landmarks))
               (z (tail landmarks) - z (nose landmarks)) ;;
target_vector <- axis_vector "nose_tail_axis" (nose_tail_axis params) ;;
rotation_matrix <- calculate_rotation_matrix nose_tail_vector target_vector ;;
let scale_matrix :=
  [ [scale_factor params; 0; 0; 0];
    [0; scale_factor params; 0; 0];
    [0; 0; scale_factor params; 0];
    [0; 0; 0; 1] ] in
let combined_matrix := matmul (matrix rotation_matrix) scale_matrix in
TransformationMatrix_new combined_matrix.

Definition transform_point (m : TransformationMatrix) (point : Vector3D) : result Vector3D :=
let homogeneous_point := [x point; y point; z point; 1] in
transformed_homogeneous <- mat_vec (matrix m) homogeneous_point ;;
w <- getitem transformed_homogeneous 3 ;;
if Reqb w 0
then Raise (ValueError "Transformation resulted in invalid homogeneous coordinates")
else
  h0 <- getitem transformed_homogeneous 0 ;;
  h1 <- getitem transformed_homogeneous 1 ;;
  h2 <- getitem transformed_homogeneous 2 ;;
  Vector3D_new (h0 / w) (h1 / w) (h2 / w).

(** The [for point in points] loop: the first failing point aborts. *)
Fixpoint apply_transformation (m : TransformationMatrix) (points : list Vector3D)
: result (list Vector3D) :=
match points with
| [] => Ok []
| point :: rest =>
    p <- transform_point m point ;;
    ps <- apply_transformation m rest ;;
    Ok (p :: ps)
end.

(** *** CVLandmarkDetector *)

Module CVLandmarkDetector.

(** The dict that [_extract_landmark_positions] returns has the five keys
  of its literal, and every lookup of the class names one of them: it is
  embedded as a record, and [landmarks.get("face_center")] is the field. *)
Record landmark_positions : Type := mkLandmarkPositions {
pos_nose : Vector3D;
pos_tail : Vector3D;
pos_left_ear : Vector3D;
pos_right_ear : Vector3D;
pos_face_center : Vector3D
}.

Definition _extract_landmark_positions {A : Type} (model_data : A)
: result landmark_positions :=
nose <- Vector3D_new 0 0 5 ;;
tail <- Vector3D_new 0 0 (-5) ;;
left_ear <- Vector3D_new (-2) 0 2 ;;
right_ear <- Vector3D_new 2 0 2 ;;
face_center <- Vector3D_new 0 0 3 ;;
Ok (mkLandmarkPositions nose tail left_ear right_ear face_center).

Definition _detect_landmarks_cv {A : Type} (model_data : A) : result LandmarkSet :=
landmarks <- _extract_landmark_positions model_data ;;
LandmarkSet_new (Some (pos_nose landmarks)) (Some (pos_tail landmarks))
                (Some (pos_left_ear landmarks)) (Some (pos_right_ear landmarks))
                (Some (pos_face_center landmarks)).

Definition _detect_ear_positions {A : Type} (model_data : A)
: result (Vector3D * Vector3D) :=
landmarks <- _extract_landmark_positions model_data ;;
Ok (pos_left_ear landmarks, pos_right_ear landmarks).

Definition _detect_nose_tail_positions {A : Type} (model_data : A)
: result (Vector3D * Vector3D) :=
landmarks <- _extract_landmark_positions model_data ;;
Ok (pos_nose landmarks, pos_tail landmarks).

(** [model_data] is of type [Any]; Python's [None] is [None] here. *)
Definition detect_landmarks {A : Type} (model_data : option A) : result LandmarkSet :=
match model_data with
| None => Raise (ValueError "model_data cannot be None")
| Some data => _detect_landmarks_cv data
end.

Definition detect_ears {A : Type} (model_data : option A)
: result (Vector3D * Vector3D) :=
match model_data with
| None => Raise (ValueError "model_data cannot be None")
| Some data => _detect_ear_positions data
end.

Definition detect_nose_tail {A : Type} (model_data : option A)
: result (Vector3D * Vector3D) :=
match model_data with
| None => Raise (ValueError "model_data cannot be None")
| Some data => _detect_nose_tail_positions data
end.

End CVLandmarkDetector.

(** *** PrecisionAlignmentCalculator *)

(** [self._geometry_provider] is the [NumpyGeometryProvider] above, the
  one implementation of [IGeometryProvider] in the repository. *)
Definition calculate_nose_tail_alignment (nose tail : Vector3D)
         (params : GeometryParameters) : result TransformationMatrix :=
nose_tail_vector <-
  Vector3D_new (x tail - x nose) (y tail - y nose) (z tail - z nose) ;;
normalized_vector <- normalize_vector nose_tail_vector ;;
target <- axis_vector "nose_tail_axis" (nose_tail_axis params) ;;
calculate_rotation_matrix normalized_vector target.


Definition _calculate_alignment_error (vector : Vector3D) (target_axis : string) : result R :=
normalized <- normalize_vector vector ;;
target <- axis_vector "target_axis" target_axis ;;
let dot_product := x normalized * x target + y normalized * y target
                   + z normalized * z target in
let dot_product := Rmax (-1) (Rmin 1 dot_product) in
let angle_rad := acos (Rabs dot_product) in
let angle_deg := degrees angle_rad in
Ok angle_deg.

Definition verify_alignment (landmarks : LandmarkSet) (m : TransformationMatrix)
         (params : GeometryParameters) : result AlignmentResult :=
transformed_points <-
  apply_transformation m [nose landmarks; tail landmarks;
                          left_ear landmarks; right_ear landmarks] ;;
face_center <-
  match face_center landmarks with
  | Some fc =>
      face_center_transformed <- apply_transformation m [fc] ;;
      f <- getitem face_center_transformed 0 ;;
      Ok (Some f)
  | None => Ok None
  end ;;
p0 <- getitem transformed_points 0 ;;
p1 <- getitem transformed_points 1 ;;
p2 <- getitem transformed_points 2 ;;
p3 <- getitem transformed_points 3 ;;
transformed_landmarks <-
  LandmarkSet_new (Some p0) (Some p1) (Some p2) (Some p3) face_center ;;
nose_tail_vector <-
  Vector3D_new (x (tail transformed_landmarks) - x (nose transformed_landmarks))
               (y (tail transformed_landmarks) - y (nose transformed_landmarks))
               (z (tail transformed_landmarks) - z (nose transformed_landmarks)) ;;
ear_vector <-
  Vector3D_new (x (right_ear transformed_landmarks) - x (left_ear transformed_landmarks))
               (y (right_ear transformed_landmarks) - y (left_ear transformed_landmarks))
               (z (right_ear transformed_landmarks) - z (left_ear transformed_landmarks)) ;;
nose_tail_error <- _calculate_alignment_error nose_tail_vector (nose_tail_axis params) ;;
ear_error <- _calculate_alignment_error ear_vector (ear_alignment_axis params) ;;
let overall_error := Rmax nose_tail_error ear_error in
let valid := Rleb overall_error (alignment_tolerance params) in
AlignmentResult_new m
  [ ("nose_tail_alignment"%string, nose_tail_error);
    ("ear_alignment"%string, ear_error);
    ("overall_error"%string, overall_error) ]
  valid.

End GeometryService.

(** ** numpy reductions and array helpers used by the detectors *)

Definition np_min (l : list R) : result R :=
  match l with
  | [] => Raise (ValueError "zero-size array to reduction operation minimum which has no identity")
  | a :: l' => Ok (fold_left Rmin l' a)
  end.

Definition np_max (l : list R) : result R :=
  match l with
  | [] => Raise (ValueError "zero-size array to reduction operation maximum which has no identity")
  | a :: l' => Ok (fold_left Rmax l' a)
  end.

(** [np.argmax]: the first index of the greatest entry. *)
Fixpoint argmax_from (l : list R) (i : nat) (best : R) (best_i : nat) : nat :=
  match l with
  | [] => best_i
  | a :: l' => if Rltb best a then argmax_from l' (S i) a i
               else argmax_from l' (S i) best best_i
  end.

Definition np_argmax (l : list R) : result nat :=
  match l with
  | [] => Raise (ValueError "attempt to get argmax of an empty sequence")
  | a :: l' => Ok (argmax_from l' 1 a 0)
  end.

(** [np.argmin]: the first index of the least entry. *)
Fixpoint argmin_from (l : list R) (i : nat) (best : R) (best_i : nat) : nat :=
  match l with
  | [] => best_i
  | a :: l' => if Rltb a best then argmin_from l' (S i) a i
               else argmin_from l' (S i) best best_i
  end.

Definition np_argmin (l : list R) : result nat :=
  match l with
  | [] => Raise (ValueError "attempt to get argmin of an empty sequence")
  | a :: l' => Ok (argmin_from l' 1 a 0)
  end.

(** [np.mean] of a 1-D array (on an empty array numpy yields NaN, which the
    real-number model does not represent; every use below is on a
    non-empty array). *)
Definition np_mean (l : list R) : R := np_sum l / INR (length l).

(** [np.mean(points, axis=0)]. *)
Definition mean_axis0 (points : list Vec3) : Vec3 :=
  V3 (np_mean (map c0 points)) (np_mean (map c1 points)) (np_mean (map c2 points)).

(** [np.max(points, axis=0)] and [np.min(points, axis=0)]. *)
Definition max_axis0 (points : list Vec3) : result Vec3 :=
  a <- np_max (map c0 points) ;;
  b <- np_max (map c1 points) ;;
  c <- np_max (map c2 points) ;;
  Ok (V3 a b c).

Definition min_axis0 (points : list Vec3) : result Vec3 :=
  a <- np_min (map c0 points) ;;
  b <- np_min (map c1 points) ;;
  c <- np_min (map c2 points) ;;
  Ok (V3 a b c).

(** Boolean-mask indexing [array[mask]]. *)
Definition mask_select {A : Type} (mask : list bool) (l : list A) : list A :=
  map snd (filter fst (combine mask l)).

(** [np.sum(mask)]: the number of [True] entries. *)
Definition count_true (mask : list bool) : nat := length (filter (fun b => b) mask).

(** [np.diff]. *)
Definition np_diff (l : list R) : list R :=
  map (fun ab => snd ab - fst ab) (combine l (tl l)).

(** [np.linspace(start, stop, num)] with the end point included. *)
Definition np_linspace (start stop : R) (num : nat) : list R :=
  let step := (stop - start) / INR (num - 1) in
  map (fun i => if Nat.eqb (S i) num then stop else INR i * step + start) (seq 0 num).

(** One entry of the full discrete convolution: [sum_j a[j] * v[k - j]]. *)
Definition convolve_at (a v : list R) (k : nat) : R :=
  np_sum (map (fun j => if Nat.leb j k && Nat.ltb (k - j) (length v)
                        then nth j a 0 * nth (k - j) v 0 else 0)
              (seq 0 (length a))).

(** [np.convolve(a, v, mode="same")]: the central [max(len a, len v)]
    entries of the full convolution. *)
Definition np_convolve_same (a v : list R) : result (list R) :=
  let '(a, v) := if Nat.ltb (length a) (length v) then (v, a) else (a, v) in
  if Nat.eqb (length a) 0 then Raise (ValueError "a cannot be empty")
  else if Nat.eqb (length v) 0 then Raise (ValueError "v cannot be empty")
  else Ok (map (fun i => convolve_at a v (i + (length v - 1) / 2)) (seq 0 (length a))).

(** [np.argsort]: indices that sort the array; insertion of the indices in
    order keeps equal keys in index order. *)
Fixpoint insert_index (key : nat -> R) (i : nat) (sorted : list nat) : list nat :=
  match sorted with
  | [] => [i]
  | j :: rest => if Rleb (key j) (key i) then j :: insert_index key i rest
                 else i :: sorted
  end.

Definition np_argsort (l : list R) : list nat :=
  fold_left (fun sorted i => insert_index (fun j => nth j l 0) i sorted)
            (seq 0 (length l)) [].

(** 3x3 arrays, by rows. *)
Record Mat3 : Type := M3 { row0 : Vec3; row1 : Vec3; row2 : Vec3 }.

Definition m3_transpose (m : Mat3) : Mat3 :=
  M3 (V3 (c0 (row0 m)) (c0 (row1 m)) (c0 (row2 m)))
     (V3 (c1 (row0 m)) (c1 (row1 m)) (c1 (row2 m)))
     (V3 (c2 (row0 m)) (c2 (row1 m)) (c2 (row2 m))).

Definition m3_tolist (m : Mat3) : list (list R) :=
  [v3_tolist (row0 m); v3_tolist (row1 m); v3_tolist (row2 m)].

(** [v[idx]] for an index array of length three. *)
Definition v3_take (v : Vec3) (idx : list nat) : Vec3 :=
  let l := v3_tolist v in
  V3 (nth (nth 0 idx 0%nat) l 0) (nth (nth 1 idx 0%nat) l 0) (nth (nth 2 idx 0%nat) l 0).

(** [m[:, idx]]: the columns are permuted as [idx] says. *)
Definition m3_take_columns (m : Mat3) (idx : list nat) : Mat3 :=
  M3 (v3_take (row0 m) idx) (v3_take (row1 m) idx) (v3_take (row2 m) idx).

(** [np.cov(centered.T)]: the rows of the argument are the three
    coordinates; each is centred again and the products are divided by
    [N - 1] (numpy yields NaN when [N <= 1]; the model is meant for
    [N >= 2]). *)
Definition np_cov (points : list Vec3) : Mat3 :=
  let avg := mean_axis0 points in
  let X := map (fun p => v3_sub p avg) points in
  let fact := INR (length points) - 1 in
  let entry (f g : Vec3 -> R) := np_sum (map (fun p => f p * g p) X) * (1 / fact) in
  M3 (V3 (entry c0 c0) (entry c0 c1) (entry c0 c2))
     (V3 (entry c1 c0) (entry c1 c1) (entry c1 c2))
     (V3 (entry c2 c0) (entry c2 c1) (entry c2 c2)).

(** Python dicts with string keys, in insertion order. *)
Fixpoint dict_set {V : Type} (d : list (string * V)) (k : string) (v : V)
  : list (string * V) :=
  match d with
  | [] => [(k, v)]
  | (k', v') :: d' => if String.eqb k' k then (k, v) :: d'
                      else (k', v') :: dict_set d' k v
  end.

(** The JSON-like values of the detectors' metadata. *)
Inductive pyvalue : Type :=
| PyNone
| PyStr (s : string)
| PyInt (n : nat)
| PyFloats (l : list R)
| PyMatrix (m : list (list R))
| PyStrs (l : list string).

(** What [detect_landmarks] returns: [{"landmarks": .., "metadata": ..}]. *)
Record detection : Type := mkDetection {
  det_landmarks : list (string * list R);
  det_metadata : list (string * pyvalue)
}.

(** The attributes of a detector object ([__init__] sets them to
    [None] / [{}]). *)
Record detector : Type := mkDetector {
  vertices : option (list Vec3);
  faces : option (list (list nat));
  centroid : option Vec3;
  principal_axes : option Mat3;
  landmarks : list (string * list R)
}.

Definition detector_init : detector := mkDetector None None None None [].

Definition set_landmark (self : detector) (k : string) (v : list R) : detector :=
  mkDetector (vertices self) (faces self) (centroid self) (principal_axes self)
             (dict_set (landmarks self) k v).

(** Distance of [v] to the line through [center] along [axis], as both
    detectors compute it. *)
Definition distance_from_axis (center axis v : Vec3) : R :=
  let to_vertex := v3_sub v center in
  let projected_on_axis := v3_scale (v3_dot to_vertex axis) axis in
  let perpendicular := v3_sub to_vertex projected_on_axis in
  v3_norm perpendicular.

(** ** density_landmark_detector.py *)

Module Density.
Section Detector.

(** [np.linalg.eigh] (LAPACK): eigenvalues in ascending order and the
  matrix whose columns are the eigenvectors, or LinAlgError.  It is
  external to the repository and enters as a parameter. *)
Variable eigh : Mat3 -> result (Vec3 * Mat3).

Definition _analyze_mesh_geometry (self : detector) : result detector :=
match vertices self with
| None => Raise (ValueError "No vertices available for analysis")
| Some vs =>
    let centroid := mean_axis0 vs in
    let centered_vertices := map (fun v => v3_sub v centroid) vs in
    let covariance_matrix := np_cov centered_vertices in
    ev <- eigh covariance_matrix ;;
    let eigenvalues := fst ev in
    let eigenvectors := snd ev in
    let sort_indices := rev (np_argsort (v3_tolist eigenvalues)) in
    let eigenvalues := v3_take eigenvalues sort_indices in
    let eigenvectors := m3_take_columns eigenvectors sort_indices in
    Ok (mkDetector (vertices self) (faces self) (Some centroid)
                   (Some (m3_transpose eigenvectors)) (landmarks self))
end.

Definition _fallback_to_extremes (self : detector) (projections : list R)
: result detector :=
min_idx <- np_argmin projections ;;
max_idx <- np_argmax projections ;;
match vertices self with
| None => Raise (TypeError "'NoneType' object is not subscriptable")
| Some vs =>
    nose <- getitem vs max_idx ;;
    let self := set_landmark self "nose" (v3_tolist nose) in
    tail_tip <- getitem vs min_idx ;;
    let self := set_landmark self "tail_tip" (v3_tolist tail_tip) in
    let nose_point := nose in
    let tail_point := tail_tip in
    let tail_attachment :=
      v3_add nose_point (v3_scale 0.7 (v3_sub tail_point nose_point)) in
    Ok (set_landmark self "tail_attachment" (v3_tolist tail_attachment))
end.

Definition num_slices : nat := 40.

(** The body of the slice loop: [Some (density, centre, count)] when the
  slice holds more than five vertices, [None] when it is skipped. *)
Definition analyze_slice (vs : list Vec3) (projections : list R)
         (centroid primary_axis : Vec3) (slice_thickness slice_pos : R)
: option (R * R * nat) :=
let distances_to_slice := map (fun p => Rabs (p - slice_pos)) projections in
let slice_vertices :=
  mask_select (map (fun d => Rleb d slice_thickness) distances_to_slice) vs in
if Nat.ltb 5 (length slice_vertices) then
  let slice_center_3d := v3_add centroid (v3_scale slice_pos primary_axis) in
  let distances_from_axis :=
    map (distance_from_axis slice_center_3d primary_axis) slice_vertices in
  let vertex_count := length slice_vertices in
  let max_radius :=
    match distances_from_axis with
    | [] => 0
    | d :: ds => fold_left Rmax ds d
    end in
  let cross_sectional_area :=
    if Rltb 0 max_radius then PI * max_radius ^ 2 else 1e-6 in
  let density := INR vertex_count / cross_sectional_area in
  Some (density, slice_pos, vertex_count)
else None.

(** The retained slices, in the order of the slice positions. *)
Definition analyze_slices (vs : list Vec3) (projections : list R)
         (centroid primary_axis : Vec3) (min_proj max_proj : R)
: list (R * R * nat) :=
let slice_positions := np_linspace min_proj max_proj num_slices in
let slice_thickness := (max_proj - min_proj) / (INR num_slices * 1.5) in
flat_map (fun slice_pos =>
            match analyze_slice vs projections centroid primary_axis
                                slice_thickness slice_pos with
            | Some s => [s]
            | None => []
            end)
         slice_positions.

(** The most extreme vertex of a region: among the vertices whose
  projection is within [region_tolerance] of [region_center], or over
  the whole cloud when there is none. *)
Definition region_extreme (vs : list Vec3) (projections : list R)
         (region_center region_tolerance : R) (take_max : bool) : result Vec3 :=
let region_mask :=
  map (fun p => Rleb (Rabs (p - region_center)) region_tolerance) projections in
if Nat.ltb 0 (count_true region_mask) then
  let candidates := mask_select region_mask vs in
  let region_projections := mask_select region_mask projections in
  idx <- (if take_max then np_argmax region_projections
          else np_argmin region_projections) ;;
  getitem candidates idx
else
  idx <- (if take_max then np_argmax projections else np_argmin projections) ;;
  getitem vs idx.

Definition _detect_nose_and_tail_by_density (self : detector) : result detector :=
match principal_axes self, vertices self, centroid self with
| Some axes, Some vs, Some centroid =>
    let primary_axis := row0 axes in
    let projections := map (fun v => v3_dot (v3_sub v centroid) primary_axis) vs in
    min_proj <- np_min projections ;;
    max_proj <- np_max projections ;;
    let slices := analyze_slices vs projections centroid primary_axis
                                 min_proj max_proj in
    let slice_densities := map (fun s => fst (fst s)) slices in
    let slice_centers := map (fun s => snd (fst s)) slices in
    if Nat.ltb (length slice_densities) 10 then
      _fallback_to_extremes self projections
    else
      let window_size := Nat.max 3 (length slice_densities / 8) in
      smoothed_densities <-
        np_convolve_same slice_densities
                         (repeat (1 / INR window_size) window_size) ;;
      let density_gradients := np_diff smoothed_densities in
      max_gradient_idx <- np_argmax density_gradients ;;
      tail_body_transition_pos <- getitem slice_centers max_gradient_idx ;;
      let tail_side_mask :=
        map (fun c => Rleb c tail_body_transition_pos) slice_centers in
      let body_side_mask :=
        map (fun c => Rltb tail_body_transition_pos c) slice_centers in
      if Nat.ltb 2 (count_true tail_side_mask)
         && Nat.ltb 2 (count_true body_side_mask) then
        let tail_side_avg_density :=
          np_mean (mask_select tail_side_mask smoothed_densities) in
        let body_side_avg_density :=
          np_mean (mask_select body_side_mask smoothed_densities) in
        let '(tail_region_center, head_region_center) :=
          if Rltb tail_side_avg_density body_side_avg_density
          then (np_mean (mask_select tail_side_mask slice_centers),
                np_mean (mask_select body_side_mask slice_centers))
          else (np_mean (mask_select body_side_mask slice_centers),
                np_mean (mask_select tail_side_mask slice_centers)) in
        let region_tolerance := (max_proj - min_proj) * 0.25 in
        nose_point <-
          region_extreme vs projections head_region_center region_tolerance
                         (Rltb tail_region_center head_region_center) ;;
        tail_point <-
          region_extreme vs projections tail_region_center region_tolerance
                         (negb (Rltb tail_region_center head_region_center)) ;;
        let self := set_landmark self "nose" (v3_tolist nose_point) in
        let self := set_landmark self "tail_tip" (v3_tolist tail_point) in
        let tail_attachment_3d :=
          v3_add centroid (v3_scale tail_body_transition_pos primary_axis) in
        let distances_to_attachment :=
          map (fun v => v3_norm (v3_sub v tail_attachment_3d)) vs in
        attachment_idx <- np_argmin distances_to_attachment ;;
        attachment <- getitem vs attachment_idx ;;
        Ok (set_landmark self "tail_attachment" (v3_tolist attachment))
      else
        _fallback_to_extremes self projections
| _, _, _ => Raise (ValueError "Missing required data for density-based detection")
end.

Definition _format_results (self : detector) : detection :=
mkDetection
  (landmarks self)
  [ ("detection_method"%string, PyStr "density_analysis");
    ("coordinate_system"%string, PyStr "mesh_relative");
    ("centroid"%string,
     match centroid self with
     | Some c => PyFloats (v3_tolist c)
     | None => PyNone
     end);
    ("principal_axes"%string,
     match principal_axes self with
     | Some m => PyMatrix (m3_tolist m)
     | None => PyNone
     end);
    ("landmarks_detected"%string, PyStrs (map fst (landmarks self)));
    ("vertex_count"%string,
     PyInt (match vertices self with
            | Some vs => length vs
            | None => 0%nat
            end)) ].

(** [detect_landmarks]: the [try] block re-raises whatever a step
  raises, so an exception of a step is the exception of the call.  The
  detector object after a call that returns is returned with the result;
  after a call that raises, the object of the source keeps what had been
  assigned up to the failure (and for the rest its previous attributes),
  which [Raise] does not record. *)
Definition detect_landmarks (self : detector) (vs : list Vec3)
         (fs : option (list (list nat))) : result (detection * detector) :=
let self := mkDetector (Some vs) fs (centroid self) (principal_axes self) [] in
self <- _analyze_mesh_geometry self ;;
self <- _detect_nose_and_tail_by_density self ;;
Ok (_format_results self, self).

End Detector.
End Density.

(** ** geometric_landmark_detector.py *)

(** A 2-D numpy array as the detector receives it: [shape[1]] and the
    rows (each of [shape[1]] floats). *)
Record ndarray2 : Type := mkNdarray2 { shape1 : nat; rows : list (list R) }.

(** [str] of a non-negative int, and of the [shape] tuple of a 2-D array,
    as the f-string of the shape guard prints it. *)
Definition str_of_int (n : nat) : string := NilEmpty.string_of_uint (Nat.to_uint n).

Definition str_of_shape (a : ndarray2) : string :=
  String.append "("
    (String.append (str_of_int (length (rows a)))
       (String.append ", " (String.append (str_of_int (shape1 a)) ")"))).

Definition rows_to_vec3 (a : ndarray2) : list Vec3 :=
  map (fun row => V3 (nth 0 row 0) (nth 1 row 0) (nth 2 row 0)) (rows a).

Module Geometric.
Section Detector.

(** [sklearn.decomposition.PCA(n_components=3).fit]: the rows of
  [components_] and [explained_variance_ratio_], or an exception.  It
  is external to the repository and enters as a parameter. *)
Variable pca_fit : list Vec3 -> result (Mat3 * Vec3).

Definition _analyze_mesh_geometry (self : detector) : result detector :=
match vertices self with
| None => Raise (ValueError "No vertices available for analysis")
| Some vs =>
    let centroid := mean_axis0 vs in
    let centered_vertices := map (fun v => v3_sub v centroid) vs in
    pca <- pca_fit centered_vertices ;;
    Ok (mkDetector (vertices self) (faces self) (Some centroid)
                   (Some (fst pca)) (landmarks self))
end.

(** The inner function [calculate_sharpness]: the mean increase of the
  average cross-section radius over three slices inward from an
  extreme. *)
Definition calculate_sharpness (vs : list Vec3) (mesh_size : R)
         (extreme_point axis_direction : Vec3) : R :=
let step_size := mesh_size * 0.02 in
let sharpness_samples :=
  flat_map
    (fun i =>
       let sample_point :=
         v3_add extreme_point (v3_scale (INR i) (v3_scale step_size axis_direction)) in
       let slice_thickness := mesh_size * 0.01 in
       let projected_dists :=
         map (fun v => Rabs (v3_dot (v3_sub v sample_point) axis_direction)) vs in
       let slice_vertices :=
         mask_select (map (fun d => Rleb d slice_thickness) projected_dists) vs in
       if Nat.ltb 0 (length slice_vertices) then
         let distances_from_axis :=
           map (distance_from_axis sample_point axis_direction) slice_vertices in
         [np_mean distances_from_axis]
       else [])
    [1%nat; 2%nat; 3%nat] in
if Nat.leb 2 (length sharpness_samples) then np_mean (np_diff sharpness_samples)
else 0.

Definition v3_eqb (a b : Vec3) : bool :=
Reqb (c0 a) (c0 b) && Reqb (c1 a) (c1 b) && Reqb (c2 a) (c2 b).

Definition _detect_nose_and_tail (self : detector) : result detector :=
match principal_axes self, vertices self, centroid self with
| Some axes, Some vs, Some centroid =>
    let primary_axis := row0 axes in
    let projections := map (fun v => v3_dot (v3_sub v centroid) primary_axis) vs in
    min_proj_idx <- np_argmin projections ;;
    max_proj_idx <- np_argmax projections ;;
    extreme1_point <- getitem vs min_proj_idx ;;
    extreme2_point <- getitem vs max_proj_idx ;;
    hi <- max_axis0 vs ;;
    lo <- min_axis0 vs ;;
    let mesh_size := v3_norm (v3_sub hi lo) in
    let search_radius := mesh_size * 0.03 in
    let nearby1_count :=
      count_true (map (fun v => Rleb (v3_norm (v3_sub v extreme1_point)) search_radius) vs) in
    let nearby2_count :=
      count_true (map (fun v => Rleb (v3_norm (v3_sub v extreme2_point)) search_radius) vs) in
    let axis_direction1 :=
      v3_div (v3_sub extreme2_point extreme1_point)
             (v3_norm (v3_sub extreme2_point extreme1_point)) in
    let sharpness1 := calculate_sharpness vs mesh_size extreme1_point axis_direction1 in
    let axis_direction2 :=
      v3_div (v3_sub extreme1_point extreme2_point)
             (v3_norm (v3_sub extreme1_point extreme2_point)) in
    let sharpness2 := calculate_sharpness vs mesh_size extreme2_point axis_direction2 in
    let density_score1 := - INR nearby1_count in
    let density_score2 := - INR nearby2_count in
    let combined_score1 := density_score1 + sharpness1 * 1000 in
    let combined_score2 := density_score2 + sharpness2 * 1000 in
    let '(nose_point, tail_point) :=
      if Rltb combined_score2 combined_score1
      then (extreme1_point, extreme2_point)
      else (extreme2_point, extreme1_point) in
    let nose_density :=
      if v3_eqb nose_point extreme1_point then nearby1_count else nearby2_count in
    let tail_density :=
      if v3_eqb nose_point extreme1_point then nearby2_count else nearby1_count in
    let '(nose_point, tail_point) :=
      if Nat.ltb tail_density nose_density
      then (tail_point, nose_point)
      else (nose_point, tail_point) in
    let self := set_landmark self "nose" (v3_tolist nose_point) in
    let self := set_landmark self "tail_tip" (v3_tolist tail_point) in
    let tail_attachment :=
      v3_add nose_point (v3_scale 0.7 (v3_sub tail_point nose_point)) in
    Ok (set_landmark self "tail_attachment" (v3_tolist tail_attachment))
| _, _, _ => Raise (ValueError "Missing required data for nose/tail detection")
end.

(** [vertices - a] for a 1-D array [a] against the rows of an Nx3 array:
  numpy broadcasts an array of three entries, or of one; any other length
  is an error. *)
Definition broadcast_row (a : list R) : result Vec3 :=
match a with
| [s] => Ok (V3 s s s)
| [a0; a1; a2] => Ok (V3 a0 a1 a2)
| _ => Raise (ValueError "operands could not be broadcast together")
end.

(** [_detect_ears]: the lookup [self.landmarks["nose"]] follows the test
  ["nose" not in self.landmarks], so the two are one [dict_get]. *)
Definition _detect_ears (self : detector) : result detector :=
match Interfaces.dict_get (landmarks self) "nose" with
| None => Ok self
| Some nose =>
    match vertices self, principal_axes self with
    | Some vs, Some axes =>
        hi <- max_axis0 vs ;;
        lo <- min_axis0 vs ;;
        let mesh_size := v3_norm (v3_sub hi lo) in
        let head_region_radius := mesh_size * 0.15 in
        nose <- broadcast_row nose ;;
        let distances_from_nose := map (fun v => v3_norm (v3_sub v nose)) vs in
        let head_mask := map (fun d => Rleb d head_region_radius) distances_from_nose in
        let head_vertices_array := mask_select head_mask vs in
        if Nat.ltb (length head_vertices_array) 10 then Ok self
        else
          let secondary_axis := row1 axes in
          let projections :=
            map (fun v => v3_dot (v3_sub v nose) secondary_axis) head_vertices_array in
          left_idx <- np_argmin projections ;;
          right_idx <- np_argmax projections ;;
          left_ear <- getitem head_vertices_array left_idx ;;
          right_ear <- getitem head_vertices_array right_idx ;;
          let self := set_landmark self "left_ear" (v3_tolist left_ear) in
          let self := set_landmark self "right_ear" (v3_tolist right_ear) in
          Ok self
    | _, _ => Raise (ValueError "No vertices or principal axes available for ear detection")
    end
end.

Definition _detect_feet (self : detector) : result detector :=
match vertices self with
| None => Ok self
| Some vertices =>
    min_coords <- min_axis0 vertices ;;
    max_coords <- max_axis0 vertices ;;
    let y_range := c1 max_coords - c1 min_coords in
    let bottom_threshold := c1 min_coords + 0.1 * y_range in
    let bottom_mask := map (fun v => Rleb (c1 v) bottom_threshold) vertices in
    let bottom_vertices := mask_select bottom_mask vertices in
    if Nat.ltb (length bottom_vertices) 4 then Ok self
    else
      bottom_min <- min_axis0 bottom_vertices ;;
      bottom_max <- max_axis0 bottom_vertices ;;
      let front_z := c2 bottom_max - 0.2 * (c2 bottom_max - c2 bottom_min) in
      let back_z := c2 bottom_min + 0.2 * (c2 bottom_max - c2 bottom_min) in
      let left_x := c0 bottom_min + 0.1 * (c0 bottom_max - c0 bottom_min) in
      let right_x := c0 bottom_max - 0.1 * (c0 bottom_max - c0 bottom_min) in
      let foot_y := c1 bottom_min in
      let self := set_landmark self "front_left_foot" [left_x; foot_y; front_z] in
      let self := set_landmark self "front_right_foot" [right_x; foot_y; front_z] in
      let self := set_landmark self "back_left_foot" [left_x; foot_y; back_z] in
      let self := set_landmark self "back_right_foot" [right_x; foot_y; back_z] in
      Ok self
end.

(** [_format_results]: a landmark is kept when it is a list of three
  (finite) coordinates. *)
Definition _format_results (self : detector) : detection :=
let formatted_landmarks :=
  filter (fun kv => Nat.eqb (length (snd kv)) 3) (landmarks self) in
mkDetection
  formatted_landmarks
  [ ("detection_method"%string, PyStr "pure_geometric");
    ("coordinate_system"%string, PyStr "mesh_relative");
    ("principal_axes"%string,
     match principal_axes self with
     | Some m => PyMatrix (m3_tolist m)
     | None => PyNone
     end);
    ("centroid"%string,
     match centroid self with
     | Some c => PyFloats (v3_tolist c)
     | None => PyNone
     end);
    ("vertex_count"%string,
     PyInt (match vertices self with
            | Some vs => length vs
            | None => 0%nat
            end));
    ("landmarks_detected"%string, PyStrs (map fst formatted_landmarks)) ].

(** [detect_landmarks]: the shape guard comes first, before anything is
    assigned; the steps for ears, feet and whiskers are commented out in
    the source.  The argument is a two-dimensional array (on an array of
    one dimension [vertices.shape[1]] is an IndexError, which the type
    excludes).  As in the density detector, the detector object is
    returned for a call that returns only. *)
Definition detect_landmarks (self : detector) (vs : ndarray2)
         (fs : option (list (list nat))) : result (detection * detector) :=
if negb (Nat.eqb (shape1 vs) 3)
then Raise (ValueError (String.append "Vertices must be Nx3 array, got " (str_of_shape vs)))
else
  let self := mkDetector (Some (rows_to_vec3 vs)) fs (centroid self)
                         (principal_axes self) [] in
  self <- _analyze_mesh_geometry self ;;
  self <- _detect_nose_and_tail self ;;
  Ok (_format_results self, self).

End Detector.
End Geometric.

(** * Specification: the vocabulary of the statements

    Everything below this line is about the embedding above; none of it
    is code of the repository. *)

Import Interfaces GeometryService.

(** ** Validated values *)

Definition in_range (v : R) : Prop := -1e10 <= v <= 1e10.

(** What every [Vector3D] built by its constructor satisfies. *)
Definition valid_vector (v : Vector3D) : Prop :=
  in_range (x v) /\ in_range (y v) /\ in_range (z v).

Definition is_zero (v : Vector3D) : Prop := x v = 0 /\ y v = 0 /\ z v = 0.
Definition neg_vector (v : Vector3D) : Vector3D := mkVector3D (- x v) (- y v) (- z v).
Definition difference (a b : Vector3D) : Vector3D :=
  mkVector3D (x a - x b) (y a - y b) (z a - z b).
Definition to_vec3 (v : Vector3D) : Vec3 := V3 (x v) (y v) (z v).
Definition of_vec3 (v : Vec3) : Vector3D := mkVector3D (c0 v) (c1 v) (c2 v).
Definition norm (v : Vector3D) : R := v3_norm (to_vec3 v).
Definition valid_axis (axis : string) : Prop := In axis ["x"; "y"; "z"]%string.

(** [max(-1, min(1, d))]. *)
Definition clamp (d : R) : R := Rmax (-1) (Rmin 1 d).

(** ** Linear maps of three-space *)

Definition m3_apply (r : Mat3) (u : Vec3) : Vec3 :=
  V3 (v3_dot (row0 r) u) (v3_dot (row1 r) u) (v3_dot (row2 r) u).

Definition m3_scale (s : R) (r : Mat3) : Mat3 :=
  M3 (v3_scale s (row0 r)) (v3_scale s (row1 r)) (v3_scale s (row2 r)).

Definition m3_identity : Mat3 := M3 (V3 1 0 0) (V3 0 1 0) (V3 0 0 1).

Definition m3_entries (r : Mat3) : list R :=
  v3_tolist (row0 r) ++ v3_tolist (row1 r) ++ v3_tolist (row2 r).

Definition m3_eqb (a b : Mat3) : bool :=
  forallb (fun xy => Reqb (fst xy) (snd xy)) (combine (m3_entries a) (m3_entries b)).

(** The homogeneous 4x4 matrix with linear part [r] and no translation. *)
Definition mat4_of (r : Mat3) : list (list R) :=
  [ [c0 (row0 r); c1 (row0 r); c2 (row0 r); 0];
    [c0 (row1 r); c1 (row1 r); c2 (row1 r); 0];
    [c0 (row2 r); c1 (row2 r); c2 (row2 r); 0];
    [0; 0; 0; 1] ].

(** The [scale_matrix] literal of [calculate_alignment_matrix]. *)
Definition scale_matrix (s : R) : list (list R) :=
  [ [s; 0; 0; 0]; [0; s; 0; 0]; [0; 0; s; 0]; [0; 0; 0; 1] ].

(** Rodrigues' matrix [I + s K + t K^2] for the axis [k], entry by entry. *)
Definition rodrigues (s t : R) (k : Vec3) : Mat3 :=
  M3 (V3 (1 - t * (c1 k * c1 k + c2 k * c2 k))
         (t * (c0 k * c1 k) - s * c2 k)
         (t * (c0 k * c2 k) + s * c1 k))
     (V3 (t * (c0 k * c1 k) + s * c2 k)
         (1 - t * (c0 k * c0 k + c2 k * c2 k))
         (t * (c1 k * c2 k) - s * c0 k))
     (V3 (t * (c0 k * c2 k) - s * c1 k)
         (t * (c1 k * c2 k) + s * c0 k)
         (1 - t * (c0 k * c0 k + c1 k * c1 k))).

Definition isometry (r : Mat3) : Prop :=
  forall u, v3_dot (m3_apply r u) (m3_apply r u) = v3_dot u u.

(** [v / np.linalg.norm(v)]. *)
Definition unit3 (v : Vec3) : Vec3 := v3_div v (v3_norm v).

(** The axis of the half turn built in the antiparallel branch. *)
Definition half_turn_axis (a : Vec3) : Vec3 :=
  let perp := if Rltb (Rabs (c0 a)) 0.9 then V3 1 0 0 else V3 0 1 0 in
  unit3 (v3_cross a perp).

(** What the upper-left 3x3 block of a transform does to a vector, and
    the translation column. *)
Definition upper_left_apply (m : TransformationMatrix) (u : Vec3) : Vec3 :=
  V3 (np_dot (firstn 3 (nth 0 (matrix m) [])) (v3_tolist u))
     (np_dot (firstn 3 (nth 1 (matrix m) [])) (v3_tolist u))
     (np_dot (firstn 3 (nth 2 (matrix m) [])) (v3_tolist u)).

Definition translation (m : TransformationMatrix) : Vec3 :=
  V3 (nth 3 (nth 0 (matrix m) []) 0) (nth 3 (nth 1 (matrix m) []) 0)
     (nth 3 (nth 2 (matrix m) []) 0).

(** The quarter turn from the x axis onto the z axis, scaled by 8. *)
Definition x_to_z_scaled_8 : list (list R) :=
  [ [0; 0; -8; 0]; [0; 8; 0; 0]; [8; 0; 0; 0]; [0; 0; 0; 1] ].

(** ** Alignment errors *)

Definition canonical_axis (axis : string) : Vec3 :=
  if String.eqb axis "x" then V3 1 0 0
  else if String.eqb axis "y" then V3 0 1 0
  else V3 0 0 1.

(** The spec's formula for the angular deviation of a vector from a
    canonical axis, [degrees(acos(|normalize(v) . target_axis|))]: it
    follows the words of the spec, not the code. *)
Definition angular_deviation (v : Vector3D) (axis : string) : R :=
  degrees (acos (Rabs (v3_dot (unit3 (to_vec3 v)) (canonical_axis axis)))).

(** The error of a unit direction against a canonical axis. *)
Definition direction_error (w : Vec3) (axis : string) : R :=
  degrees (acos (Rabs (v3_dot w (canonical_axis axis)))).

Definition error_of (r : AlignmentResult) (key : string) : option R :=
  dict_get (alignment_errors r) key.

(** The optional face centre, when present, goes through the transform. *)
Definition face_center_transforms (m : TransformationMatrix) (l : LandmarkSet) : Prop :=
  match face_center l with
  | Some fc => exists fc', transform_point m fc = Ok fc'
  | None => True
  end.

Definition landmark_points (l : LandmarkSet) : list Vector3D :=
  [nose l; tail l; left_ear l; right_ear l]
  ++ match face_center l with
     | Some f => [f]
     | None => []
     end.


(** ** Principal axes *)

(** [vertices - centroid]. *)
Definition centered (vs : list Vec3) : list Vec3 :=
  map (fun v => v3_sub v (mean_axis0 vs)) vs.

Definition orthonormal_rows (m : Mat3) : Prop :=
  v3_dot (row0 m) (row0 m) = 1 /\ v3_dot (row1 m) (row1 m) = 1 /\
  v3_dot (row2 m) (row2 m) = 1 /\
  v3_dot (row0 m) (row1 m) = 0 /\ v3_dot (row0 m) (row2 m) = 0 /\
  v3_dot (row1 m) (row2 m) = 0.

(** The spec's tolerance form: [|axes[i] . axes[j]| < eps] and
    [| |axes[i]| - 1 | < eps]. *)
Definition orthonormal_within (eps : R) (m : Mat3) : Prop :=
  Rabs (v3_dot (row0 m) (row1 m)) < eps /\ Rabs (v3_dot (row0 m) (row2 m)) < eps /\
  Rabs (v3_dot (row1 m) (row2 m)) < eps /\
  Rabs (v3_norm (row0 m) - 1) < eps /\ Rabs (v3_norm (row1 m) - 1) < eps /\
  Rabs (v3_norm (row2 m) - 1) < eps.

(** The contract of the eigen-solver: [w] and the columns of [V] are
    eigenpairs of [A]. *)
Definition eigenpairs (A : Mat3) (w : Vec3) (V : Mat3) : Prop :=
  let Vt := m3_transpose V in
  m3_apply A (row0 Vt) = v3_scale (c0 w) (row0 Vt) /\
  m3_apply A (row1 Vt) = v3_scale (c1 w) (row1 Vt) /\
  m3_apply A (row2 Vt) = v3_scale (c2 w) (row2 Vt).

(** The quadratic form of a covariance matrix [A] in a direction. *)
Definition variance_along (A : Mat3) (u : Vec3) : R := v3_dot u (m3_apply A u).

(** The sample variance of the projections of a cloud onto a direction
    (the projections of the centred cloud have mean zero). *)
Definition projection_variance (vs : list Vec3) (u : Vec3) : R :=
  np_sum (map (fun p => v3_dot (v3_sub p (mean_axis0 vs)) u ^ 2) vs)
  * (1 / (INR (length vs) - 1)).

(** An eigen-solver known at one matrix: it answers [(w, V)] there and
    fails elsewhere.  It stands for [np.linalg.eigh] in closed examples. *)
Definition eigh_known (A0 : Mat3) (w : Vec3) (V : Mat3) : Mat3 -> result (Vec3 * Mat3) :=
  fun A => if m3_eqb A A0 then Ok (w, V)
           else Raise (LinAlgError "Eigenvalues did not converge").

(** ** Landmark detection *)

(** [np.dot(vertices - centroid, primary_axis)]. *)
Definition density_projections (vs : list Vec3) (c axis : Vec3) : list R :=
  map (fun v => v3_dot (v3_sub v c) axis) vs.

(** The three landmarks that either path of the density detector sets. *)
Definition with_landmarks (self : detector) (nose tail_tip tail_attachment : Vec3) : detector :=
  set_landmark
    (set_landmark (set_landmark self "nose" (v3_tolist nose)) "tail_tip" (v3_tolist tail_tip))
    "tail_attachment" (v3_tolist tail_attachment).

Definition landmark_names : list string := ["nose"; "tail_tip"; "tail_attachment"]%string.

(** The global-extremes estimate of the fallback: the vertices of greatest
    and of least projection. *)
Definition extremes_estimate (vs : list Vec3) (projections : list R)
           (nose tail_tip : Vec3) : Prop :=
  exists max_idx min_idx,
    np_argmax projections = Ok max_idx /\ np_argmin projections = Ok min_idx /\
    nth_error vs max_idx = Some nose /\ nth_error vs min_idx = Some tail_tip.

(** The spec's "confidence/method-used metadata field": a degraded result
    is reported in the metadata when it carries a confidence entry or
    names a method other than the regular density analysis. *)
Definition flags_low_confidence (metadata : list (string * pyvalue)) : Prop :=
  has_key metadata "confidence" = true \/
  dict_get metadata "detection_method" <> Some (PyStr "density_analysis").

(** The detector once [detect_landmarks] has stored the mesh and emptied
    the landmarks, before its first step. *)
Definition mesh_stored (self : detector) (vs : list Vec3) (fs : option (list (list nat)))
  : detector :=
  mkDetector (Some vs) fs (centroid self) (principal_axes self) [].

(** A step of [detect_landmarks] raises [e]: the analysis does, or the
    analysis returns and the nose/tail step raises [e] on what it left. *)
Definition step_raises (analyse detect : detector -> result detector)
           (self : detector) (e : exn) : Prop :=
  analyse self = Raise e \/ exists st, analyse self = Ok st /\ detect st = Raise e.

(** ** Concrete inputs *)

(** The defaults of [GeometryParameters]. *)
Definition default_params : GeometryParameters := mkGeometryParameters 8 0.5 "x" "z".

(** Nose at the origin, tail one unit up the z axis, ears on the x axis. *)
Definition aligned_landmarks : LandmarkSet :=
  mkLandmarkSet (mkVector3D 0 0 0) (mkVector3D 0 0 1)
                (mkVector3D (-1) 0 0) (mkVector3D 1 0 0) None.


(** Nose to tail along the x axis. *)
Definition body_along_x : LandmarkSet :=
  mkLandmarkSet (mkVector3D 0 0 0) (mkVector3D 1 0 0)
                (mkVector3D 0 (-1) 0) (mkVector3D 0 1 0) None.

(** Both ears at the same point. *)
Definition coincident_ears : LandmarkSet :=
  mkLandmarkSet (mkVector3D 0 0 0) (mkVector3D 0 0 1)
                (mkVector3D 0 0 0) (mkVector3D 0 0 0) None.

Definition identity_transform : TransformationMatrix := mkTransformationMatrix (eye 4).

(** Eigenvectors along the coordinate axes, in the order z, y, x. *)
Definition axes_zyx : Mat3 := M3 (V3 0 0 1) (V3 0 1 0) (V3 1 0 0).

(** Six points on the coordinate axes: the covariance is
    [diag(18/5, 8/5, 2/5)]. *)
Definition box_cloud : list Vec3 :=
  [V3 3 0 0; V3 (-3) 0 0; V3 0 2 0; V3 0 (-2) 0; V3 0 0 1; V3 0 0 (-1)].

(** Three points on a line: the covariance is [diag(1, 0, 0)]. *)
Definition collinear_cloud : list Vec3 := [V3 (-1) 0 0; V3 0 0 0; V3 1 0 0].

(** Two points: the covariance is [diag(2, 0, 0)]. *)
Definition two_points : list Vec3 := [V3 0 0 0; V3 2 0 0].

Definition box_eigh : Mat3 -> result (Vec3 * Mat3) :=
  eigh_known (np_cov (centered box_cloud)) (V3 (2 / 5) (8 / 5) (18 / 5)) axes_zyx.
Definition collinear_eigh : Mat3 -> result (Vec3 * Mat3) :=
  eigh_known (np_cov (centered collinear_cloud)) (V3 0 0 1) axes_zyx.
Definition two_points_eigh : Mat3 -> result (Vec3 * Mat3) :=
  eigh_known (np_cov (centered two_points)) (V3 0 0 2) axes_zyx.

(** The detector after [_analyze_mesh_geometry] on [two_points]. *)
Definition two_points_analysed : detector :=
  mkDetector (Some two_points) None (Some (V3 1 0 0)) (Some m3_identity) [].

(** A 1x2 array. *)
Definition flat_array : ndarray2 := mkNdarray2 2 [[0; 0]].

(** ** Vocabulary of the further properties *)

(** The origin, and the multiple [a * v] of a vector. *)
Definition origin : Vector3D := mkVector3D 0 0 0.

Definition scale_vector (a : R) (v : Vector3D) : Vector3D :=
  mkVector3D (a * x v) (a * y v) (a * z v).

(** The cosine of the angle between two vectors, as
    [calculate_rotation_matrix] computes it. *)
Definition direction_cosine (f t : Vector3D) : R :=
  v3_dot (unit3 (to_vec3 f)) (unit3 (to_vec3 t)).

(** The shape that [validate_matrix_dimensions] accepts. *)
Definition is_4x4 (m : list (list R)) : Prop :=
  length m = 4%nat /\ Forall (fun row => length row = 4%nat) m.

(** The 4x4 matrix of zeros. *)
Definition zero_matrix : list (list R) :=
  [ [0; 0; 0; 0]; [0; 0; 0; 0]; [0; 0; 0; 0]; [0; 0; 0; 0] ].

(** The landmark set that [CVLandmarkDetector] returns. *)
Definition cv_landmarks : LandmarkSet :=
  mkLandmarkSet (mkVector3D 0 0 5) (mkVector3D 0 0 (-5))
                (mkVector3D (-2) 0 2) (mkVector3D 2 0 2) (Some (mkVector3D 0 0 3)).

(** The three landmarks as [detect_landmarks] returns them. *)
Definition landmark_dict (nose tail_tip tail_attachment : Vec3) : list (string * list R) :=
  [ ("nose"%string, v3_tolist nose); ("tail_tip"%string, v3_tolist tail_tip);
    ("tail_attachment"%string, v3_tolist tail_attachment) ].

(** The point at 70% of the way from the nose to the tail tip. *)
Definition seventy_percent (nose tail_tip : Vec3) : Vec3 :=
  v3_add nose (v3_scale 0.7 (v3_sub tail_tip nose)).

(** The cloud moved by the vector [t]. *)
Definition translate (t : Vec3) (vs : list Vec3) : list Vec3 := map (v3_add t) vs.

(** A result whose value is moved by [t]. *)
Definition shift_result (t : Vec3) (r : result Vec3) : result Vec3 :=
  match r with
  | Ok v => Ok (v3_add t v)
  | Raise e => Raise e
  end.

(** How two runs of a detection step correspond when the second cloud is
    the first one moved by [t]. *)
Definition moved_by (t : Vec3) (self self' : detector) (r r' : result detector) : Prop :=
  match r, r' with
  | Ok st, Ok st' =>
      exists nose tail_tip att,
        st = with_landmarks self nose tail_tip att /\
        st' = with_landmarks self' (v3_add t nose) (v3_add t tail_tip) (v3_add t att)
  | Raise e, Raise e' => e = e'
  | _, _ => False
  end.

(** The number of vertices within [radius] of the point [p]: the local
    density of the geometric detector. *)
Definition nearby_count (vs : list Vec3) (radius : R) (p : Vec3) : nat :=
  count_true (map (fun v => Rleb (v3_norm (v3_sub v p)) radius) vs).

(** 3% of the diagonal of the bounding box. *)
Definition search_radius (hi lo : Vec3) : R := v3_norm (v3_sub hi lo) * 0.03.

(** Nine points on the coordinate axes, spread unevenly along each: their
    mean is the origin and their covariance is [diag(21, 21/4, 7/4)]. *)
Definition uneven_cloud : list Vec3 :=
  [V3 10 0 0; V3 (-2) 0 0; V3 (-8) 0 0;
   V3 0 5 0; V3 0 (-1) 0; V3 0 (-4) 0;
   V3 0 0 3; V3 0 0 (-1); V3 0 0 (-2)].

(** The same points as a 9x3 array. *)
Definition uneven_rows : ndarray2 := mkNdarray2 3 (map v3_tolist uneven_cloud).

(** A PCA known at one cloud: there it answers the given components and
    variance ratios, elsewhere it raises. *)
Definition cloud_eqb (a b : list Vec3) : bool :=
  Nat.eqb (length a) (length b)
  && forallb (fun uv => Geometric.v3_eqb (fst uv) (snd uv)) (combine a b).

Definition pca_known (X0 : list Vec3) (components : Mat3) (ratio : Vec3)
  : list Vec3 -> result (Mat3 * Vec3) :=
  fun X => if cloud_eqb X X0 then Ok (components, ratio)
           else Raise (ValueError "n_components=3 must be between 0 and min(n_samples, n_features)").

(** The PCA of [uneven_cloud]: the coordinate axes in the order x, y, z,
    with the variance ratios 168/224, 42/224 and 14/224. *)
Definition uneven_pca : list Vec3 -> result (Mat3 * Vec3) :=
  pca_known (centered uneven_cloud) m3_identity (V3 (3 / 4) (3 / 16) (1 / 16)).

(** What [np.min(points, axis=0)] and [np.max(points, axis=0)] return:
    each coordinate is attained and bounds the cloud. *)
Definition attained_lower_bound (f : Vec3 -> R) (m : R) (vs : list Vec3) : Prop :=
  (exists v, In v vs /\ f v = m) /\ forall v, In v vs -> m <= f v.
Definition attained_upper_bound (f : Vec3 -> R) (m : R) (vs : list Vec3) : Prop :=
  (exists v, In v vs /\ f v = m) /\ forall v, In v vs -> f v <= m.

(** The vertices in the lowest tenth of the height range. *)
Definition bottom_region (vs : list Vec3) (lo hi : Vec3) : list Vec3 :=
  filter (fun v => Rleb (c1 v) (c1 lo + 0.1 * (c1 hi - c1 lo))) vs.

(** The four feet, in the order in which [_detect_feet] stores them. *)
Definition with_feet (self : detector) (left_x right_x foot_y back_z front_z : R) : detector :=
  set_landmark
    (set_landmark
       (set_landmark
          (set_landmark self "front_left_foot" [left_x; foot_y; front_z])
          "front_right_foot" [right_x; foot_y; front_z])
       "back_left_foot" [left_x; foot_y; back_z])
    "back_right_foot" [right_x; foot_y; back_z].

(** The vertices within [radius] of the nose. *)
Definition head_region (vs : list Vec3) (nose : Vec3) (radius : R) : list Vec3 :=
  filter (fun v => Rleb (v3_norm (v3_sub v nose)) radius) vs.

(** 15% of the diagonal of the bounding box. *)
Definition head_region_radius (hi lo : Vec3) : R := v3_norm (v3_sub hi lo) * 0.15.

(** The two ears, in the order in which [_detect_ears] stores them. *)
Definition with_ears (self : detector) (left_ear right_ear : Vec3) : detector :=
  set_landmark (set_landmark self "left_ear" (v3_tolist left_ear))
               "right_ear" (v3_tolist right_ear).

(** [two_points_analysed] with the nose at the first vertex. *)
Definition two_points_with_nose : detector :=
  set_landmark two_points_analysed "nose" (v3_tolist (V3 0 0 0)).

(** The three entries of the [alignment_errors] dict. *)
Definition error_dict (nose_tail_error ear_error : R) : list (string * R) :=
  [ ("nose_tail_alignment"%string, nose_tail_error);
    ("ear_alignment"%string, ear_error);
    ("overall_error"%string, Rmax nose_tail_error ear_error) ].

(** The default parameters with a scale factor of 2 and a tolerance of 1. *)
Definition loose_params : GeometryParameters := mkGeometryParameters 2 1 "x" "z".

(** * Proofs *)

(** ** Comparisons and validated constructors *)

Lemma Rleb_true a b : a <= b -> Rleb a b = true.
Proof. intros H. unfold Rleb. destruct (Rle_dec a b); [reflexivity | contradiction]. Qed.
Lemma Rleb_false a b : b < a -> Rleb a b = false.
Proof. intros H. unfold Rleb. destruct (Rle_dec a b); [lra | reflexivity]. Qed.
Lemma Rltb_true a b : a < b -> Rltb a b = true.
Proof. intros H. unfold Rltb. destruct (Rlt_dec a b); [reflexivity | contradiction]. Qed.
Lemma Rltb_false a b : b <= a -> Rltb a b = false.
Proof. intros H. unfold Rltb. destruct (Rlt_dec a b); [lra | reflexivity]. Qed.
Lemma Reqb_true a b : a = b -> Reqb a b = true.
Proof. intros H. unfold Reqb. destruct (Req_dec_T a b); [reflexivity | contradiction]. Qed.
Lemma Reqb_false a b : a <> b -> Reqb a b = false.
Proof. intros H. unfold Reqb. destruct (Req_dec_T a b); [contradiction | reflexivity]. Qed.

Lemma validate_finite_ok v : in_range v -> validate_finite v = Ok v.
Proof.
  intros [Hl Hu]. unfold validate_finite.
  rewrite (Rleb_true _ _ Hl), (Rleb_true _ _ Hu). reflexivity.
Qed.

Lemma Vector3D_new_ok a b c :
  in_range a -> in_range b -> in_range c -> Vector3D_new a b c = Ok (mkVector3D a b c).
Proof.
  intros Ha Hb Hc. unfold Vector3D_new.
  rewrite (validate_finite_ok _ Ha), (validate_finite_ok _ Hb), (validate_finite_ok _ Hc).
  reflexivity.
Qed.

Lemma sumsq_pos (a b c : R) : ~ (a = 0 /\ b = 0 /\ c = 0) -> 0 < a ^ 2 + b ^ 2 + c ^ 2.
Proof.
  intros H.
  destruct (Req_dec a 0) as [Ha | Ha]; [ | nra].
  destruct (Req_dec b 0) as [Hb | Hb]; [ | nra].
  destruct (Req_dec c 0) as [Hc | Hc]; [ tauto | nra].
Qed.

Lemma unit_component_range (a m s : R) :
  0 < m -> m * m = s -> a ^ 2 <= s -> -1 <= a / m <= 1.
Proof.
  intros Hm Hs Ha.
  assert (Hb : - m <= a <= m) by nra.
  split.
  - apply Rmult_le_reg_r with m; [assumption | ]. unfold Rdiv.
    rewrite Rmult_assoc, Rinv_l by lra. lra.
  - apply Rmult_le_reg_r with m; [assumption | ]. unfold Rdiv.
    rewrite Rmult_assoc, Rinv_l by lra. lra.
Qed.

Lemma magnitude_pos (v : Vector3D) :
  ~ is_zero v -> 0 < sqrt (x v ^ 2 + y v ^ 2 + z v ^ 2).
Proof. intros H. apply sqrt_lt_R0. apply sumsq_pos. exact H. Qed.

Lemma normalize_vector_ok (v : Vector3D) :
  ~ is_zero v ->
  let m := sqrt (x v ^ 2 + y v ^ 2 + z v ^ 2) in
  normalize_vector v = Ok (mkVector3D (x v / m) (y v / m) (z v / m)).
Proof.
  intros Hz m. pose proof (magnitude_pos v Hz) as Hm. fold m in Hm.
  assert (Hs : m * m = x v ^ 2 + y v ^ 2 + z v ^ 2).
  { unfold m. apply sqrt_sqrt. pose proof (sumsq_pos _ _ _ Hz). lra. }
  unfold normalize_vector. fold m.
  rewrite Reqb_false by lra.
  assert (Hx : -1 <= x v / m <= 1) by (apply unit_component_range with (s := x v ^ 2 + y v ^ 2 + z v ^ 2); [assumption | assumption | nra]).
  assert (Hy : -1 <= y v / m <= 1) by (apply unit_component_range with (s := x v ^ 2 + y v ^ 2 + z v ^ 2); [assumption | assumption | nra]).
  assert (Hzz : -1 <= z v / m <= 1) by (apply unit_component_range with (s := x v ^ 2 + y v ^ 2 + z v ^ 2); [assumption | assumption | nra]).
  apply Vector3D_new_ok; unfold in_range; lra.
Qed.

Lemma normalize_vector_zero (v : Vector3D) :
  is_zero v -> normalize_vector v = Raise (ValueError "Cannot normalize zero vector").
Proof.
  intros (Hx & Hy & Hz). unfold normalize_vector. rewrite Hx, Hy, Hz.
  replace (0 ^ 2 + 0 ^ 2 + 0 ^ 2) with 0 by ring. rewrite sqrt_0.
  rewrite Reqb_true by reflexivity. reflexivity.
Qed.

(** ** Angles *)

Lemma acos_decreasing (a b : R) : -1 <= a -> a <= b -> b <= 1 -> acos b <= acos a.
Proof.
  intros Ha Hab Hb.
  pose proof (acos_bound a) as [Ha0 Ha1]. pose proof (acos_bound b) as [Hb0 Hb1].
  apply cos_decr_0; try assumption.
  rewrite !cos_acos by lra. exact Hab.
Qed.

Lemma clamp_range d : -1 <= clamp d <= 1.
Proof.
  unfold clamp, Rmax, Rmin.
  destruct (Rle_dec 1 d); destruct (Rle_dec (-1) _); lra.
Qed.

Lemma clamp_id d : -1 <= d <= 1 -> clamp d = d.
Proof.
  intros H. unfold clamp, Rmax, Rmin.
  destruct (Rle_dec 1 d); destruct (Rle_dec (-1) _); lra.
Qed.

Lemma clamp_opp d : clamp (- d) = - clamp d.
Proof.
  unfold clamp, Rmax, Rmin.
  destruct (Rle_dec 1 d); destruct (Rle_dec 1 (- d));
    repeat match goal with |- context [Rle_dec ?a ?b] => destruct (Rle_dec a b) end; lra.
Qed.

Lemma PI_pos : 0 < PI.
Proof. exact PI_RGT_0. Qed.

Lemma degrees_acos_abs_range d : -1 <= d <= 1 -> 0 <= degrees (acos (Rabs d)) <= 90.
Proof.
  intros Hd.
  assert (Ha : 0 <= Rabs d <= 1) by (split; [apply Rabs_pos | apply Rabs_le; lra]).
  pose proof (acos_bound (Rabs d)) as [H0 _].
  assert (H1 : acos (Rabs d) <= PI / 2).
  { rewrite <- acos_0. apply acos_decreasing; lra. }
  pose proof PI_pos as HPI.
  unfold degrees. split.
  - apply Rmult_le_pos; [assumption | ]. apply Rlt_le, Rdiv_lt_0_compat; lra.
  - replace 90 with (PI / 2 * (180 / PI)) by (field; lra).
    apply Rmult_le_compat_r; [ | assumption].
    apply Rlt_le, Rdiv_lt_0_compat; lra.
Qed.

Lemma axis_vector_cases what axis :
  In axis ["x"; "y"; "z"]%string ->
  exists a b c, axis_vector what axis = Ok (mkVector3D a b c) /\
    ((a = 1 /\ b = 0 /\ c = 0) \/ (a = 0 /\ b = 1 /\ c = 0) \/ (a = 0 /\ b = 0 /\ c = 1)).
Proof.
  intros [H | [H | [H | []]]]; subst axis; unfold axis_vector; cbn [String.eqb Ascii.eqb Bool.eqb];
  rewrite Vector3D_new_ok by (unfold in_range; lra); eauto 10.
Qed.

(** Claim C10.  For a non-zero vector and an axis name among x, y and z, the
    alignment error is defined, lies between 0 and 90 degrees, and is the
    same for the opposite vector. *)
Theorem alignment_error_range_and_symmetry (v : Vector3D) (axis : string) :
  ~ is_zero v -> In axis ["x"; "y"; "z"]%string ->
  exists e, _calculate_alignment_error v axis = Ok e /\ 0 <= e <= 90 /\
            _calculate_alignment_error (neg_vector v) axis = Ok e.
Proof.
  intros Hz Hax.
  assert (Hz' : ~ is_zero (neg_vector v)).
  { unfold is_zero, neg_vector; cbn. intros (A & B & C). apply Hz. unfold is_zero. lra. }
  destruct (axis_vector_cases "target_axis" axis Hax) as (a & b & c & Hav & Habc).
  unfold _calculate_alignment_error.
  rewrite (normalize_vector_ok v Hz), (normalize_vector_ok _ Hz'), Hav. cbn [bind x y z neg_vector].
  eexists. split; [reflexivity | ]. split.
  - apply degrees_acos_abs_range. apply clamp_range.
  - do 3 f_equal.
    replace ((- x v) ^ 2 + (- y v) ^ 2 + (- z v) ^ 2) with (x v ^ 2 + y v ^ 2 + z v ^ 2) by ring.
    set (m := sqrt _).
    fold (clamp (- x v / m * a + - y v / m * b + - z v / m * c)).
    fold (clamp (x v / m * a + y v / m * b + z v / m * c)).
    replace (- x v / m * a + - y v / m * b + - z v / m * c)
      with (- (x v / m * a + y v / m * b + z v / m * c)) by (unfold Rdiv; ring).
    rewrite clamp_opp. apply Rabs_Ropp.
Qed.

(** ** Rodrigues' matrix *)

Lemma eye4_mat4 : eye 4 = mat4_of m3_identity.
Proof. reflexivity. Qed.

Lemma rodrigues_general_mat4 s t k :
  embed_rotation (mat_add (mat_add (eye 3) (mat_scale s (skew k)))
                          (mat_scale t (matmul (skew k) (skew k))))
  = mat4_of (rodrigues s t k).
Proof.
  destruct k as [k0 k1 k2]. cbn.
  unfold mat4_of, rodrigues; cbn.
  repeat (f_equal; try ring).
Qed.

Lemma rodrigues_half_turn_mat4 k :
  embed_rotation (mat_add (eye 3) (mat_scale 2 (matmul (skew k) (skew k))))
  = mat4_of (rodrigues 0 2 k).
Proof.
  destruct k as [k0 k1 k2]. cbn.
  unfold mat4_of, rodrigues; cbn.
  repeat (f_equal; try ring).
Qed.

Lemma combined_mat4 r s :
  matmul (mat4_of r) (scale_matrix s) = mat4_of (m3_scale s r).
Proof.
  destruct r as [[a b c] [d e f] [g h i]]. cbn.
  unfold mat4_of; cbn.
  repeat (f_equal; try ring).
Qed.

Lemma rodrigues_isometry s t k :
  v3_dot k k = 1 -> s * s + (1 - t) * (1 - t) = 1 -> isometry (rodrigues s t k).
Proof.
  intros Hk Hst u. destruct k as [k0 k1 k2], u as [u0 u1 u2].
  unfold m3_apply, rodrigues, v3_dot in *; cbn in *.
  set (ku := k0 * u0 + k1 * u1 + k2 * u2).
  set (U := u0 * u0 + u1 * u1 + u2 * u2).
  set (N := k0 * k0 + k1 * k1 + k2 * k2) in *.
  transitivity (U + (s * s + (1 - t) * (1 - t) - 1) * (U - ku * ku)
                + (N - 1) * (s * s * U - t * t * (ku * ku) - t * U * (2 - t - t * N))).
  - unfold ku, U, N. ring.
  - rewrite Hk, Hst. ring.
Qed.

(** ** Vectors *)

Lemma Vec3_eq a b : c0 a = c0 b -> c1 a = c1 b -> c2 a = c2 b -> a = b.
Proof. destruct a, b; cbn; intros; subst; reflexivity. Qed.

Lemma v3_dot_self_nonneg a : 0 <= v3_dot a a.
Proof. unfold v3_dot. nra. Qed.

Lemma to_vec3_dot_pos v : ~ is_zero v -> 0 < v3_dot (to_vec3 v) (to_vec3 v).
Proof.
  intros H. pose proof (sumsq_pos _ _ _ H). unfold v3_dot, to_vec3; cbn. lra.
Qed.

Lemma v3_norm_pos a : 0 < v3_dot a a -> 0 < v3_norm a.
Proof. intros H. unfold v3_norm. apply sqrt_lt_R0. exact H. Qed.

Lemma v3_norm_sq a : v3_norm a * v3_norm a = v3_dot a a.
Proof. unfold v3_norm. apply sqrt_sqrt. apply v3_dot_self_nonneg. Qed.

Lemma unit3_dot a : 0 < v3_dot a a -> v3_dot (unit3 a) (unit3 a) = 1.
Proof.
  intros H. pose proof (v3_norm_pos a H) as Hn. pose proof (v3_norm_sq a) as Hs.
  unfold unit3, v3_div. set (n := v3_norm a) in *.
  unfold v3_dot in *; cbn.
  replace (c0 a / n * (c0 a / n) + c1 a / n * (c1 a / n) + c2 a / n * (c2 a / n))
    with ((c0 a * c0 a + c1 a * c1 a + c2 a * c2 a) / (n * n)) by (field; lra).
  rewrite Hs. field. lra.
Qed.

Lemma unit3_scale a : 0 < v3_dot a a -> v3_scale (v3_norm a) (unit3 a) = a.
Proof.
  intros H. pose proof (v3_norm_pos a H) as Hn.
  unfold unit3, v3_div, v3_scale. destruct a as [a0 a1 a2]; cbn.
  f_equal; field; lra.
Qed.

(** Cauchy-Schwarz for unit vectors. *)
Lemma unit_dot_range a b : v3_dot a a = 1 -> v3_dot b b = 1 -> -1 <= v3_dot a b <= 1.
Proof.
  unfold v3_dot. destruct a as [a0 a1 a2], b as [b0 b1 b2]; cbn. intros Ha Hb.
  pose proof (Rle_0_sqr (a0 - b0)). pose proof (Rle_0_sqr (a1 - b1)).
  pose proof (Rle_0_sqr (a2 - b2)). pose proof (Rle_0_sqr (a0 + b0)).
  pose proof (Rle_0_sqr (a1 + b1)). pose proof (Rle_0_sqr (a2 + b2)).
  unfold Rsqr in *. split; lra.
Qed.

(** Lagrange's identity for unit vectors. *)
Lemma unit_cross_dot a b :
  v3_dot a a = 1 -> v3_dot b b = 1 ->
  v3_dot (v3_cross a b) (v3_cross a b) = 1 - v3_dot a b * v3_dot a b.
Proof.
  unfold v3_dot, v3_cross. destruct a as [a0 a1 a2], b as [b0 b1 b2]; cbn. intros Ha Hb.
  transitivity ((a0 * a0 + a1 * a1 + a2 * a2) * (b0 * b0 + b1 * b1 + b2 * b2)
                - (a0 * b0 + a1 * b1 + a2 * b2) * (a0 * b0 + a1 * b1 + a2 * b2)).
  - ring.
  - rewrite Ha, Hb. ring.
Qed.

Lemma rodrigues_apply s t k u :
  m3_apply (rodrigues s t k) u
  = v3_add u (v3_add (v3_scale s (v3_cross k u))
                     (v3_scale t (v3_sub (v3_scale (v3_dot k u) k) (v3_scale (v3_dot k k) u)))).
Proof.
  destruct k as [k0 k1 k2], u as [u0 u1 u2].
  unfold m3_apply, rodrigues, v3_add, v3_scale, v3_sub, v3_cross, v3_dot; cbn.
  f_equal; ring.
Qed.

Lemma m3_apply_scale r l u : m3_apply r (v3_scale l u) = v3_scale l (m3_apply r u).
Proof.
  destruct r as [[a b c] [d e f] [g h i]], u as [u0 u1 u2].
  unfold m3_apply, v3_scale, v3_dot; cbn. f_equal; ring.
Qed.

Lemma m3_apply_sub r u v : m3_apply r (v3_sub u v) = v3_sub (m3_apply r u) (m3_apply r v).
Proof.
  destruct r as [[a b c] [d e f] [g h i]], u as [u0 u1 u2], v as [w0 w1 w2].
  unfold m3_apply, v3_sub, v3_dot; cbn. f_equal; ring.
Qed.

Lemma m3_scale_apply s r u : m3_apply (m3_scale s r) u = v3_scale s (m3_apply r u).
Proof.
  destruct r as [[a b c] [d e f] [g h i]], u as [u0 u1 u2].
  unfold m3_apply, m3_scale, v3_scale, v3_dot; cbn. f_equal; ring.
Qed.

Lemma identity_isometry : isometry m3_identity.
Proof. intros [u0 u1 u2]. unfold m3_apply, m3_identity, v3_dot; cbn. ring. Qed.

Lemma m3_identity_apply u : m3_apply m3_identity u = u.
Proof. destruct u as [u0 u1 u2]. unfold m3_apply, m3_identity, v3_dot; cbn. f_equal; ring. Qed.

(** The half turn about a unit axis orthogonal to [a] sends [a] to [-a]. *)
Lemma half_turn_apply k a :
  v3_dot k k = 1 -> v3_dot k a = 0 -> m3_apply (rodrigues 0 2 k) a = v3_scale (-1) a.
Proof.
  intros Hk Hka. rewrite rodrigues_apply, Hk, Hka.
  destruct k as [k0 k1 k2], a as [a0 a1 a2].
  unfold v3_add, v3_scale, v3_sub, v3_cross; cbn. f_equal; ring.
Qed.

(** Rodrigues' rotation by the angle between two unit vectors, about their
    normalised cross product, sends the first to the second. *)
Lemma rodrigues_aligns a b :
  v3_dot a a = 1 -> v3_dot b b = 1 ->
  let d := v3_dot a b in
  let c := v3_cross a b in
  0 < v3_dot c c ->
  m3_apply (rodrigues (v3_norm c) (1 - d) (unit3 c)) a = b.
Proof.
  intros Ha Hb d c Hc.
  pose proof (v3_norm_pos c Hc) as Hn.
  rewrite rodrigues_apply, (unit3_dot c Hc).
  assert (Hka : v3_dot (unit3 c) a = 0).
  { unfold unit3. set (n := v3_norm c) in *.
    unfold v3_div, v3_dot, c, v3_cross. cbn. field. lra. }
  rewrite Hka.
  assert (Hsk : v3_scale (v3_norm c) (v3_cross (unit3 c) a) = v3_sub b (v3_scale d a)).
  { unfold unit3. set (n := v3_norm c) in *.
    unfold v3_div, v3_scale, v3_cross, v3_sub, c, d, v3_dot in *. cbn in *.
    f_equal.
    all: set (a0 := c0 a) in *; set (a1 := c1 a) in *; set (a2 := c2 a) in *;
         set (b0 := c0 b) in *; set (b1 := c1 b) in *; set (b2 := c2 b) in *.
    - transitivity (b0 * (a0 * a0 + a1 * a1 + a2 * a2) - (a0 * b0 + a1 * b1 + a2 * b2) * a0);
        [field; lra | rewrite Ha; ring].
    - transitivity (b1 * (a0 * a0 + a1 * a1 + a2 * a2) - (a0 * b0 + a1 * b1 + a2 * b2) * a1);
        [field; lra | rewrite Ha; ring].
    - transitivity (b2 * (a0 * a0 + a1 * a1 + a2 * a2) - (a0 * b0 + a1 * b1 + a2 * b2) * a2);
        [field; lra | rewrite Ha; ring]. }
  rewrite Hsk.
  destruct a as [a0 a1 a2], b as [b0 b1 b2].
  unfold v3_add, v3_scale, v3_sub; cbn. f_equal; ring.
Qed.

Lemma isometry_columns r :
  isometry r ->
  c0 (row0 r) * c0 (row0 r) + c0 (row1 r) * c0 (row1 r) + c0 (row2 r) * c0 (row2 r) = 1 /\
  c1 (row0 r) * c1 (row0 r) + c1 (row1 r) * c1 (row1 r) + c1 (row2 r) * c1 (row2 r) = 1 /\
  c2 (row0 r) * c2 (row0 r) + c2 (row1 r) * c2 (row1 r) + c2 (row2 r) * c2 (row2 r) = 1.
Proof.
  intros H.
  pose proof (H (V3 1 0 0)) as H0. pose proof (H (V3 0 1 0)) as H1.
  pose proof (H (V3 0 0 1)) as H2.
  destruct r as [[a b c] [d e f] [g h i]].
  unfold m3_apply, v3_dot in *; cbn in *. repeat split; lra.
Qed.

Lemma isometry_entries r :
  isometry r -> Forall (fun e => -1 <= e <= 1) (m3_entries r).
Proof.
  intros H. destruct (isometry_columns r H) as (H0 & H1 & H2).
  destruct r as [[a b c] [d e f] [g h i]]. cbn in *.
  unfold m3_entries, v3_tolist; cbn.
  repeat (apply Forall_cons; [nra | ]). apply Forall_nil.
Qed.

(** An isometry does not lengthen any coordinate beyond the norm. *)
Lemma isometry_component r u :
  isometry r ->
  let q := m3_apply r u in
  c0 q * c0 q <= v3_dot u u /\ c1 q * c1 q <= v3_dot u u /\ c2 q * c2 q <= v3_dot u u.
Proof.
  intros H q. pose proof (H u) as Hu. fold q in Hu.
  unfold v3_dot at 1 in Hu. repeat split; nra.
Qed.

(** ** The rotation of [calculate_rotation_matrix] *)

Lemma in_range_b v : in_range v -> Rleb (-1e10) v && Rleb v 1e10 = true.
Proof. intros [Hl Hu]. rewrite (Rleb_true _ _ Hl), (Rleb_true _ _ Hu). reflexivity. Qed.

Lemma validate_matrix_values_ok m :
  Forall (Forall in_range) m -> validate_matrix_values m = Ok m.
Proof.
  intros H. unfold validate_matrix_values.
  replace (forallb _ m) with true; [reflexivity | ].
  symmetry. apply forallb_forall. intros row Hrow.
  apply forallb_forall. intros v Hv.
  rewrite Forall_forall in H. specialize (H row Hrow).
  rewrite Forall_forall in H. apply in_range_b. apply H. exact Hv.
Qed.

Lemma TransformationMatrix_new_mat4 r :
  Forall in_range (m3_entries r) ->
  TransformationMatrix_new (mat4_of r) = Ok (mkTransformationMatrix (mat4_of r)).
Proof.
  destruct r as [[a b c] [d e f] [g h i]]. unfold m3_entries, v3_tolist; cbn.
  intros H.
  repeat match goal with
         | H : Forall _ (_ :: _) |- _ => inversion H; clear H; subst
         end.
  assert (Hzero : in_range 0) by (unfold in_range; lra).
  assert (Hone : in_range 1) by (unfold in_range; lra).
  unfold TransformationMatrix_new, validate_matrix_dimensions, mat4_of.
  cbn [length Nat.eqb negb orb existsb bind c0 c1 c2 row0 row1 row2].
  rewrite validate_matrix_values_ok; [reflexivity | ].
  repeat (apply Forall_cons; [repeat (apply Forall_cons; [assumption | ]); apply Forall_nil | ]).
  apply Forall_nil.
Qed.

Lemma Vector3D_new_eq a b c a' b' c' :
  a = a' -> b = b' -> c = c' -> in_range a' -> in_range b' -> in_range c' ->
  Vector3D_new a b c = Ok (mkVector3D a' b' c').
Proof. intros -> -> ->. apply Vector3D_new_ok. Qed.

Lemma transform_point_mat4 r p :
  let q := m3_apply r (to_vec3 p) in
  in_range (c0 q) -> in_range (c1 q) -> in_range (c2 q) ->
  transform_point (mkTransformationMatrix (mat4_of r)) p = Ok (mkVector3D (c0 q) (c1 q) (c2 q)).
Proof.
  intros q H0 H1 H2.
  destruct r as [[a b c] [d e f] [g h i]], p as [px py pz].
  unfold transform_point, mat_vec, mat4_of. cbn.
  rewrite Reqb_false by lra.
  apply Vector3D_new_eq; try assumption;
    unfold q, m3_apply, v3_dot, to_vec3; cbn; field; lra.
Qed.

Lemma isometry_in_range r :
  isometry r -> Forall in_range (m3_entries r).
Proof.
  intros H. eapply Forall_impl; [ | apply isometry_entries; exact H].
  cbn. unfold in_range. intros; lra.
Qed.

Lemma Rabs_m1 : Rabs (-1) = 1.
Proof. unfold Rabs. destruct (Rcase_abs (-1)); lra. Qed.

Lemma np_allclose_true a b : Rabs (a - b) <= atol + rtol * Rabs b -> np_allclose a b = true.
Proof. intros H. unfold np_allclose. apply Rleb_true. exact H. Qed.

Lemma np_allclose_spec a b :
  (np_allclose a b = true /\ Rabs (a - b) <= atol + rtol * Rabs b) \/
  (np_allclose a b = false /\ atol + rtol * Rabs b < Rabs (a - b)).
Proof.
  unfold np_allclose, Rleb. destruct (Rle_dec _ _); [left | right]; split; auto; lra.
Qed.

Lemma half_turn_axis_unit a :
  v3_dot a a = 1 ->
  v3_dot (half_turn_axis a) (half_turn_axis a) = 1 /\ v3_dot (half_turn_axis a) a = 0.
Proof.
  intros Ha. unfold half_turn_axis.
  set (perp := if Rltb _ _ then _ else _).
  assert (Hpos : 0 < v3_dot (v3_cross a perp) (v3_cross a perp)).
  { unfold perp, Rltb. destruct (Rlt_dec (Rabs (c0 a)) 0.9) as [Hlt | Hge];
      unfold v3_dot, v3_cross in *; destruct a as [a0 a1 a2]; cbn in *.
    - assert (a0 * a0 < 0.81).
      { apply Rabs_def2 in Hlt. nra. }
      nra.
    - assert (0.81 <= a0 * a0).
      { apply Rnot_lt_le in Hge. unfold Rabs in Hge. destruct (Rcase_abs a0); nra. }
      nra. }
  split; [apply unit3_dot; exact Hpos | ].
  pose proof (v3_norm_pos _ Hpos) as Hn.
  unfold unit3. set (n := v3_norm _) in *.
  unfold v3_div, v3_dot, v3_cross. cbn. field. lra.
Qed.

Lemma calculate_rotation_matrix_spec (from_vector to_vector : Vector3D) :
  ~ is_zero from_vector -> ~ is_zero to_vector ->
  let a := unit3 (to_vec3 from_vector) in
  let b := unit3 (to_vec3 to_vector) in
  let d := v3_dot a b in
  exists r,
    calculate_rotation_matrix from_vector to_vector
    = Ok (mkTransformationMatrix (mat4_of r)) /\
    isometry r /\
    ((np_allclose d 1 = true /\ r = m3_identity) \/
     (np_allclose d 1 = false /\ np_allclose d (-1) = true /\
      r = rodrigues 0 2 (half_turn_axis a) /\
      m3_apply r a = v3_scale (-1) a) \/
     (np_allclose d 1 = false /\ np_allclose d (-1) = false /\
      r = rodrigues (v3_norm (v3_cross a b)) (1 - d) (unit3 (v3_cross a b)) /\
      m3_apply r a = b)).
Proof.
  intros Hf Ht a b d.
  pose proof (to_vec3_dot_pos _ Hf) as Hfp. pose proof (to_vec3_dot_pos _ Ht) as Htp.
  pose proof (v3_norm_pos _ Hfp) as Hfn. pose proof (v3_norm_pos _ Htp) as Htn.
  pose proof (unit3_dot _ Hfp) as Ha. pose proof (unit3_dot _ Htp) as Hb.
  fold a in Ha. fold b in Hb.
  pose proof (unit_dot_range a b Ha Hb) as Hd. fold d in Hd.
  unfold calculate_rotation_matrix.
  fold (to_vec3 from_vector). fold (to_vec3 to_vector).
  rewrite (Reqb_false (v3_norm (to_vec3 from_vector)) 0) by lra.
  rewrite (Reqb_false (v3_norm (to_vec3 to_vector)) 0) by lra.
  cbn [orb].
  fold (unit3 (to_vec3 from_vector)). fold (unit3 (to_vec3 to_vector)).
  fold a. fold b. fold d.
  destruct (np_allclose_spec d 1) as [[E1 H1] | [E1 H1]]; rewrite E1.
  - exists m3_identity. rewrite eye4_mat4. split; [ | split].
    + apply TransformationMatrix_new_mat4, isometry_in_range, identity_isometry.
    + apply identity_isometry.
    + left. split; reflexivity.
  - destruct (np_allclose_spec d (-1)) as [[E2 H2] | [E2 H2]]; rewrite E2.
    + exists (rodrigues 0 2 (half_turn_axis a)).
      destruct (half_turn_axis_unit a Ha) as [Hk Hka].
      assert (Hiso : isometry (rodrigues 0 2 (half_turn_axis a))).
      { apply rodrigues_isometry; [exact Hk | ring]. }
      split; [ | split].
      * rewrite rodrigues_half_turn_mat4.
        apply TransformationMatrix_new_mat4, isometry_in_range, Hiso.
      * exact Hiso.
      * right; left. split; [reflexivity | split; [reflexivity | split; [reflexivity | ]]].
        apply half_turn_apply; assumption.
    + assert (Hd1 : -1 < d < 1).
      { unfold atol, rtol in *. rewrite Rabs_R1 in H1. rewrite Rabs_m1 in H2.
        split.
        - destruct (Req_dec d (-1)) as [E | E]; [ | lra].
          rewrite E in H2. replace (-1 - -1) with 0 in H2 by ring. rewrite Rabs_R0 in H2. lra.
        - destruct (Req_dec d 1) as [E | E]; [ | lra].
          rewrite E in H1. replace (1 - 1) with 0 in H1 by ring. rewrite Rabs_R0 in H1. lra. }
      pose proof (unit_cross_dot a b Ha Hb) as Hc. fold d in Hc.
      set (c := v3_cross a b) in *.
      assert (Hcp : 0 < v3_dot c c) by nra.
      assert (Hclamp : Rmax (-1) (Rmin 1 d) = d) by (apply clamp_id; lra).
      rewrite Hclamp.
      assert (Hsin : sin (acos d) = v3_norm c).
      { rewrite sin_acos by lra. unfold v3_norm. rewrite Hc. unfold Rsqr. reflexivity. }
      assert (Hcos : cos (acos d) = d) by (apply cos_acos; lra).
      rewrite rodrigues_general_mat4, Hsin, Hcos.
      fold (unit3 c).
      assert (Hiso : isometry (rodrigues (v3_norm c) (1 - d) (unit3 c))).
      { apply rodrigues_isometry; [apply unit3_dot; exact Hcp | ].
        rewrite v3_norm_sq, Hc. ring. }
      exists (rodrigues (v3_norm c) (1 - d) (unit3 c)).
      split; [ | split].
      * apply TransformationMatrix_new_mat4, isometry_in_range, Hiso.
      * exact Hiso.
      * right; right. split; [reflexivity | split; [reflexivity | split; [reflexivity | ]]].
        apply rodrigues_aligns; assumption.
Qed.

(** ** The angle that [np.allclose] tolerates *)




(** ** Verification *)

Lemma magnitude_eq v : sqrt (x v ^ 2 + y v ^ 2 + z v ^ 2) = v3_norm (to_vec3 v).
Proof. unfold v3_norm, v3_dot, to_vec3; cbn [c0 c1 c2]. f_equal. ring. Qed.

Lemma normalize_vector_unit3 v :
  ~ is_zero v -> normalize_vector v = Ok (of_vec3 (unit3 (to_vec3 v))).
Proof.
  intros H. rewrite (normalize_vector_ok v H). rewrite magnitude_eq. reflexivity.
Qed.

Lemma axis_vector_canonical what axis :
  valid_axis axis -> axis_vector what axis = Ok (of_vec3 (canonical_axis axis)).
Proof.
  intros [H | [H | [H | []]]]; subst axis; unfold axis_vector, canonical_axis;
    cbn [String.eqb Ascii.eqb Bool.eqb];
    rewrite Vector3D_new_ok by (unfold in_range; lra); reflexivity.
Qed.

Lemma canonical_axis_unit axis : v3_dot (canonical_axis axis) (canonical_axis axis) = 1.
Proof.
  unfold canonical_axis.
  destruct (String.eqb axis "x"); [ | destruct (String.eqb axis "y")];
    unfold v3_dot; cbn; ring.
Qed.

Lemma alignment_error_formula v axis :
  ~ is_zero v -> valid_axis axis ->
  _calculate_alignment_error v axis = Ok (angular_deviation v axis).
Proof.
  intros Hz Hax. unfold _calculate_alignment_error.
  rewrite (normalize_vector_unit3 v Hz), (axis_vector_canonical _ axis Hax).
  cbn [bind]. unfold angular_deviation. do 4 f_equal.
  change (x (of_vec3 (unit3 (to_vec3 v))) * x (of_vec3 (canonical_axis axis))
          + y (of_vec3 (unit3 (to_vec3 v))) * y (of_vec3 (canonical_axis axis))
          + z (of_vec3 (unit3 (to_vec3 v))) * z (of_vec3 (canonical_axis axis)))
    with (v3_dot (unit3 (to_vec3 v)) (canonical_axis axis)).
  apply clamp_id. apply unit_dot_range.
  - apply unit3_dot. apply to_vec3_dot_pos. exact Hz.
  - apply canonical_axis_unit.
Qed.

Lemma alignment_error_zero v axis :
  is_zero v ->
  _calculate_alignment_error v axis = Raise (ValueError "Cannot normalize zero vector").
Proof.
  intros H. unfold _calculate_alignment_error. rewrite (normalize_vector_zero v H). reflexivity.
Qed.

Lemma unit3_of_scaled l w :
  0 < l -> v3_dot w w = 1 -> unit3 (v3_scale l w) = w.
Proof.
  intros Hl Hw. unfold unit3.
  assert (Hn : v3_norm (v3_scale l w) = l).
  { unfold v3_norm.
    replace (v3_dot (v3_scale l w) (v3_scale l w)) with (l * l * v3_dot w w)
      by (unfold v3_dot, v3_scale; cbn; ring).
    rewrite Hw, Rmult_1_r. apply sqrt_square. lra. }
  rewrite Hn. destruct w as [w0 w1 w2]. unfold v3_div, v3_scale; cbn.
  f_equal; field; lra.
Qed.

Lemma verify_alignment_unfold l m p n' t' le' re' :
  apply_transformation m [nose l; tail l; left_ear l; right_ear l]
  = Ok [n'; t'; le'; re'] ->
  match face_center l with
  | Some fc => exists fc', transform_point m fc = Ok fc'
  | None => True
  end ->
  valid_vector (difference t' n') ->
  valid_vector (difference re' le') ->
  verify_alignment l m p =
  (nose_tail_error <- _calculate_alignment_error (difference t' n') (nose_tail_axis p) ;;
   ear_error <- _calculate_alignment_error (difference re' le') (ear_alignment_axis p) ;;
   Ok (mkAlignmentResult m
         [ ("nose_tail_alignment"%string, nose_tail_error);
           ("ear_alignment"%string, ear_error);
           ("overall_error"%string, Rmax nose_tail_error ear_error) ]
         (Rleb (Rmax nose_tail_error ear_error) (alignment_tolerance p)))).
Proof.
  intros Hap Hfc (Hx1 & Hy1 & Hz1) (Hx2 & Hy2 & Hz2).
  unfold verify_alignment. rewrite Hap. cbn [bind].
  assert (Hf : exists f,
             match face_center l with
             | Some fc =>
                 face_center_transformed <- apply_transformation m [fc] ;;
                 f <- getitem face_center_transformed 0 ;;
                 Ok (Some f)
             | None => Ok None
             end = Ok f).
  { destruct (face_center l) as [fc | ].
    - destruct Hfc as [fc' Hfc']. exists (Some fc').
      cbn [apply_transformation]. rewrite Hfc'. reflexivity.
    - exists None. reflexivity. }
  destruct Hf as [f Hf]. rewrite Hf. cbn [bind getitem nth_error LandmarkSet_new required].
  cbn [nose tail left_ear right_ear].
  cbn [difference x y z] in *.
  rewrite (Vector3D_new_ok _ _ _ Hx1 Hy1 Hz1). cbn [bind].
  rewrite (Vector3D_new_ok _ _ _ Hx2 Hy2 Hz2). cbn [bind].
  unfold difference.
  destruct (_calculate_alignment_error _ (nose_tail_axis p)) as [e1 | ]; [ | reflexivity].
  cbn [bind].
  destruct (_calculate_alignment_error _ (ear_alignment_axis p)) as [e2 | ]; [ | reflexivity].
  reflexivity.
Qed.

Lemma classic_zero v : is_zero v \/ ~ is_zero v.
Proof.
  unfold is_zero.
  destruct (Req_dec (x v) 0); [ | right; tauto].
  destruct (Req_dec (y v) 0); [ | right; tauto].
  destruct (Req_dec (z v) 0); [ left; tauto | right; tauto].
Qed.

Lemma Rleb_iff a b : Rleb a b = true <-> a <= b.
Proof.
  unfold Rleb. destruct (Rle_dec a b); split; intros; try reflexivity; try assumption;
    try discriminate; contradiction.
Qed.

Lemma apply_transformation_mat4 r pts :
  Forall (fun p => valid_vector (of_vec3 (m3_apply r (to_vec3 p)))) pts ->
  apply_transformation (mkTransformationMatrix (mat4_of r)) pts
  = Ok (map (fun p => of_vec3 (m3_apply r (to_vec3 p))) pts).
Proof.
  induction 1 as [ | p pts (Hx & Hy & Hz) _ IH]; [reflexivity | ].
  cbn [apply_transformation map].
  rewrite (transform_point_mat4 r p Hx Hy Hz), IH. reflexivity.
Qed.

Lemma verify_alignment_result l m p n' t' le' re' :
  apply_transformation m [nose l; tail l; left_ear l; right_ear l]
  = Ok [n'; t'; le'; re'] ->
  face_center_transforms m l ->
  valid_vector (difference t' n') -> valid_vector (difference re' le') ->
  ~ is_zero (difference t' n') -> ~ is_zero (difference re' le') ->
  valid_axis (nose_tail_axis p) -> valid_axis (ear_alignment_axis p) ->
  let nose_tail_error := angular_deviation (difference t' n') (nose_tail_axis p) in
  let ear_error := angular_deviation (difference re' le') (ear_alignment_axis p) in
  exists r,
    verify_alignment l m p = Ok r /\
    transformation_matrix r = m /\
    error_of r "nose_tail_alignment" = Some nose_tail_error /\
    error_of r "ear_alignment" = Some ear_error /\
    error_of r "overall_error" = Some (Rmax nose_tail_error ear_error) /\
    (is_valid r = true <-> Rmax nose_tail_error ear_error <= alignment_tolerance p).
Proof.
  intros Hap Hfc Hv1 Hv2 Hz1 Hz2 Ha1 Ha2 nte ee.
  rewrite (verify_alignment_unfold l m p n' t' le' re' Hap Hfc Hv1 Hv2).
  rewrite (alignment_error_formula _ _ Hz1 Ha1), (alignment_error_formula _ _ Hz2 Ha2).
  cbn [bind]. fold nte ee.
  eexists. split; [reflexivity | ].
  cbn [transformation_matrix is_valid]. repeat split; try reflexivity.
  - apply Rleb_iff.
  - apply Rleb_iff.
Qed.

Lemma LandmarkSet_new_required n t le re fc :
  (exists s, LandmarkSet_new n t le re fc = Ok s) <->
  (n <> None /\ t <> None /\ le <> None /\ re <> None).
Proof.
  split.
  - intros [s H]. destruct n, t, le, re; cbn in H; try discriminate;
      repeat split; discriminate.
  - intros (Hn & Ht & Hl & Hr).
    destruct n; [ | contradiction]. destruct t; [ | contradiction].
    destruct le; [ | contradiction]. destruct re; [ | contradiction].
    eexists. reflexivity.
Qed.

(** Claim C6.  When the four landmarks go through the transform and the
    transformed nose-to-tail and ear vectors are non-zero, verification
    returns a result whose errors are the angular deviations
    [degrees(acos(|normalize(v) . axis|))] of those vectors, whose overall
    error is their maximum, and which is valid exactly when the overall
    error is at most the tolerance. *)
Theorem verify_alignment_errors l m p n' t' le' re' :
  apply_transformation m [nose l; tail l; left_ear l; right_ear l]
  = Ok [n'; t'; le'; re'] ->
  face_center_transforms m l ->
  valid_vector (difference t' n') -> valid_vector (difference re' le') ->
  ~ is_zero (difference t' n') -> ~ is_zero (difference re' le') ->
  valid_axis (nose_tail_axis p) -> valid_axis (ear_alignment_axis p) ->
  let nose_tail_error := angular_deviation (difference t' n') (nose_tail_axis p) in
  let ear_error := angular_deviation (difference re' le') (ear_alignment_axis p) in
  exists r,
    verify_alignment l m p = Ok r /\
    transformation_matrix r = m /\
    error_of r "nose_tail_alignment" = Some nose_tail_error /\
    error_of r "ear_alignment" = Some ear_error /\
    error_of r "overall_error" = Some (Rmax nose_tail_error ear_error) /\
    (is_valid r = true <-> Rmax nose_tail_error ear_error <= alignment_tolerance p).
Proof. exact (verify_alignment_result l m p n' t' le' re'). Qed.

(** Claim C9, as amended.  A landmark set is constructible exactly when nose,
    tail and both ears are given (only the face centre is optional); and
    when the transformed ear vector is zero, verification raises ValueError
    instead of reporting an ear error of 0. *)
Theorem ear_landmarks_required l m p n' t' le' re' :
  apply_transformation m [nose l; tail l; left_ear l; right_ear l]
  = Ok [n'; t'; le'; re'] ->
  face_center_transforms m l ->
  valid_vector (difference t' n') -> valid_vector (difference re' le') ->
  valid_axis (nose_tail_axis p) ->
  is_zero (difference re' le') ->
  (forall n t le re fc,
      (exists s, LandmarkSet_new n t le re fc = Ok s) <->
      (n <> None /\ t <> None /\ le <> None /\ re <> None)) /\
  verify_alignment l m p = Raise (ValueError "Cannot normalize zero vector").
Proof.
  intros Hap Hfc Hv1 Hv2 Ha1 Hz2. split; [apply LandmarkSet_new_required | ].
  rewrite (verify_alignment_unfold l m p n' t' le' re' Hap Hfc Hv1 Hv2).
  destruct (classic_zero (difference t' n')) as [Hz1 | Hz1].
  - rewrite (alignment_error_zero _ _ Hz1). reflexivity.
  - rewrite (alignment_error_formula _ _ Hz1 Ha1). cbn [bind].
    rewrite (alignment_error_zero _ _ Hz2). reflexivity.
Qed.

(** ** Parallel and antiparallel vectors *)

Lemma unit3_of_unit w : v3_dot w w = 1 -> unit3 w = w.
Proof.
  intros Hw. unfold unit3, v3_norm. rewrite Hw, sqrt_1.
  destruct w as [w0 w1 w2]. unfold v3_div; cbn. f_equal; field.
Qed.

Lemma unit3_neg u :
  unit3 (v3_scale (-1) u) = v3_scale (-1) (unit3 u).
Proof.
  unfold unit3, v3_norm.
  replace (v3_dot (v3_scale (-1) u) (v3_scale (-1) u)) with (v3_dot u u)
    by (unfold v3_dot, v3_scale; cbn; ring).
  destruct u as [u0 u1 u2]. unfold v3_div, v3_scale; cbn.
  unfold Rdiv. f_equal; ring.
Qed.

Lemma to_vec3_neg v : to_vec3 (neg_vector v) = v3_scale (-1) (to_vec3 v).
Proof. unfold to_vec3, neg_vector, v3_scale; cbn. f_equal; ring. Qed.

Lemma neg_not_zero v : ~ is_zero v -> ~ is_zero (neg_vector v).
Proof.
  unfold is_zero, neg_vector; cbn. intros H (A & B & C). apply H. lra.
Qed.

Lemma np_allclose_1_1 : np_allclose 1 1 = true.
Proof.
  apply np_allclose_true. replace (1 - 1) with 0 by ring.
  rewrite Rabs_R0, Rabs_R1. unfold atol, rtol. lra.
Qed.

Lemma np_allclose_m1_1 : np_allclose (-1) 1 = false.
Proof.
  unfold np_allclose. apply Rleb_false.
  replace (-1 - 1) with (-2) by ring.
  rewrite Rabs_R1. unfold atol, rtol.
  unfold Rabs. destruct (Rcase_abs (-2)); lra.
Qed.

Lemma np_allclose_m1_m1 : np_allclose (-1) (-1) = true.
Proof.
  apply np_allclose_true. replace (-1 - -1) with 0 by ring.
  rewrite Rabs_R0, Rabs_m1. unfold atol, rtol. lra.
Qed.

(** Claim C3.  For a non-zero vector [v]: the rotation from [v] to [v] is
    the identity matrix, and the rotation from [v] to [-v], applied to [v],
    yields [-v]. *)
Theorem rotation_parallel_and_antiparallel (v : Vector3D) :
  valid_vector v -> ~ is_zero v ->
  calculate_rotation_matrix v v = Ok (mkTransformationMatrix (eye 4)) /\
  exists m, calculate_rotation_matrix v (neg_vector v) = Ok m /\
            apply_transformation m [v] = Ok [neg_vector v].
Proof.
  intros Hv Hz.
  pose proof (to_vec3_dot_pos v Hz) as Hp.
  pose proof (unit3_dot _ Hp) as Ha.
  split.
  - destruct (calculate_rotation_matrix_spec v v Hz Hz) as (r & Hr & _ & Hcase).
    cbv zeta in Hcase. rewrite Ha, np_allclose_1_1 in Hcase.
    destruct Hcase as [[_ ->] | [[E _] | [E _]]]; try discriminate.
    rewrite Hr, eye4_mat4. reflexivity.
  - destruct (calculate_rotation_matrix_spec v (neg_vector v) Hz (neg_not_zero v Hz))
      as (r & Hr & Hiso & Hcase).
    cbv zeta in Hcase. rewrite to_vec3_neg, unit3_neg in Hcase.
    set (a := unit3 (to_vec3 v)) in *.
    replace (v3_dot a (v3_scale (-1) a)) with (- v3_dot a a) in Hcase
      by (unfold v3_dot, v3_scale; cbn; ring).
    rewrite Ha in Hcase.
    replace (- (1)) with (-1) in Hcase by ring.
    rewrite np_allclose_m1_1, np_allclose_m1_m1 in Hcase.
    destruct Hcase as [[E _] | [(_ & _ & _ & Hra) | (_ & E & _)]]; try discriminate.
    exists (mkTransformationMatrix (mat4_of r)). split; [exact Hr | ].
    assert (Hq : m3_apply r (to_vec3 v) = to_vec3 (neg_vector v)).
    { rewrite <- (unit3_scale (to_vec3 v) Hp) at 1. fold a.
      rewrite m3_apply_scale, Hra, to_vec3_neg.
      rewrite <- (unit3_scale (to_vec3 v) Hp) at 2. fold a.
      destruct a as [a0 a1 a2]. unfold v3_scale; cbn. f_equal; ring. }
    rewrite apply_transformation_mat4.
    + cbn [map]. rewrite Hq. reflexivity.
    + apply Forall_cons; [ | apply Forall_nil]. rewrite Hq.
      destruct Hv as (Hx & Hy & Hzz). unfold valid_vector, in_range in *; cbn. lra.
Qed.

(** ** The alignment matrix *)

Lemma scaled_isometry_in_range s r :
  0 < s <= 1e10 -> isometry r -> Forall in_range (m3_entries (m3_scale s r)).
Proof.
  intros Hs Hiso. pose proof (isometry_entries r Hiso) as H.
  destruct r as [[a b c] [d e f] [g h i]].
  unfold m3_entries, m3_scale, v3_scale, v3_tolist in *; cbn in *.
  repeat match goal with
         | H : Forall _ (_ :: _) |- _ => inversion H; clear H; subst
         end.
  unfold in_range.
  repeat (apply Forall_cons; [nra | ]). apply Forall_nil.
Qed.

Lemma calculate_alignment_matrix_spec l p :
  valid_vector (difference (tail l) (nose l)) ->
  ~ is_zero (difference (tail l) (nose l)) ->
  valid_axis (nose_tail_axis p) ->
  0 < scale_factor p <= 1e10 ->
  let a := unit3 (to_vec3 (difference (tail l) (nose l))) in
  let b := canonical_axis (nose_tail_axis p) in
  let d := v3_dot a b in
  exists r,
    calculate_alignment_matrix l p
    = Ok (mkTransformationMatrix (mat4_of (m3_scale (scale_factor p) r))) /\
    isometry r /\
    ((np_allclose d 1 = true /\ r = m3_identity) \/
     (np_allclose d 1 = false /\ np_allclose d (-1) = true /\
      r = rodrigues 0 2 (half_turn_axis a) /\
      m3_apply r a = v3_scale (-1) a) \/
     (np_allclose d 1 = false /\ np_allclose d (-1) = false /\
      r = rodrigues (v3_norm (v3_cross a b)) (1 - d) (unit3 (v3_cross a b)) /\
      m3_apply r a = b)).
Proof.
  intros (Hx & Hy & Hzz) Hz Hax Hs a b d.
  unfold calculate_alignment_matrix.
  cbn [difference x y z] in Hx, Hy, Hzz.
  rewrite (Vector3D_new_ok _ _ _ Hx Hy Hzz). cbn [bind].
  fold (difference (tail l) (nose l)).
  rewrite (axis_vector_canonical _ _ Hax). cbn [bind].
  assert (Hbz : ~ is_zero (of_vec3 (canonical_axis (nose_tail_axis p)))).
  { pose proof (canonical_axis_unit (nose_tail_axis p)) as Hu.
    unfold is_zero, of_vec3, v3_dot in *; cbn. intros (A & B & C).
    rewrite A, B, C in Hu. lra. }
  destruct (calculate_rotation_matrix_spec _ _ Hz Hbz) as (r & Hr & Hiso & Hcase).
  cbv zeta in Hcase.
  change (to_vec3 (of_vec3 (canonical_axis (nose_tail_axis p))))
    with (V3 (c0 (canonical_axis (nose_tail_axis p))) (c1 (canonical_axis (nose_tail_axis p)))
             (c2 (canonical_axis (nose_tail_axis p)))) in Hcase.
  replace (V3 (c0 (canonical_axis (nose_tail_axis p))) (c1 (canonical_axis (nose_tail_axis p)))
              (c2 (canonical_axis (nose_tail_axis p))))
    with (canonical_axis (nose_tail_axis p)) in Hcase
    by (destruct (canonical_axis (nose_tail_axis p)); reflexivity).
  rewrite (unit3_of_unit _ (canonical_axis_unit (nose_tail_axis p))) in Hcase.
  fold a b d in Hcase.
  exists r. rewrite Hr. cbn [bind matrix].
  change [[scale_factor p; 0; 0; 0]; [0; scale_factor p; 0; 0];
          [0; 0; scale_factor p; 0]; [0; 0; 0; 1]] with (scale_matrix (scale_factor p)).
  rewrite combined_mat4.
  split; [ | split; assumption].
  apply TransformationMatrix_new_mat4. apply scaled_isometry_in_range; assumption.
Qed.

Lemma Rabs_m1' : Rabs (0 - 1) = 1.
Proof. replace (0 - 1) with (-1) by ring. apply Rabs_m1. Qed.

Lemma np_allclose_0_1 : np_allclose 0 1 = false.
Proof.
  unfold np_allclose. apply Rleb_false. rewrite Rabs_m1', Rabs_R1. unfold atol, rtol. lra.
Qed.

Lemma np_allclose_0_m1 : np_allclose 0 (-1) = false.
Proof.
  unfold np_allclose. apply Rleb_false.
  replace (0 - -1) with 1 by ring. rewrite Rabs_R1, Rabs_m1. unfold atol, rtol. lra.
Qed.

Lemma alignment_matrix_x_to_z l p :
  nose_tail_axis p = "z"%string -> scale_factor p = 8 ->
  difference (tail l) (nose l) = mkVector3D 1 0 0 ->
  calculate_alignment_matrix l p = Ok (mkTransformationMatrix x_to_z_scaled_8).
Proof.
  intros Hax Hs Hd.
  assert (Hv : valid_vector (difference (tail l) (nose l))).
  { rewrite Hd. unfold valid_vector, in_range; cbn. lra. }
  assert (Hz : ~ is_zero (difference (tail l) (nose l))).
  { rewrite Hd. unfold is_zero; cbn. intros (A & _). lra. }
  assert (Hva : valid_axis (nose_tail_axis p)).
  { rewrite Hax. unfold valid_axis. cbn. tauto. }
  assert (Hsc : 0 < scale_factor p <= 1e10) by (rewrite Hs; lra).
  destruct (calculate_alignment_matrix_spec l p Hv Hz Hva Hsc) as (r & Hr & _ & Hcase).
  cbv zeta in Hcase. rewrite Hd, Hax in Hcase.
  assert (Ea : unit3 (to_vec3 (mkVector3D 1 0 0)) = V3 1 0 0).
  { apply unit3_of_unit. unfold v3_dot, to_vec3; cbn. ring. }
  assert (Eb : canonical_axis "z" = V3 0 0 1) by reflexivity.
  rewrite Ea, Eb in Hcase.
  assert (Ed : v3_dot (V3 1 0 0) (V3 0 0 1) = 0) by (unfold v3_dot; cbn; ring).
  rewrite Ed, np_allclose_0_1, np_allclose_0_m1 in Hcase.
  destruct Hcase as [[E _] | [(_ & E & _) | (_ & _ & Er & _)]]; try discriminate.
  assert (Ec : v3_cross (V3 1 0 0) (V3 0 0 1) = V3 0 (-1) 0).
  { unfold v3_cross; cbn. f_equal; ring. }
  rewrite Ec in Er.
  assert (Eu : unit3 (V3 0 (-1) 0) = V3 0 (-1) 0).
  { apply unit3_of_unit. unfold v3_dot; cbn. ring. }
  assert (En : v3_norm (V3 0 (-1) 0) = 1).
  { unfold v3_norm. replace (v3_dot (V3 0 (-1) 0) (V3 0 (-1) 0)) with 1
      by (unfold v3_dot; cbn; ring). apply sqrt_1. }
  rewrite Eu, En in Er.
  rewrite Hr, Er, Hs. do 2 f_equal.
  unfold x_to_z_scaled_8, mat4_of, m3_scale, rodrigues, v3_scale; cbn.
  repeat (f_equal; try ring).
Qed.

(** Claim C8, as amended.  Over the reals: with the z axis as target, a
    scale factor of 8 and a nose-to-tail vector of exactly (1,0,0), the
    alignment matrix has an upper-left block that maps (1,0,0) to (0,0,8),
    the target direction scaled by 8, and a zero translation.  (The
    equality with (0,0,8) rests on [cos (acos 0) = 0]; the binary64
    program agrees with it up to rounding, of the order of 1e-15.) *)
Theorem alignment_matrix_rotates_and_scales l p :
  nose_tail_axis p = "z"%string -> scale_factor p = 8 ->
  difference (tail l) (nose l) = mkVector3D 1 0 0 ->
  exists m, calculate_alignment_matrix l p = Ok m /\
            upper_left_apply m (V3 1 0 0) = V3 0 0 8 /\
            translation m = V3 0 0 0.
Proof.
  intros Hax Hs Hd. eexists. split; [apply alignment_matrix_x_to_z; assumption | ].
  unfold upper_left_apply, translation, x_to_z_scaled_8; cbn. split; f_equal; ring.
Qed.

(** ** Computing an alignment, then verifying it *)

Lemma to_vec3_of_vec3 u : to_vec3 (of_vec3 u) = u.
Proof. destruct u; reflexivity. Qed.

Lemma to_vec3_difference a b : to_vec3 (difference a b) = v3_sub (to_vec3 a) (to_vec3 b).
Proof. reflexivity. Qed.

Lemma difference_of_vec3 u v : difference (of_vec3 u) (of_vec3 v) = of_vec3 (v3_sub u v).
Proof. reflexivity. Qed.

Lemma not_zero_iff_dot_pos v : ~ is_zero v <-> 0 < v3_dot (to_vec3 v) (to_vec3 v).
Proof.
  split; [apply to_vec3_dot_pos | ].
  intros H (A & B & C). unfold v3_dot, to_vec3 in H; cbn in H. rewrite A, B, C in H. lra.
Qed.


Lemma sq_le_abs a b : 0 <= b -> a * a <= b * b -> - b <= a <= b.
Proof. intros Hb H. split; nra. Qed.

(** A scaled isometry keeps every coordinate within [s * |u|]. *)
Lemma scaled_isometry_component s r u B :
  isometry r -> 0 < s -> s * v3_norm u <= B ->
  let q := m3_apply (m3_scale s r) u in
  (- B <= c0 q <= B) /\ (- B <= c1 q <= B) /\ (- B <= c2 q <= B).
Proof.
  intros Hiso Hs HB q.
  pose proof (isometry_component r u Hiso) as (H0 & H1 & H2).
  pose proof (v3_norm_sq u) as Hn.
  assert (Hnn : 0 <= v3_norm u) by (unfold v3_norm; apply sqrt_pos).
  unfold q. rewrite m3_scale_apply.
  set (w := m3_apply r u) in *. rewrite <- Hn in H0, H1, H2.
  apply sq_le_abs in H0; [ | assumption].
  apply sq_le_abs in H1; [ | assumption].
  apply sq_le_abs in H2; [ | assumption].
  clearbody w. unfold v3_scale; cbn [c0 c1 c2]. repeat split; nra.
Qed.

Lemma transformed_valid s r v :
  isometry r -> 0 < s -> s * norm v <= 5e9 ->
  let q := m3_apply (m3_scale s r) (to_vec3 v) in
  (-5e9 <= c0 q <= 5e9) /\ (-5e9 <= c1 q <= 5e9) /\ (-5e9 <= c2 q <= 5e9).
Proof.
  intros Hiso Hs HB q.
  pose proof (scaled_isometry_component s r (to_vec3 v) 5e9 Hiso Hs HB) as H.
  cbv zeta in H. fold q in H. repeat split; lra.
Qed.

Lemma coordinates_le_norm v :
  (- norm v <= x v <= norm v) /\ (- norm v <= y v <= norm v) /\ (- norm v <= z v <= norm v).
Proof.
  unfold norm. pose proof (v3_norm_sq (to_vec3 v)) as Hn.
  assert (Hnn : 0 <= v3_norm (to_vec3 v)) by (unfold v3_norm; apply sqrt_pos).
  unfold v3_dot in Hn. cbn [to_vec3 c0 c1 c2] in Hn.
  repeat split; nra.
Qed.


Lemma angular_deviation_of_scaled v l w axis :
  to_vec3 v = v3_scale l w -> 0 < l -> v3_dot w w = 1 ->
  angular_deviation v axis = direction_error w axis.
Proof.
  intros Hv Hl Hw. unfold angular_deviation, direction_error.
  rewrite Hv, (unit3_of_scaled l w Hl Hw). reflexivity.
Qed.

(** Computing the alignment and verifying it, for landmarks that stay in
    the validated coordinate range: the matrix is a scaled isometry [r],
    and the two errors are those of the rotated unit directions. *)
Lemma compute_then_verify_result l p :
  0 < scale_factor p <= 1e10 ->
  valid_axis (nose_tail_axis p) -> valid_axis (ear_alignment_axis p) ->
  Forall (fun v => norm v <= 5e9 /\ scale_factor p * norm v <= 5e9) (landmark_points l) ->
  ~ is_zero (difference (tail l) (nose l)) ->
  ~ is_zero (difference (right_ear l) (left_ear l)) ->
  let a := unit3 (to_vec3 (difference (tail l) (nose l))) in
  let b := canonical_axis (nose_tail_axis p) in
  let ears := unit3 (to_vec3 (difference (right_ear l) (left_ear l))) in
  exists r res,
    calculate_alignment_matrix l p
    = Ok (mkTransformationMatrix (mat4_of (m3_scale (scale_factor p) r))) /\
    ((np_allclose (v3_dot a b) 1 = true /\ r = m3_identity) \/
     (np_allclose (v3_dot a b) 1 = false /\ np_allclose (v3_dot a b) (-1) = true /\
      r = rodrigues 0 2 (half_turn_axis a) /\ m3_apply r a = v3_scale (-1) a) \/
     (np_allclose (v3_dot a b) 1 = false /\ np_allclose (v3_dot a b) (-1) = false /\
      r = rodrigues (v3_norm (v3_cross a b)) (1 - v3_dot a b) (unit3 (v3_cross a b)) /\
      m3_apply r a = b)) /\
    verify_alignment l (mkTransformationMatrix (mat4_of (m3_scale (scale_factor p) r))) p
    = Ok res /\
    error_of res "nose_tail_alignment"
    = Some (direction_error (m3_apply r a) (nose_tail_axis p)) /\
    error_of res "ear_alignment"
    = Some (direction_error (m3_apply r ears) (ear_alignment_axis p)) /\
    (is_valid res = true <->
     Rmax (direction_error (m3_apply r a) (nose_tail_axis p))
          (direction_error (m3_apply r ears) (ear_alignment_axis p))
     <= alignment_tolerance p).
Proof.
  intros Hs Hax1 Hax2 Hpts Hz1 Hz2 a b ears.
  set (s := scale_factor p) in *.
  assert (Hall : forall v, In v (landmark_points l) ->
                           norm v <= 5e9 /\ s * norm v <= 5e9).
  { apply Forall_forall. exact Hpts. }
  assert (Hn : In (nose l) (landmark_points l)) by (unfold landmark_points; cbn; tauto).
  assert (Ht : In (tail l) (landmark_points l)) by (unfold landmark_points; cbn; tauto).
  assert (Hl : In (left_ear l) (landmark_points l)) by (unfold landmark_points; cbn; tauto).
  assert (Hr : In (right_ear l) (landmark_points l)) by (unfold landmark_points; cbn; tauto).
  destruct (Hall _ Hn) as [Hn1 Hn2]. destruct (Hall _ Ht) as [Ht1 Ht2].
  destruct (Hall _ Hl) as [Hl1 Hl2]. destruct (Hall _ Hr) as [Hr1 Hr2].
  assert (Hv : valid_vector (difference (tail l) (nose l))).
  { pose proof (coordinates_le_norm (nose l)). pose proof (coordinates_le_norm (tail l)).
    unfold valid_vector, in_range, difference; cbn. lra. }
  destruct (calculate_alignment_matrix_spec l p Hv Hz1 Hax1 Hs) as (r & Hm & Hiso & Hcase).
  cbv zeta in Hcase. fold s in Hm. fold a b in Hcase.
  set (T := fun v => of_vec3 (m3_apply (m3_scale s r) (to_vec3 v))).
  assert (HT : forall v, s * norm v <= 5e9 ->
                         (-5e9 <= x (T v) <= 5e9) /\ (-5e9 <= y (T v) <= 5e9)
                         /\ (-5e9 <= z (T v) <= 5e9)).
  { intros v Hb. apply (transformed_valid s r v Hiso); [lra | exact Hb]. }
  assert (HTv : forall v, s * norm v <= 5e9 -> valid_vector (T v)).
  { intros v Hb. destruct (HT v Hb) as (A & B & C). unfold valid_vector, in_range. lra. }
  assert (Hap : apply_transformation (mkTransformationMatrix (mat4_of (m3_scale s r)))
                  [nose l; tail l; left_ear l; right_ear l]
                = Ok [T (nose l); T (tail l); T (left_ear l); T (right_ear l)]).
  { rewrite apply_transformation_mat4; [reflexivity | ].
    repeat (apply Forall_cons; [apply HTv; assumption | ]). apply Forall_nil. }
  assert (Hfc : face_center_transforms (mkTransformationMatrix (mat4_of (m3_scale s r))) l).
  { unfold face_center_transforms. destruct (face_center l) as [fc | ] eqn:Efc; [ | exact I].
    assert (Hf : In fc (landmark_points l)).
    { unfold landmark_points. rewrite Efc. cbn. tauto. }
    destruct (Hall _ Hf) as [_ Hf2]. destruct (HTv fc Hf2) as (A & B & C).
    exists (T fc). apply transform_point_mat4; assumption. }
  assert (Hd1 : valid_vector (difference (T (tail l)) (T (nose l)))).
  { destruct (HT _ Hn2) as (A & B & C). destruct (HT _ Ht2) as (A' & B' & C').
    unfold valid_vector, in_range, difference; cbn [x y z]. lra. }
  assert (Hd2 : valid_vector (difference (T (right_ear l)) (T (left_ear l)))).
  { destruct (HT _ Hl2) as (A & B & C). destruct (HT _ Hr2) as (A' & B' & C').
    unfold valid_vector, in_range, difference; cbn [x y z]. lra. }
  (* a transformed difference is the rotated unit direction, scaled *)
  assert (Hlin : forall u v, ~ is_zero (difference u v) ->
             let D := to_vec3 (difference u v) in
             to_vec3 (difference (T u) (T v))
             = v3_scale (s * v3_norm D) (m3_apply r (unit3 D))
             /\ 0 < s * v3_norm D
             /\ v3_dot (m3_apply r (unit3 D)) (m3_apply r (unit3 D)) = 1).
  { intros u v Huv D. pose proof (to_vec3_dot_pos _ Huv) as Hp. fold D in Hp.
    split; [ | split].
    - unfold T. rewrite difference_of_vec3, to_vec3_of_vec3.
      rewrite <- m3_apply_sub, m3_scale_apply, <- to_vec3_difference. fold D.
      rewrite <- (unit3_scale D Hp) at 1. rewrite m3_apply_scale.
      unfold v3_scale; cbn [c0 c1 c2]. f_equal; ring.
    - apply Rmult_lt_0_compat; [lra | apply v3_norm_pos; exact Hp].
    - rewrite Hiso. apply unit3_dot. exact Hp. }
  destruct (Hlin _ _ Hz1) as (L1 & P1 & U1). destruct (Hlin _ _ Hz2) as (L2 & P2 & U2).
  fold a in L1, U1. fold ears in L2, U2.
  assert (Hnz : forall v l0 w, to_vec3 v = v3_scale l0 w -> 0 < l0 -> v3_dot w w = 1 ->
                               ~ is_zero v).
  { intros v l0 w Ev Hl0 Hw. apply not_zero_iff_dot_pos. rewrite Ev.
    replace (v3_dot (v3_scale l0 w) (v3_scale l0 w)) with (l0 * l0 * v3_dot w w)
      by (unfold v3_dot, v3_scale; cbn; ring).
    rewrite Hw. nra. }
  destruct (verify_alignment_result l _ p _ _ _ _ Hap Hfc Hd1 Hd2
              (Hnz _ _ _ L1 P1 U1) (Hnz _ _ _ L2 P2 U2) Hax1 Hax2)
    as (res & Hres & _ & Hent & Hear & _ & Hvalid).
  rewrite (angular_deviation_of_scaled _ _ _ _ L1 P1 U1) in Hent, Hvalid.
  rewrite (angular_deviation_of_scaled _ _ _ _ L2 P2 U2) in Hear, Hvalid.
  exists r, res. repeat split; try assumption; apply Hvalid.
Qed.


(** ** Principal axes *)

Lemma variance_of_eigenvector A u l :
  v3_dot u u = 1 -> m3_apply A u = v3_scale l u -> variance_along A u = l.
Proof.
  intros Hu HA. unfold variance_along. rewrite HA.
  replace (v3_dot u (v3_scale l u)) with (l * v3_dot u u)
    by (unfold v3_dot, v3_scale; cbn; ring).
  rewrite Hu. ring.
Qed.

Lemma Rleb_cases a b : (Rleb a b = true /\ a <= b) \/ (Rleb a b = false /\ b < a).
Proof.
  unfold Rleb. destruct (Rle_dec a b); [left | right]; split; auto; lra.
Qed.

Lemma v3_dot_comm a b : v3_dot a b = v3_dot b a.
Proof. unfold v3_dot. ring. Qed.

Lemma analysis_axes (eigh : Mat3 -> result (Vec3 * Mat3)) self vs w V :
  vertices self = Some vs ->
  eigh (np_cov (centered vs)) = Ok (w, V) ->
  orthonormal_rows (m3_transpose V) ->
  eigenpairs (np_cov (centered vs)) w V ->
  exists axes,
    Density._analyze_mesh_geometry eigh self
    = Ok (mkDetector (Some vs) (faces self) (Some (mean_axis0 vs)) (Some axes)
                     (landmarks self)) /\
    orthonormal_rows axes /\
    variance_along (np_cov (centered vs)) (row1 axes)
    <= variance_along (np_cov (centered vs)) (row0 axes) /\
    variance_along (np_cov (centered vs)) (row2 axes)
    <= variance_along (np_cov (centered vs)) (row1 axes).
Proof.
  intros Hvs Heig (H00 & H11 & H22 & H01 & H02 & H12) (E0 & E1 & E2).
  unfold Density._analyze_mesh_geometry. rewrite Hvs.
  fold (centered vs). rewrite Heig. cbn [bind fst snd].
  set (A := np_cov (centered vs)) in *.
  pose proof (variance_of_eigenvector A _ _ H00 E0) as V0.
  pose proof (variance_of_eigenvector A _ _ H11 E1) as V1.
  pose proof (variance_of_eigenvector A _ _ H22 E2) as V2.
  pose proof (v3_dot_comm (row0 (m3_transpose V)) (row1 (m3_transpose V))) as C01.
  pose proof (v3_dot_comm (row0 (m3_transpose V)) (row2 (m3_transpose V))) as C02.
  pose proof (v3_dot_comm (row1 (m3_transpose V)) (row2 (m3_transpose V))) as C12.
  destruct w as [w0 w1 w2], V as [[a b c] [d e f] [g h i]].
  cbn [c0 c1 c2] in V0, V1, V2.
  unfold np_argsort, v3_tolist. cbn [length seq fold_left insert_index nth c0 c1 c2].
  destruct (Rleb_cases w0 w1) as [[E01 L01] | [E01 L01]];
    destruct (Rleb_cases w0 w2) as [[E02 L02] | [E02 L02]];
      destruct (Rleb_cases w1 w2) as [[E12 L12] | [E12 L12]];
        repeat (progress (cbn [insert_index nth]; rewrite ?E01, ?E02, ?E12));
        cbn [rev app];
        (eexists; split; [reflexivity | ]);
        unfold m3_take_columns, v3_take, v3_tolist, m3_transpose in *;
        cbn [nth row0 row1 row2 c0 c1 c2] in *;
        (split; [unfold orthonormal_rows; cbn [row0 row1 row2]; repeat split; lra | ]);
        lra.
Qed.

(** ** The density sweep *)

Lemma mask_select_length_le {A : Type} (mask : list bool) (l : list A) :
  (length (mask_select mask l) <= length l)%nat.
Proof.
  unfold mask_select. rewrite length_map.
  eapply Nat.le_trans; [apply filter_length_le | ].
  rewrite length_combine. apply Nat.le_min_r.
Qed.

Lemma mask_select_length {A : Type} (mask : list bool) (l : list A) :
  length mask = length l -> length (mask_select mask l) = count_true mask.
Proof.
  unfold mask_select, count_true. rewrite length_map.
  revert l. induction mask as [ | b mask IH]; intros [ | a l] H; try discriminate;
    [reflexivity | ].
  cbn in H. injection H as H. cbn [combine filter fst].
  destruct b; cbn [length]; rewrite (IH l H); reflexivity.
Qed.

Lemma analyze_slice_few vs projections c axis thickness pos :
  (length vs <= 5)%nat ->
  Density.analyze_slice vs projections c axis thickness pos = None.
Proof.
  intros H. unfold Density.analyze_slice.
  set (sv := mask_select _ vs).
  assert (Hle : (length sv <= 5)%nat).
  { eapply Nat.le_trans; [apply mask_select_length_le | exact H]. }
  destruct (Nat.ltb_spec 5 (length sv)); [lia | reflexivity].
Qed.

Lemma analyze_slices_few vs projections c axis mn mx :
  (length vs <= 5)%nat ->
  Density.analyze_slices vs projections c axis mn mx = [].
Proof.
  intros H. unfold Density.analyze_slices.
  induction (np_linspace mn mx Density.num_slices) as [ | pos l IH]; [reflexivity | ].
  cbn [flat_map]. rewrite (analyze_slice_few _ _ _ _ _ _ H), IH. reflexivity.
Qed.

Lemma argmax_from_bound l : forall i best bi,
  (bi < i)%nat -> (argmax_from l i best bi < i + length l)%nat.
Proof.
  induction l as [ | a l IH]; intros i best bi H; cbn [argmax_from length]; [lia | ].
  destruct (Rltb best a).
  - specialize (IH (S i) a i). lia.
  - specialize (IH (S i) best bi). lia.
Qed.

Lemma argmin_from_bound l : forall i best bi,
  (bi < i)%nat -> (argmin_from l i best bi < i + length l)%nat.
Proof.
  induction l as [ | a l IH]; intros i best bi H; cbn [argmin_from length]; [lia | ].
  destruct (Rltb a best).
  - specialize (IH (S i) a i). lia.
  - specialize (IH (S i) best bi). lia.
Qed.

Lemma np_argmax_ok l :
  l <> [] -> exists i, np_argmax l = Ok i /\ (i < length l)%nat.
Proof.
  destruct l as [ | a l]; [contradiction | intros _].
  eexists. split; [reflexivity | ].
  pose proof (argmax_from_bound l 1 a 0). cbn [length]. lia.
Qed.

Lemma np_argmin_ok l :
  l <> [] -> exists i, np_argmin l = Ok i /\ (i < length l)%nat.
Proof.
  destruct l as [ | a l]; [contradiction | intros _].
  eexists. split; [reflexivity | ].
  pose proof (argmin_from_bound l 1 a 0). cbn [length]. lia.
Qed.

Lemma getitem_ok {A : Type} (l : list A) i :
  (i < length l)%nat -> exists a, getitem l i = Ok a /\ nth_error l i = Some a.
Proof.
  intros H. unfold getitem. destruct (nth_error l i) as [a | ] eqn:E.
  - exists a. split; reflexivity.
  - apply nth_error_None in E. lia.
Qed.

Lemma np_min_ok l : l <> [] -> exists m, np_min l = Ok m.
Proof. destruct l; [contradiction | intros _; eexists; reflexivity]. Qed.

Lemma np_max_ok l : l <> [] -> exists m, np_max l = Ok m.
Proof. destruct l; [contradiction | intros _; eexists; reflexivity]. Qed.

Lemma length_nonempty {A : Type} (l : list A) : (0 < length l)%nat -> l <> [].
Proof. destruct l; cbn; [lia | discriminate]. Qed.

Lemma nonempty_length {A : Type} (l : list A) : l <> [] -> (0 < length l)%nat.
Proof. destruct l; cbn; [contradiction | lia]. Qed.

Lemma fallback_to_extremes_ok self vs projections :
  vertices self = Some vs -> vs <> [] -> length projections = length vs ->
  exists nose tail_tip,
    extremes_estimate vs projections nose tail_tip /\
    Density._fallback_to_extremes self projections
    = Ok (with_landmarks self nose tail_tip
            (v3_add nose (v3_scale 0.7 (v3_sub tail_tip nose)))).
Proof.
  intros Hvs Hne Hlen.
  assert (Hp : projections <> []).
  { apply length_nonempty. rewrite Hlen. apply nonempty_length. exact Hne. }
  destruct (np_argmin_ok _ Hp) as (imin & Emin & Lmin).
  destruct (np_argmax_ok _ Hp) as (imax & Emax & Lmax).
  rewrite Hlen in Lmin, Lmax.
  destruct (getitem_ok vs imax Lmax) as (nose & Gn & Nn).
  destruct (getitem_ok vs imin Lmin) as (tail_tip & Gt & Nt).
  exists nose, tail_tip. split.
  - exists imax, imin. repeat split; assumption.
  - unfold Density._fallback_to_extremes. rewrite Emin, Emax. cbn [bind].
    rewrite Hvs, Gn. cbn [bind]. cbn [vertices set_landmark]. rewrite Gt. reflexivity.
Qed.

Lemma region_extreme_ok vs projections center tol take_max :
  vs <> [] -> length projections = length vs ->
  exists v, Density.region_extreme vs projections center tol take_max = Ok v.
Proof.
  intros Hne Hlen. unfold Density.region_extreme.
  set (mask := map _ projections).
  assert (Hm : length mask = length projections) by (unfold mask; apply length_map).
  destruct (Nat.ltb_spec 0 (count_true mask)) as [Hpos | Hzero].
  - assert (L1 : length (mask_select mask projections) = count_true mask)
      by (apply mask_select_length; exact Hm).
    assert (L2 : length (mask_select mask vs) = count_true mask)
      by (apply mask_select_length; lia).
    assert (Hp : mask_select mask projections <> [])
      by (apply length_nonempty; lia).
    assert (Hidx : exists i, (if take_max then np_argmax (mask_select mask projections)
                              else np_argmin (mask_select mask projections)) = Ok i
                             /\ (i < length (mask_select mask projections))%nat).
    { destruct take_max; [apply np_argmax_ok | apply np_argmin_ok]; exact Hp. }
    destruct Hidx as (i & Ei & Li). rewrite Ei. cbn [bind].
    destruct (getitem_ok (mask_select mask vs) i) as (v & Gv & _); [lia | ].
    exists v. exact Gv.
  - assert (Hp : projections <> []).
    { apply length_nonempty. rewrite Hlen. apply nonempty_length. exact Hne. }
    assert (Hidx : exists i, (if take_max then np_argmax projections
                              else np_argmin projections) = Ok i
                             /\ (i < length projections)%nat).
    { destruct take_max; [apply np_argmax_ok | apply np_argmin_ok]; exact Hp. }
    destruct Hidx as (i & Ei & Li). rewrite Ei. cbn [bind].
    destruct (getitem_ok vs i) as (v & Gv & _); [lia | ].
    exists v. exact Gv.
Qed.

Lemma np_convolve_same_ok a w :
  (0 < w)%nat -> (w <= length a)%nat ->
  exists s, np_convolve_same a (repeat (1 / INR w) w) = Ok s /\ length s = length a.
Proof.
  intros Hw Hle. unfold np_convolve_same. rewrite repeat_length.
  destruct (Nat.ltb_spec (length a) w) as [Hlt | _]; [lia | ].
  destruct (Nat.eqb_spec (length a) 0) as [E | _]; [lia | ].
  rewrite repeat_length.
  destruct (Nat.eqb_spec w 0) as [E | _]; [lia | ].
  eexists. split; [reflexivity | ]. rewrite length_map, length_seq. reflexivity.
Qed.

Lemma np_diff_length l : length (np_diff l) = (length l - 1)%nat.
Proof.
  unfold np_diff. rewrite length_map, length_combine.
  destruct l as [ | a l]; cbn [tl length]; lia.
Qed.

(** One call of [region_extreme] in the goal: it returns a vertex. *)
Ltac region_step vs projections Hne Hlen v E :=
  match goal with
  | |- context [Density.region_extreme vs projections ?ctr ?tl ?tm] =>
      destruct (region_extreme_ok vs projections ctr tl tm Hne Hlen) as (v & E);
      rewrite E; cbn [bind]
  end.

(** Both paths of the density sweep end with the three landmarks set. *)
Lemma detect_nose_and_tail_by_density_ok self axes vs c :
  principal_axes self = Some axes -> vertices self = Some vs -> centroid self = Some c ->
  vs <> [] ->
  exists nose tail_tip tail_attachment,
    Density._detect_nose_and_tail_by_density self
    = Ok (with_landmarks self nose tail_tip tail_attachment).
Proof.
  intros Hax Hvs Hc Hne.
  unfold Density._detect_nose_and_tail_by_density. rewrite Hax, Hvs, Hc.
  fold (density_projections vs c (row0 axes)).
  set (projections := density_projections vs c (row0 axes)).
  assert (Hlen : length projections = length vs) by (unfold projections; apply length_map).
  assert (Hp : projections <> []).
  { apply length_nonempty. rewrite Hlen. apply nonempty_length. exact Hne. }
  destruct (np_min_ok _ Hp) as (mn & Emn). destruct (np_max_ok _ Hp) as (mx & Emx).
  rewrite Emn, Emx. cbn [bind].
  set (slices := Density.analyze_slices vs projections c (row0 axes) mn mx).
  rewrite !length_map.
  assert (Hfb : exists nose tail_tip tail_attachment,
             Density._fallback_to_extremes self projections
             = Ok (with_landmarks self nose tail_tip tail_attachment)).
  { destruct (fallback_to_extremes_ok self vs projections Hvs Hne Hlen)
      as (n & t & _ & E). eauto. }
  destruct (Nat.ltb_spec (length slices) 10) as [Hfew | Hmany]; [exact Hfb | ].
  set (w := Nat.max 3 (length slices / 8)).
  assert (Hw : (0 < w)%nat) by (unfold w; lia).
  assert (Hwle : (w <= length (map (fun s => fst (fst s)) slices))%nat).
  { rewrite length_map. unfold w.
    pose proof (Nat.Div0.div_le_upper_bound (length slices) 8 (length slices)). lia. }
  destruct (np_convolve_same_ok _ w Hw Hwle) as (smoothed & Es & Ls).
  rewrite Es. cbn [bind]. rewrite length_map in Ls.
  assert (Hg : np_diff smoothed <> []).
  { apply length_nonempty. rewrite np_diff_length. lia. }
  destruct (np_argmax_ok _ Hg) as (gi & Eg & Lg). rewrite Eg. cbn [bind].
  rewrite np_diff_length in Lg.
  destruct (getitem_ok (map (fun s => snd (fst s)) slices) gi) as (pos & Gp & _);
    [rewrite length_map; lia | ].
  rewrite Gp. cbn [bind].
  match goal with |- context [if ?b then _ else Density._fallback_to_extremes _ _] =>
    destruct b end; [ | exact Hfb].
  match goal with |- context [if Rltb ?a ?b then _ else _] => destruct (Rltb a b) end;
    region_step vs projections Hne Hlen head_v En;
    region_step vs projections Hne Hlen tail_v Et;
    (match goal with
     | |- context [np_argmin ?d] =>
         assert (Hd : d <> [])
           by (apply length_nonempty; rewrite length_map; apply nonempty_length; exact Hne);
         destruct (np_argmin_ok d Hd) as (ai & Ea & La); rewrite Ea
     end);
    cbn [bind]; rewrite length_map in La;
    destruct (getitem_ok vs ai La) as (att & Ga & _); rewrite Ga; cbn [bind];
    exists head_v, tail_v, att; reflexivity.
Qed.

(** ** Covariance and variance *)

Lemma np_sum_map_plus {A : Type} (f g : A -> R) l :
  np_sum (map (fun a => f a + g a) l) = np_sum (map f l) + np_sum (map g l).
Proof. induction l as [ | a l IH]; cbn; [ring | ]. fold (np_sum (map (fun a => f a + g a) l)).
  fold (np_sum (map f l)). fold (np_sum (map g l)). rewrite IH. ring. Qed.

Lemma np_sum_map_ext {A : Type} (f g : A -> R) l :
  (forall a, f a = g a) -> np_sum (map f l) = np_sum (map g l).
Proof. intros H. induction l as [ | a l IH]; cbn; [reflexivity | ].
  fold (np_sum (map f l)). fold (np_sum (map g l)). rewrite IH, H. reflexivity. Qed.

Lemma np_sum_map_const {A : Type} (k : R) (l : list A) :
  np_sum (map (fun _ => k) l) = INR (length l) * k.
Proof.
  induction l as [ | a l IH]; [cbn; ring | ].
  cbn [map length]. rewrite S_INR. cbn. fold (np_sum (map (fun _ => k) l)). rewrite IH. ring.
Qed.

(** The centred cloud has mean zero. *)
Lemma centered_sum_zero (f : Vec3 -> R) (vs : list Vec3) :
  vs <> [] ->
  np_sum (map (fun p => f p - np_mean (map f vs)) vs) = 0.
Proof.
  intros Hne.
  assert (HN : INR (length vs) <> 0).
  { apply not_0_INR. destruct vs; [contradiction | discriminate]. }
  replace (np_sum (map (fun p => f p - np_mean (map f vs)) vs))
    with (np_sum (map f vs) + np_sum (map (fun _ => - np_mean (map f vs)) vs)).
  - rewrite np_sum_map_const. unfold np_mean. rewrite length_map. field. exact HN.
  - rewrite <- np_sum_map_plus. apply np_sum_map_ext. intros a. ring.
Qed.

Lemma mean_centered_zero vs : vs <> [] -> mean_axis0 (centered vs) = V3 0 0 0.
Proof.
  intros Hne.
  assert (H : forall f : Vec3 -> R,
             (forall v, f (v3_sub v (mean_axis0 vs)) = f v - np_mean (map f vs)) ->
             np_mean (map f (centered vs)) = 0).
  { intros f Hf. unfold np_mean at 1, centered. rewrite map_map.
    rewrite (np_sum_map_ext _ (fun p => f p - np_mean (map f vs))) by exact Hf.
    rewrite (centered_sum_zero f vs Hne). unfold Rdiv. apply Rmult_0_l. }
  unfold mean_axis0 at 1.
  rewrite (H c0), (H c1), (H c2); try reflexivity; intros v; reflexivity.
Qed.

Lemma quadratic_form_sum (X : list Vec3) (k : R) (u : Vec3) :
  let S := fun (f g : Vec3 -> R) => np_sum (map (fun p => f p * g p) X) * k in
  v3_dot u (m3_apply (M3 (V3 (S c0 c0) (S c0 c1) (S c0 c2))
                         (V3 (S c1 c0) (S c1 c1) (S c1 c2))
                         (V3 (S c2 c0) (S c2 c1) (S c2 c2))) u)
  = np_sum (map (fun p => v3_dot p u ^ 2) X) * k.
Proof.
  cbv zeta. unfold m3_apply, v3_dot; cbn [row0 row1 row2 c0 c1 c2].
  induction X as [ | p X IH]; [cbn; ring | ].
  cbn [map]. unfold np_sum in *. cbn [fold_right].
  match goal with
  | |- _ = (?a + ?T) * k => replace ((a + T) * k) with (a * k + T * k) by ring
  end.
  rewrite <- IH. ring.
Qed.

(** The quadratic form of the covariance matrix is the variance of the
    projections. *)
Lemma covariance_quadratic_form vs u :
  vs <> [] ->
  v3_dot u (m3_apply (np_cov (centered vs)) u) = projection_variance vs u.
Proof.
  intros Hne. unfold np_cov. rewrite (mean_centered_zero vs Hne).
  rewrite quadratic_form_sum.
  unfold projection_variance, centered. rewrite !map_map, length_map.
  f_equal. apply np_sum_map_ext. intros p.
  unfold v3_dot, v3_sub; cbn [c0 c1 c2]. ring.
Qed.

(** ** The tabulated eigen-solver and the example clouds *)

Lemma m3_eqb_refl a : m3_eqb a a = true.
Proof.
  unfold m3_eqb. apply forallb_forall. intros [u v] H.
  cbn [fst snd]. apply Reqb_true.
  induction (m3_entries a) as [ | e l IH]; cbn in H; [contradiction | ].
  destruct H as [H | H]; [injection H as -> ->; reflexivity | apply IH; exact H].
Qed.

Lemma eigh_known_hit A w V : eigh_known A w V A = Ok (w, V).
Proof. unfold eigh_known. rewrite m3_eqb_refl. reflexivity. Qed.

Lemma orthonormal_rows_within m : orthonormal_rows m -> orthonormal_within 1e-6 m.
Proof.
  intros (H00 & H11 & H22 & H01 & H02 & H12). unfold orthonormal_within, v3_norm.
  rewrite H00, H11, H22, H01, H02, H12, sqrt_1.
  replace (1 - 1) with 0 by ring. rewrite Rabs_R0. repeat split; lra.
Qed.

Lemma axes_zyx_orthonormal : orthonormal_rows (m3_transpose axes_zyx).
Proof. unfold orthonormal_rows, v3_dot; cbn. repeat split; ring. Qed.

Lemma diagonal_eigenpairs A a b c :
  A = M3 (V3 a 0 0) (V3 0 b 0) (V3 0 0 c) -> eigenpairs A (V3 c b a) axes_zyx.
Proof.
  intros ->. unfold eigenpairs, m3_apply, v3_scale, v3_dot; cbn.
  repeat split; f_equal; ring.
Qed.

Lemma box_cloud_cov :
  np_cov (centered box_cloud) = M3 (V3 (18 / 5) 0 0) (V3 0 (8 / 5) 0) (V3 0 0 (2 / 5)).
Proof.
  unfold np_cov, centered, mean_axis0, np_mean, np_sum, box_cloud, v3_sub.
  cbn [map fold_right length c0 c1 c2 INR].
  f_equal; f_equal; field.
Qed.

Lemma collinear_cloud_cov :
  np_cov (centered collinear_cloud) = M3 (V3 1 0 0) (V3 0 0 0) (V3 0 0 0).
Proof.
  unfold np_cov, centered, mean_axis0, np_mean, np_sum, collinear_cloud, v3_sub.
  cbn [map fold_right length c0 c1 c2 INR].
  f_equal; f_equal; field.
Qed.

Lemma two_points_cov :
  np_cov (centered two_points) = M3 (V3 2 0 0) (V3 0 0 0) (V3 0 0 0).
Proof.
  unfold np_cov, centered, mean_axis0, np_mean, np_sum, two_points, v3_sub.
  cbn [map fold_right length c0 c1 c2 INR].
  f_equal; f_equal; field.
Qed.

(** ** Detection end to end *)

Lemma density_metadata_has_no_flag st :
  ~ flags_low_confidence (det_metadata (Density._format_results st)).
Proof.
  unfold flags_low_confidence. cbn. intros [H | H]; [discriminate | apply H; reflexivity].
Qed.

Lemma with_landmarks_names self a b c :
  landmarks self = [] ->
  map fst (landmarks (with_landmarks self a b c)) = landmark_names.
Proof.
  intros H. unfold with_landmarks, set_landmark. cbn [landmarks]. rewrite H. reflexivity.
Qed.

Lemma analysis_ok (eigh : Mat3 -> result (Vec3 * Mat3)) self vs ev :
  vertices self = Some vs ->
  eigh (np_cov (centered vs)) = Ok ev ->
  exists axes,
    Density._analyze_mesh_geometry eigh self
    = Ok (mkDetector (Some vs) (faces self) (Some (mean_axis0 vs)) (Some axes)
                     (landmarks self)).
Proof.
  intros Hvs Heig. unfold Density._analyze_mesh_geometry. rewrite Hvs.
  fold (centered vs). rewrite Heig. cbn [bind]. eexists. reflexivity.
Qed.

Lemma analysis_raises (eigh : Mat3 -> result (Vec3 * Mat3)) self vs e :
  vertices self = Some vs ->
  eigh (np_cov (centered vs)) = Raise e ->
  Density._analyze_mesh_geometry eigh self = Raise e.
Proof.
  intros Hvs Heig. unfold Density._analyze_mesh_geometry. rewrite Hvs.
  fold (centered vs). rewrite Heig. reflexivity.
Qed.

Lemma detect_landmarks_run (eigh : Mat3 -> result (Vec3 * Mat3)) self vs fs ev :
  vs <> [] ->
  eigh (np_cov (centered vs)) = Ok ev ->
  exists axes nose tail_tip tail_attachment,
    let st := with_landmarks
                (mkDetector (Some vs) fs (Some (mean_axis0 vs)) (Some axes) [])
                nose tail_tip tail_attachment in
    Density.detect_landmarks eigh self vs fs = Ok (Density._format_results st, st).
Proof.
  intros Hne Heig. unfold Density.detect_landmarks.
  destruct (analysis_ok eigh (mkDetector (Some vs) fs (centroid self) (principal_axes self) [])
              vs ev eq_refl Heig) as (axes & Ha).
  rewrite Ha. cbn [bind faces landmarks].
  destruct (detect_nose_and_tail_by_density_ok
              (mkDetector (Some vs) fs (Some (mean_axis0 vs)) (Some axes) [])
              axes vs (mean_axis0 vs) eq_refl eq_refl eq_refl Hne) as (n & t & a & Hd).
  rewrite Hd. cbn [bind]. exists axes, n, t, a. reflexivity.
Qed.

Lemma length_2_nonempty {A : Type} (l : list A) : (2 <= length l)%nat -> l <> [].
Proof. destruct l; cbn; [lia | discriminate]. Qed.

(** Claim C2.  When the eigen-solver meets its contract (orthonormal
    eigenvectors as columns, each with its eigenvalue), the analysis of a
    cloud of at least two points returns three axes that are orthonormal
    (exactly, hence within 1e-6) and ordered by descending variance of the
    cloud along them; the first axis has the greatest of the three. *)
Theorem principal_axes_orthonormal_by_descending_variance
        (eigh : Mat3 -> result (Vec3 * Mat3)) self vs w V :
  vertices self = Some vs -> (2 <= length vs)%nat ->
  eigh (np_cov (centered vs)) = Ok (w, V) ->
  orthonormal_rows (m3_transpose V) ->
  eigenpairs (np_cov (centered vs)) w V ->
  exists st axes,
    Density._analyze_mesh_geometry eigh self = Ok st /\
    principal_axes st = Some axes /\
    orthonormal_rows axes /\ orthonormal_within 1e-6 axes /\
    projection_variance vs (row1 axes) <= projection_variance vs (row0 axes) /\
    projection_variance vs (row2 axes) <= projection_variance vs (row1 axes).
Proof.
  intros Hvs Hlen Heig Horth Hpairs.
  destruct (analysis_axes eigh self vs w V Hvs Heig Horth Hpairs)
    as (axes & Ha & Hon & H10 & H21).
  pose proof (length_2_nonempty vs Hlen) as Hne.
  unfold variance_along in H10, H21.
  rewrite (covariance_quadratic_form vs (row0 axes) Hne),
    (covariance_quadratic_form vs (row1 axes) Hne) in H10.
  rewrite (covariance_quadratic_form vs (row1 axes) Hne),
    (covariance_quadratic_form vs (row2 axes) Hne) in H21.
  eexists. exists axes. split; [exact Ha | ]. split; [reflexivity | ].
  split; [exact Hon | ]. split; [apply orthonormal_rows_within; exact Hon | ].
  split; assumption.
Qed.

(** Claim C4, as amended.  The analysis checks neither the number of points
    nor their degeneracy: on a stored cloud of at least two points (so that
    the covariance is defined), whenever the eigen-solver returns, the
    analysis returns the centroid and three axes; it raises ValueError only
    when no vertices are stored, and an exception of the eigen-solver is
    the exception of the analysis. *)
Theorem analysis_has_no_degeneracy_check
        (eigh : Mat3 -> result (Vec3 * Mat3)) self vs ev :
  vertices self = Some vs -> (2 <= length vs)%nat ->
  eigh (np_cov (centered vs)) = Ok ev ->
  (exists st axes,
      Density._analyze_mesh_geometry eigh self = Ok st /\
      vertices st = Some vs /\ centroid st = Some (mean_axis0 vs) /\
      principal_axes st = Some axes) /\
  (forall self', vertices self' = None ->
                 Density._analyze_mesh_geometry eigh self'
                 = Raise (ValueError "No vertices available for analysis")) /\
  (forall self' vs' e, vertices self' = Some vs' ->
                       eigh (np_cov (centered vs')) = Raise e ->
                       Density._analyze_mesh_geometry eigh self' = Raise e).
Proof.
  intros Hvs _ Heig. split; [ | split].
  - destruct (analysis_ok eigh self vs ev Hvs Heig) as (axes & Ha).
    eexists. exists axes. split; [exact Ha | ]. cbn. repeat split; reflexivity.
  - intros self' H. unfold Density._analyze_mesh_geometry. rewrite H. reflexivity.
  - intros self' vs' e H1 H2. apply analysis_raises with vs'; assumption.
Qed.

Lemma density_detection_raises_iff (eigh : Mat3 -> result (Vec3 * Mat3)) self vs fs e :
  Density.detect_landmarks eigh self vs fs = Raise e
  <-> step_raises (Density._analyze_mesh_geometry eigh)
                  Density._detect_nose_and_tail_by_density (mesh_stored self vs fs) e.
Proof.
  unfold Density.detect_landmarks, step_raises. fold (mesh_stored self vs fs).
  destruct (Density._analyze_mesh_geometry eigh (mesh_stored self vs fs)) as [s1 | e1];
    cbn [bind].
  - destruct (Density._detect_nose_and_tail_by_density s1) as [s2 | e2] eqn:E2; cbn [bind].
    + split; [discriminate | ].
      intros [H | (st & H & H')]; [discriminate | ].
      injection H as <-. rewrite E2 in H'. discriminate.
    + split.
      * intros H. injection H as <-. right. exists s1. split; [reflexivity | exact E2].
      * intros [H | (st & H & H')]; [discriminate | ].
        injection H as <-. rewrite E2 in H'. injection H' as <-. reflexivity.
  - split.
    + intros H. injection H as <-. left. reflexivity.
    + intros [H | (st & H & _)]; [injection H as <-; reflexivity | discriminate].
Qed.

Lemma geometric_detection_raises_iff (pca : list Vec3 -> result (Mat3 * Vec3)) self a fs e :
  shape1 a = 3%nat ->
  (Geometric.detect_landmarks pca self a fs = Raise e
   <-> step_raises (Geometric._analyze_mesh_geometry pca)
                   (Geometric._detect_nose_and_tail) (mesh_stored self (rows_to_vec3 a) fs) e).
Proof.
  intros Hshape. unfold Geometric.detect_landmarks, step_raises. rewrite Hshape.
  cbn [Nat.eqb negb]. fold (mesh_stored self (rows_to_vec3 a) fs).
  destruct (Geometric._analyze_mesh_geometry pca (mesh_stored self (rows_to_vec3 a) fs))
    as [s1 | e1]; cbn [bind].
  - destruct (Geometric._detect_nose_and_tail s1) as [s2 | e2] eqn:E2; cbn [bind].
    + split; [discriminate | ].
      intros [H | (st & H & H')]; [discriminate | ].
      injection H as <-. rewrite E2 in H'. discriminate.
    + split.
      * intros H. injection H as <-. right. exists s1. split; [reflexivity | exact E2].
      * intros [H | (st & H & H')]; [discriminate | ].
        injection H as <-. rewrite E2 in H'. injection H' as <-. reflexivity.
  - split.
    + intros H. injection H as <-. left. reflexivity.
    + intros [H | (st & H & _)]; [injection H as <-; reflexivity | discriminate].
Qed.

Lemma shape_guard_raises (pca : list Vec3 -> result (Mat3 * Vec3)) self a fs :
  shape1 a <> 3%nat ->
  Geometric.detect_landmarks pca self a fs
  = Raise (ValueError (String.append "Vertices must be Nx3 array, got " (str_of_shape a))).
Proof.
  intros Ha. unfold Geometric.detect_landmarks.
  destruct (Nat.eqb_spec (shape1 a) 3) as [E | _]; [contradiction | reflexivity].
Qed.

(** The message of the shape guard on a 1x2 array. *)
Lemma shape_guard_on_flat_array (pca : list Vec3 -> result (Mat3 * Vec3)) self fs :
  Geometric.detect_landmarks pca self flat_array fs
  = Raise (ValueError "Vertices must be Nx3 array, got (1, 2)").
Proof. reflexivity. Qed.

(** Claim C5, as amended.  [detect_landmarks] can fail.  In both detectors
    the call on an Nx3 array raises an exception exactly when one of its
    two steps (the analysis of the mesh, then the nose/tail step) raises
    it: nothing is absorbed at this level.  The geometric detector
    moreover raises ValueError, with the shape in the message, on every
    two-dimensional array whose rows do not have three entries.  On a cloud of at least
    two points on which the eigen-solver returns, the density detector
    returns the three landmarks nose, tail tip and tail attachment,
    whatever fallback it took, and its metadata reports no fallback. *)
Theorem detect_landmarks_outcomes (eigh : Mat3 -> result (Vec3 * Mat3)) self vs fs ev :
  (2 <= length vs)%nat ->
  eigh (np_cov (centered vs)) = Ok ev ->
  (exists d st,
      Density.detect_landmarks eigh self vs fs = Ok (d, st) /\
      map fst (det_landmarks d) = landmark_names /\
      ~ flags_low_confidence (det_metadata d)) /\
  (forall eigh' self' vs' fs' e,
      Density.detect_landmarks eigh' self' vs' fs' = Raise e
      <-> step_raises (Density._analyze_mesh_geometry eigh')
                      Density._detect_nose_and_tail_by_density
                      (mesh_stored self' vs' fs') e) /\
  (forall pca self' a fs' e,
      shape1 a = 3%nat ->
      (Geometric.detect_landmarks pca self' a fs' = Raise e
       <-> step_raises (Geometric._analyze_mesh_geometry pca)
                       (Geometric._detect_nose_and_tail)
                       (mesh_stored self' (rows_to_vec3 a) fs') e)) /\
  (forall pca self' a fs',
      shape1 a <> 3%nat ->
      Geometric.detect_landmarks pca self' a fs'
      = Raise (ValueError (String.append "Vertices must be Nx3 array, got "
                                         (str_of_shape a)))).
Proof.
  intros Hlen Heig. split; [ | split; [ | split]].
  - destruct (detect_landmarks_run eigh self vs fs ev (length_2_nonempty vs Hlen) Heig)
      as (axes & n & t & a & Hrun).
    cbv zeta in Hrun. eexists. eexists. split; [exact Hrun | ]. split.
    + cbn [det_landmarks Density._format_results]. apply with_landmarks_names. reflexivity.
    + apply density_metadata_has_no_flag.
  - intros eigh' self' vs' fs' e. apply density_detection_raises_iff.
  - intros pca self' a fs' e Ha. apply geometric_detection_raises_iff. exact Ha.
  - intros pca self' a fs' Ha. apply shape_guard_raises. exact Ha.
Qed.

(** Claim C7, as amended.  When fewer than ten slices are retained, the
    detector does not fail: nose and tail tip are the vertices of greatest
    and least projection on the primary axis, the tail attachment is
    [nose + 0.7 * (tail_tip - nose)], and the metadata of the formatted
    result reports no fallback. *)
Theorem few_slices_fall_back_to_extremes self axes vs c mn mx :
  principal_axes self = Some axes -> vertices self = Some vs -> centroid self = Some c ->
  vs <> [] ->
  np_min (density_projections vs c (row0 axes)) = Ok mn ->
  np_max (density_projections vs c (row0 axes)) = Ok mx ->
  (length (Density.analyze_slices vs (density_projections vs c (row0 axes)) c (row0 axes)
                                  mn mx) < 10)%nat ->
  exists nose tail_tip st,
    extremes_estimate vs (density_projections vs c (row0 axes)) nose tail_tip /\
    Density._detect_nose_and_tail_by_density self = Ok st /\
    st = with_landmarks self nose tail_tip
                        (v3_add nose (v3_scale 0.7 (v3_sub tail_tip nose))) /\
    ~ flags_low_confidence (det_metadata (Density._format_results st)).
Proof.
  intros Hax Hvs Hc Hne Hmn Hmx Hfew.
  set (projections := density_projections vs c (row0 axes)) in *.
  assert (Hlen : length projections = length vs) by (unfold projections; apply length_map).
  destruct (fallback_to_extremes_ok self vs projections Hvs Hne Hlen)
    as (nose & tail_tip & Hext & Hfb).
  exists nose, tail_tip. eexists. split; [exact Hext | ]. split; [ | split; [reflexivity | ]].
  - unfold Density._detect_nose_and_tail_by_density. rewrite Hax, Hvs, Hc.
    fold (density_projections vs c (row0 axes)). fold projections.
    rewrite Hmn, Hmx. cbn [bind]. rewrite !length_map.
    destruct (Nat.ltb_spec
                (length (Density.analyze_slices vs projections c (row0 axes) mn mx)) 10)
      as [_ | Hge]; [exact Hfb | lia].
  - apply density_metadata_has_no_flag.
Qed.

(** ** The statements at concrete inputs *)

Lemma norm_bound v B :
  0 <= B -> x v * x v + y v * y v + z v * z v <= B * B -> norm v <= B.
Proof.
  intros HB H. unfold norm, v3_norm, v3_dot, to_vec3; cbn [c0 c1 c2].
  rewrite <- (sqrt_square B HB). apply sqrt_le_1_alt. exact H.
Qed.


Ltac not_zero := unfold is_zero, difference; cbn; intros (? & ? & ?); lra.
Ltac axis_ok := unfold valid_axis; cbn; tauto.




(** Claim C3 at the unit vector of the x axis. *)
Lemma rotation_of_unit_x :
  calculate_rotation_matrix (mkVector3D 1 0 0) (mkVector3D 1 0 0)
  = Ok (mkTransformationMatrix (eye 4)) /\
  exists m, calculate_rotation_matrix (mkVector3D 1 0 0) (neg_vector (mkVector3D 1 0 0)) = Ok m /\
            apply_transformation m [mkVector3D 1 0 0] = Ok [neg_vector (mkVector3D 1 0 0)].
Proof.
  apply (rotation_parallel_and_antiparallel (mkVector3D 1 0 0)).
  - unfold valid_vector, in_range; cbn; lra.
  - unfold is_zero; cbn; intros (? & ? & ?); lra.
Defined.

Lemma identity_transform_applies pts :
  Forall valid_vector pts -> apply_transformation identity_transform pts = Ok pts.
Proof.
  intros H. unfold identity_transform. rewrite eye4_mat4.
  rewrite apply_transformation_mat4.
  - f_equal. rewrite <- (map_id pts) at 2. apply map_ext. intros [a b c].
    rewrite m3_identity_apply. reflexivity.
  - eapply Forall_impl; [ | exact H]. intros [a b c] Hv.
    rewrite m3_identity_apply. exact Hv.
Qed.

Ltac vectors_ok :=
  repeat (apply Forall_cons; [unfold valid_vector, in_range; cbn; lra | ]); apply Forall_nil.

(** Claim C6 at [aligned_landmarks] under the identity transform. *)
Lemma verify_alignment_errors_aligned :
  let nose_tail_error :=
    angular_deviation (difference (tail aligned_landmarks) (nose aligned_landmarks)) "z" in
  let ear_error :=
    angular_deviation (difference (right_ear aligned_landmarks) (left_ear aligned_landmarks))
                      "x" in
  exists r,
    verify_alignment aligned_landmarks identity_transform default_params = Ok r /\
    transformation_matrix r = identity_transform /\
    error_of r "nose_tail_alignment" = Some nose_tail_error /\
    error_of r "ear_alignment" = Some ear_error /\
    error_of r "overall_error" = Some (Rmax nose_tail_error ear_error) /\
    (is_valid r = true <->
     Rmax nose_tail_error ear_error <= alignment_tolerance default_params).
Proof.
  apply (verify_alignment_errors aligned_landmarks identity_transform default_params
           (nose aligned_landmarks) (tail aligned_landmarks)
           (left_ear aligned_landmarks) (right_ear aligned_landmarks)).
  - apply identity_transform_applies. vectors_ok.
  - exact I.
  - unfold valid_vector, in_range; cbn; lra.
  - unfold valid_vector, in_range; cbn; lra.
  - not_zero.
  - not_zero.
  - axis_ok.
  - axis_ok.
Defined.

(** Claim C8, the amended statement (over the reals) at [body_along_x]. *)
Lemma alignment_matrix_of_body_along_x :
  exists m, calculate_alignment_matrix body_along_x default_params = Ok m /\
            upper_left_apply m (V3 1 0 0) = V3 0 0 8 /\
            translation m = V3 0 0 0.
Proof.
  apply (alignment_matrix_rotates_and_scales body_along_x default_params).
  - reflexivity.
  - reflexivity.
  - unfold difference; cbn. f_equal; ring.
Defined.

(** Claim C8 fails as stated: the upper-left block of the alignment matrix
    of [body_along_x] does not map (1,0,0) to (0,0,1); the third coordinate
    of the image is 8, not 1. *)
Lemma alignment_matrix_scales_the_axis :
  exists m, calculate_alignment_matrix body_along_x default_params = Ok m /\
            upper_left_apply m (V3 1 0 0) <> V3 0 0 1.
Proof.
  exists (mkTransformationMatrix x_to_z_scaled_8). split.
  - apply alignment_matrix_x_to_z; [reflexivity | reflexivity | ].
    unfold difference; cbn. f_equal; ring.
  - unfold upper_left_apply, x_to_z_scaled_8, np_dot, np_sum; cbn.
    intros H. injection H as _ _ H. lra.
Qed.

(** Claim C9, the amended statement at [coincident_ears] under the identity
    transform. *)
Lemma coincident_ears_fail_verification :
  (forall n t le re fc,
      (exists s, LandmarkSet_new n t le re fc = Ok s) <->
      (n <> None /\ t <> None /\ le <> None /\ re <> None)) /\
  verify_alignment coincident_ears identity_transform default_params
  = Raise (ValueError "Cannot normalize zero vector").
Proof.
  apply (ear_landmarks_required coincident_ears identity_transform default_params
           (nose coincident_ears) (tail coincident_ears)
           (left_ear coincident_ears) (right_ear coincident_ears)).
  - apply identity_transform_applies. vectors_ok.
  - exact I.
  - unfold valid_vector, in_range; cbn; lra.
  - unfold valid_vector, in_range; cbn; lra.
  - axis_ok.
  - unfold is_zero, difference; cbn. repeat split; ring.
Defined.

(** Claim C9 fails as stated: a landmark set without ears is rejected by the
    constructor. *)
Lemma landmark_set_without_ears_is_rejected :
  LandmarkSet_new (Some (mkVector3D 0 0 0)) (Some (mkVector3D 0 0 1)) None None None
  = Raise (ValidationError "left_ear: field required").
Proof. reflexivity. Qed.

(** Claim C10 at the unit vector of the x axis against the z axis. *)
Lemma alignment_error_of_unit_x :
  exists e, _calculate_alignment_error (mkVector3D 1 0 0) "z" = Ok e /\ 0 <= e <= 90 /\
            _calculate_alignment_error (neg_vector (mkVector3D 1 0 0)) "z" = Ok e.
Proof.
  apply (alignment_error_range_and_symmetry (mkVector3D 1 0 0) "z").
  - unfold is_zero; cbn; intros (? & ? & ?); lra.
  - cbn; tauto.
Defined.

(** Claim C2 at [box_cloud], a non-degenerate cloud. *)
Lemma principal_axes_of_box_cloud :
  exists st axes,
    Density._analyze_mesh_geometry box_eigh (mkDetector (Some box_cloud) None None None [])
    = Ok st /\
    principal_axes st = Some axes /\
    orthonormal_rows axes /\ orthonormal_within 1e-6 axes /\
    projection_variance box_cloud (row1 axes) <= projection_variance box_cloud (row0 axes) /\
    projection_variance box_cloud (row2 axes) <= projection_variance box_cloud (row1 axes).
Proof.
  apply (principal_axes_orthonormal_by_descending_variance
           box_eigh (mkDetector (Some box_cloud) None None None []) box_cloud
           (V3 (2 / 5) (8 / 5) (18 / 5)) axes_zyx).
  - reflexivity.
  - cbn; lia.
  - apply eigh_known_hit.
  - exact axes_zyx_orthonormal.
  - apply diagonal_eigenpairs. exact box_cloud_cov.
Defined.

(** Claim C4, the amended statement at [collinear_cloud]. *)
Lemma analysis_of_collinear_cloud :
  (exists st axes,
      Density._analyze_mesh_geometry collinear_eigh
        (mkDetector (Some collinear_cloud) None None None []) = Ok st /\
      vertices st = Some collinear_cloud /\
      centroid st = Some (mean_axis0 collinear_cloud) /\
      principal_axes st = Some axes) /\
  (forall self', vertices self' = None ->
                 Density._analyze_mesh_geometry collinear_eigh self'
                 = Raise (ValueError "No vertices available for analysis")) /\
  (forall self' vs' e, vertices self' = Some vs' ->
                       collinear_eigh (np_cov (centered vs')) = Raise e ->
                       Density._analyze_mesh_geometry collinear_eigh self' = Raise e).
Proof.
  apply (analysis_has_no_degeneracy_check
           collinear_eigh (mkDetector (Some collinear_cloud) None None None [])
           collinear_cloud (V3 0 0 1, axes_zyx)).
  - reflexivity.
  - cbn; lia.
  - apply eigh_known_hit.
Defined.

(** Claim C4 fails as stated: three collinear points (fewer than four, all
    on one line) are analysed without an error, with the eigen-solver
    answering a genuine eigen-decomposition of their covariance. *)
Lemma collinear_cloud_is_analysed :
  (length collinear_cloud < 4)%nat /\
  Forall (fun p => c1 p = 0 /\ c2 p = 0) collinear_cloud /\
  eigenpairs (np_cov (centered collinear_cloud)) (V3 0 0 1) axes_zyx /\
  exists st axes,
    Density._analyze_mesh_geometry collinear_eigh
      (mkDetector (Some collinear_cloud) None None None []) = Ok st /\
    principal_axes st = Some axes.
Proof.
  split; [cbn; lia | ]. split.
  { repeat (apply Forall_cons; [cbn; split; reflexivity | ]). apply Forall_nil. }
  split; [apply diagonal_eigenpairs; exact collinear_cloud_cov | ].
  destruct (analysis_ok collinear_eigh (mkDetector (Some collinear_cloud) None None None [])
              collinear_cloud (V3 0 0 1, axes_zyx) eq_refl (eigh_known_hit _ _ _))
    as (axes & Ha).
  eexists. exists axes. split; [exact Ha | reflexivity].
Qed.

(** Claim C5, the amended statement at [two_points]. *)
Lemma detect_landmarks_on_two_points :
  (exists d st,
      Density.detect_landmarks two_points_eigh detector_init two_points None = Ok (d, st) /\
      map fst (det_landmarks d) = landmark_names /\
      ~ flags_low_confidence (det_metadata d)) /\
  (forall eigh' self' vs' fs' e,
      Density.detect_landmarks eigh' self' vs' fs' = Raise e
      <-> step_raises (Density._analyze_mesh_geometry eigh')
                      Density._detect_nose_and_tail_by_density
                      (mesh_stored self' vs' fs') e) /\
  (forall pca self' a fs' e,
      shape1 a = 3%nat ->
      (Geometric.detect_landmarks pca self' a fs' = Raise e
       <-> step_raises (Geometric._analyze_mesh_geometry pca)
                       (Geometric._detect_nose_and_tail)
                       (mesh_stored self' (rows_to_vec3 a) fs') e)) /\
  (forall pca self' a fs',
      shape1 a <> 3%nat ->
      Geometric.detect_landmarks pca self' a fs'
      = Raise (ValueError (String.append "Vertices must be Nx3 array, got "
                                         (str_of_shape a)))).
Proof.
  apply (detect_landmarks_outcomes two_points_eigh detector_init two_points None
           (V3 0 0 2, axes_zyx)).
  - cbn; lia.
  - apply eigh_known_hit.
Defined.

(** Claim C5 fails as stated, in both of its halves.  On the empty Nx3
    cloud both detectors raise, whatever the eigen-solver or the PCA
    answers and whatever the state of the detector: when the solver
    returns, the projections are an empty array and its reduction raises
    ValueError.  And on the three points of [collinear_cloud] the density
    detector returns through its fallback (no slice is retained), yet the
    metadata reports nothing of it. *)
Lemma detect_landmarks_raises_or_stays_silent :
  (forall eigh self fs,
      (forall e, eigh (np_cov (centered [])) = Raise e ->
                 Density.detect_landmarks eigh self [] fs = Raise e) /\
      (forall ev, eigh (np_cov (centered [])) = Ok ev ->
                  Density.detect_landmarks eigh self [] fs
                  = Raise (ValueError
                      "zero-size array to reduction operation minimum which has no identity"))) /\
  (forall pca self fs,
      (forall e, pca (centered []) = Raise e ->
                 Geometric.detect_landmarks pca self (mkNdarray2 3 []) fs = Raise e) /\
      (forall r, pca (centered []) = Ok r ->
                 Geometric.detect_landmarks pca self (mkNdarray2 3 []) fs
                 = Raise (ValueError "attempt to get argmin of an empty sequence"))) /\
  (exists d st,
      Density.detect_landmarks collinear_eigh detector_init collinear_cloud None
      = Ok (d, st) /\
      (forall projections c axis mn mx,
          Density.analyze_slices collinear_cloud projections c axis mn mx = []) /\
      ~ flags_low_confidence (det_metadata d)).
Proof.
  split; [ | split].
  - intros eigh self fs.
    unfold Density.detect_landmarks, Density._analyze_mesh_geometry.
    cbn [vertices faces landmarks]. fold (centered []).
    split; [intros e He | intros ev He]; rewrite He; reflexivity.
  - intros pca self fs.
    unfold Geometric.detect_landmarks. cbn [shape1 Nat.eqb negb].
    unfold Geometric._analyze_mesh_geometry.
    cbn [rows rows_to_vec3 vertices faces landmarks map].
    split; [intros e He | intros r He];
      change (centered []) with (@nil Vec3) in He; rewrite He; reflexivity.
  - destruct (detect_landmarks_run collinear_eigh detector_init collinear_cloud None
                (V3 0 0 1, axes_zyx) ltac:(discriminate) (eigh_known_hit _ _ _))
      as (axes & n & t & a & Hrun).
    cbv zeta in Hrun. eexists. eexists. split; [exact Hrun | ]. split.
    + intros. apply analyze_slices_few. cbn; lia.
    + apply density_metadata_has_no_flag.
Qed.

Lemma two_points_projections :
  density_projections two_points (V3 1 0 0) (row0 m3_identity) = [-1; 1].
Proof.
  unfold density_projections, two_points, v3_dot, v3_sub; cbn.
  f_equal; [ring | f_equal; ring].
Qed.

(** Claim C7, the amended statement at the analysed [two_points]. *)
Lemma two_points_fall_back_to_extremes :
  exists nose tail_tip st,
    extremes_estimate two_points
      (density_projections two_points (V3 1 0 0) (row0 m3_identity)) nose tail_tip /\
    Density._detect_nose_and_tail_by_density two_points_analysed = Ok st /\
    st = with_landmarks two_points_analysed nose tail_tip
                        (v3_add nose (v3_scale 0.7 (v3_sub tail_tip nose))) /\
    ~ flags_low_confidence (det_metadata (Density._format_results st)).
Proof.
  apply (few_slices_fall_back_to_extremes two_points_analysed m3_identity two_points
           (V3 1 0 0) (-1) 1).
  - reflexivity.
  - reflexivity.
  - reflexivity.
  - discriminate.
  - rewrite two_points_projections. cbn. f_equal.
    unfold Rmin. destruct (Rle_dec (-1) 1); lra.
  - rewrite two_points_projections. cbn. f_equal.
    unfold Rmax. destruct (Rle_dec (-1) 1); lra.
  - rewrite analyze_slices_few by (cbn; lia). cbn. lia.
Defined.

Lemma two_points_eigenpairs :
  eigenpairs (np_cov (centered two_points)) (V3 0 0 2) axes_zyx.
Proof. apply diagonal_eigenpairs. exact two_points_cov. Qed.

(** Claim C7 fails as stated: on [two_points] no slice is retained (none
    can hold more than five vertices), the detection succeeds, and the
    metadata names the method "density_analysis" and flags nothing. *)
Lemma two_points_fallback_is_not_flagged :
  exists d st,
    Density.detect_landmarks two_points_eigh detector_init two_points None = Ok (d, st) /\
    (forall projections c axis mn mx,
        Density.analyze_slices two_points projections c axis mn mx = []) /\
    dict_get (det_metadata d) "detection_method" = Some (PyStr "density_analysis") /\
    ~ flags_low_confidence (det_metadata d).
Proof.
  destruct (detect_landmarks_run two_points_eigh detector_init two_points None
              (V3 0 0 2, axes_zyx) ltac:(discriminate) (eigh_known_hit _ _ _))
    as (axes & n & t & a & Hrun).
  cbv zeta in Hrun. eexists. eexists. split; [exact Hrun | ]. split; [ | split].
  - intros. apply analyze_slices_few. cbn; lia.
  - reflexivity.
  - apply density_metadata_has_no_flag.
Qed.

Lemma two_points_analysis :
  Density._analyze_mesh_geometry two_points_eigh (mkDetector (Some two_points) None None None [])
  = Ok two_points_analysed.
Proof.
  unfold Density._analyze_mesh_geometry. cbn [vertices].
  fold (centered two_points). unfold two_points_eigh. rewrite eigh_known_hit.
  cbn [bind fst snd faces landmarks].
  unfold two_points_analysed. do 2 f_equal.
  - f_equal. unfold mean_axis0, np_mean, np_sum, two_points; cbn.
    f_equal; field.
  - f_equal. unfold np_argsort, v3_tolist. cbn [length seq fold_left insert_index nth c0 c1 c2].
    assert (E1 : Rleb 0 0 = true) by (apply Rleb_true; lra).
    assert (E2 : Rleb 0 2 = true) by (apply Rleb_true; lra).
    repeat (progress (cbn [insert_index nth]; rewrite ?E1, ?E2)).
    reflexivity.
Qed.

Lemma two_points_landmarks :
  exists st,
    Density._detect_nose_and_tail_by_density two_points_analysed = Ok st /\
    dict_get (landmarks st) "nose" = Some [2; 0; 0] /\
    dict_get (landmarks st) "tail_tip" = Some [0; 0; 0].
Proof.
  unfold Density._detect_nose_and_tail_by_density, two_points_analysed.
  cbn [principal_axes vertices centroid].
  fold (density_projections two_points (V3 1 0 0) (row0 m3_identity)).
  rewrite two_points_projections. cbn [np_min np_max fold_left bind].
  rewrite analyze_slices_few by (cbn; lia).
  cbn [map length Nat.ltb Nat.leb].
  unfold Density._fallback_to_extremes.
  cbn [np_argmin np_argmax argmin_from argmax_from bind].
  rewrite (Rltb_false 1 (-1)) by lra. rewrite (Rltb_true (-1) 1) by lra.
  cbn [vertices two_points getitem nth_error bind set_landmark].
  eexists. split; [reflexivity | ]. split; reflexivity.
Qed.

(** * Further properties of the code *)

(** ** The geometry provider: distance and midpoint *)

Lemma Vector3D_eq (p q : Vector3D) : x p = x q -> y p = y q -> z p = z q -> p = q.
Proof. destruct p, q; cbn; intros; subst; reflexivity. Qed.

Lemma cauchy_schwarz3 (a b c a' b' c' : R) :
  a * a' + b * b' + c * c'
  <= sqrt (a * a + b * b + c * c) * sqrt (a' * a' + b' * b' + c' * c').
Proof.
  set (s := a * a + b * b + c * c). set (s' := a' * a' + b' * b' + c' * c').
  assert (Hs : 0 <= s) by (unfold s; nra).
  assert (Hs' : 0 <= s') by (unfold s'; nra).
  rewrite <- sqrt_mult by assumption.
  destruct (Rle_dec (a * a' + b * b' + c * c') 0) as [Hneg | Hpos].
  - eapply Rle_trans; [exact Hneg | apply sqrt_pos].
  - apply Rnot_le_lt in Hpos.
    rewrite <- (sqrt_square (a * a' + b * b' + c * c')) by lra.
    apply sqrt_le_1_alt. unfold s, s'.
    assert (E : (a * a + b * b + c * c) * (a' * a' + b' * b' + c' * c')
                - (a * a' + b * b' + c * c') * (a * a' + b * b' + c * c')
                = (a * b' - b * a') ^ 2 + (a * c' - c * a') ^ 2 + (b * c' - c * b') ^ 2)
      by ring.
    pose proof (pow2_ge_0 (a * b' - b * a')).
    pose proof (pow2_ge_0 (a * c' - c * a')).
    pose proof (pow2_ge_0 (b * c' - c * b')).
    lra.
Qed.

Lemma sqrt_sum_triangle (a b c a' b' c' : R) :
  sqrt ((a + a') * (a + a') + (b + b') * (b + b') + (c + c') * (c + c'))
  <= sqrt (a * a + b * b + c * c) + sqrt (a' * a' + b' * b' + c' * c').
Proof.
  pose proof (cauchy_schwarz3 a b c a' b' c') as CS.
  set (n := sqrt (a * a + b * b + c * c)) in *.
  set (n' := sqrt (a' * a' + b' * b' + c' * c')) in *.
  assert (Hn : 0 <= n) by apply sqrt_pos.
  assert (Hn' : 0 <= n') by apply sqrt_pos.
  assert (En : n * n = a * a + b * b + c * c) by (apply sqrt_sqrt; nra).
  assert (En' : n' * n' = a' * a' + b' * b' + c' * c') by (apply sqrt_sqrt; nra).
  rewrite <- (sqrt_square (n + n')) by lra.
  apply sqrt_le_1_alt. nra.
Qed.

(** Property X1.  [calculate_distance] never fails and is a metric: the
    distance is symmetric, non-negative, zero exactly between equal points,
    and obeys the triangle inequality. *)
Theorem calculate_distance_metric (p q r : Vector3D) :
  exists d d1 d2,
    calculate_distance p q = Ok d /\ calculate_distance q p = Ok d /\
    0 <= d /\ (d = 0 <-> p = q) /\
    calculate_distance p r = Ok d1 /\ calculate_distance r q = Ok d2 /\
    d <= d1 + d2.
Proof.
  unfold calculate_distance. cbv zeta.
  eexists. eexists. eexists.
  split; [reflexivity | ]. split.
  { f_equal. f_equal. ring. }
  split; [apply sqrt_pos | ]. split.
  { split.
    - intros H.
      assert (Hx := pow2_ge_0 (x q - x p)).
      assert (Hy := pow2_ge_0 (y q - y p)).
      assert (Hz := pow2_ge_0 (z q - z p)).
      apply sqrt_eq_0 in H; [ | lra].
      apply Vector3D_eq; nra.
    - intros ->. replace ((x q - x q) * (x q - x q) + (y q - y q) * (y q - y q)
                          + (z q - z q) * (z q - z q)) with 0 by ring.
      apply sqrt_0. }
  split; [reflexivity | ]. split; [reflexivity | ].
  eapply Rle_trans; [ | apply (sqrt_sum_triangle (x r - x p) (y r - y p) (z r - z p)
                                                  (x q - x r) (y q - y r) (z q - z r))].
  right. f_equal. ring.
Qed.

Lemma in_range_mid a b : in_range a -> in_range b -> in_range ((a + b) / 2).
Proof. unfold in_range. intros. lra. Qed.

Lemma sqrt_quarter s : 0 <= s -> sqrt (s / 4) = sqrt s / 2.
Proof.
  intros Hs. replace (s / 4) with (s * (/ 2 * / 2)) by field.
  rewrite sqrt_mult by lra. rewrite sqrt_square by lra. field.
Qed.

(** Property X2.  The midpoint of two validated points always exists, is
    itself within the validated range and does not depend on the order of
    the points; over the reals, it lies at half their distance from each
    of them (in binary64, up to rounding). *)
Theorem calculate_midpoint_halves_the_distance (p q : Vector3D) :
  valid_vector p -> valid_vector q ->
  exists m d,
    calculate_midpoint p q = Ok m /\ calculate_midpoint q p = Ok m /\
    valid_vector m /\
    calculate_distance p q = Ok d /\
    calculate_distance p m = Ok (d / 2) /\ calculate_distance m q = Ok (d / 2).
Proof.
  intros (Hx & Hy & Hz) (Hx' & Hy' & Hz').
  pose proof (in_range_mid _ _ Hx Hx') as Mx.
  pose proof (in_range_mid _ _ Hy Hy') as My.
  pose proof (in_range_mid _ _ Hz Hz') as Mz.
  exists (mkVector3D ((x p + x q) / 2) ((y p + y q) / 2) ((z p + z q) / 2)).
  eexists. split.
  { unfold calculate_midpoint. cbv zeta. apply Vector3D_new_ok; assumption. }
  split.
  { unfold calculate_midpoint. cbv zeta. apply Vector3D_new_eq; try assumption; field. }
  split; [repeat split; cbn; apply Mx || apply My || apply Mz | ].
  split; [reflexivity | ].
  unfold calculate_distance. cbv zeta. cbn [x y z].
  assert (Hs : 0 <= (x q - x p) * (x q - x p) + (y q - y p) * (y q - y p)
                    + (z q - z p) * (z q - z p)).
  { pose proof (Rle_0_sqr (x q - x p)). pose proof (Rle_0_sqr (y q - y p)).
    pose proof (Rle_0_sqr (z q - z p)). unfold Rsqr in *. lra. }
  split; f_equal; rewrite <- (sqrt_quarter _ Hs); f_equal; field.
Qed.

(** Property X2 at the unit points of the x and the y axis. *)
Lemma midpoint_of_unit_points :
  exists m d,
    calculate_midpoint (mkVector3D 1 0 0) (mkVector3D 0 1 0) = Ok m /\
    calculate_midpoint (mkVector3D 0 1 0) (mkVector3D 1 0 0) = Ok m /\
    valid_vector m /\
    calculate_distance (mkVector3D 1 0 0) (mkVector3D 0 1 0) = Ok d /\
    calculate_distance (mkVector3D 1 0 0) m = Ok (d / 2) /\
    calculate_distance m (mkVector3D 0 1 0) = Ok (d / 2).
Proof.
  apply (calculate_midpoint_halves_the_distance (mkVector3D 1 0 0) (mkVector3D 0 1 0));
    unfold valid_vector, in_range; cbn; lra.
Defined.

(** ** The rotation: failure, and invariance under stretching *)

Lemma to_vec3_scale_vector a v : to_vec3 (scale_vector a v) = v3_scale a (to_vec3 v).
Proof. reflexivity. Qed.

Lemma v3_scale_scale a b u : v3_scale a (v3_scale b u) = v3_scale (a * b) u.
Proof. apply Vec3_eq; cbn; ring. Qed.

Lemma unit3_scale_invariant a u :
  0 < a -> 0 < v3_dot u u -> unit3 (v3_scale a u) = unit3 u.
Proof.
  intros Ha Hu.
  rewrite <- (unit3_scale u Hu) at 1. rewrite v3_scale_scale.
  apply unit3_of_scaled.
  - apply Rmult_lt_0_compat; [exact Ha | apply v3_norm_pos; exact Hu].
  - apply unit3_dot; exact Hu.
Qed.

Lemma is_zero_norm v : is_zero v -> v3_norm (to_vec3 v) = 0.
Proof.
  intros (A & B & C). unfold v3_norm, v3_dot, to_vec3. cbn. rewrite A, B, C.
  replace (0 * 0 + 0 * 0 + 0 * 0) with 0 by ring. apply sqrt_0.
Qed.

Lemma not_zero_norm v : ~ is_zero v -> v3_norm (to_vec3 v) <> 0.
Proof.
  intros H. pose proof (v3_norm_pos _ (to_vec3_dot_pos _ H)). lra.
Qed.

Lemma rotation_of_zero_vector f t :
  is_zero f \/ is_zero t ->
  calculate_rotation_matrix f t
  = Raise (ValueError "Cannot calculate rotation with zero vectors").
Proof.
  intros H. unfold calculate_rotation_matrix.
  fold (to_vec3 f). fold (to_vec3 t).
  destruct H as [H | H].
  - rewrite (Reqb_true _ _ (is_zero_norm _ H)). reflexivity.
  - rewrite (Reqb_true (v3_norm (to_vec3 t)) 0 (is_zero_norm _ H)).
    rewrite orb_true_r. reflexivity.
Qed.

Lemma rotation_depends_on_directions f t f' t' :
  ~ is_zero f -> ~ is_zero t -> ~ is_zero f' -> ~ is_zero t' ->
  unit3 (to_vec3 f) = unit3 (to_vec3 f') -> unit3 (to_vec3 t) = unit3 (to_vec3 t') ->
  calculate_rotation_matrix f t = calculate_rotation_matrix f' t'.
Proof.
  intros Hf Ht Hf' Ht' Ef Et. unfold calculate_rotation_matrix.
  fold (to_vec3 f). fold (to_vec3 t). fold (to_vec3 f'). fold (to_vec3 t').
  rewrite (Reqb_false _ 0 (not_zero_norm _ Hf)), (Reqb_false _ 0 (not_zero_norm _ Ht)),
    (Reqb_false _ 0 (not_zero_norm _ Hf')), (Reqb_false _ 0 (not_zero_norm _ Ht')).
  cbn [orb].
  fold (unit3 (to_vec3 f)). fold (unit3 (to_vec3 t)).
  fold (unit3 (to_vec3 f')). fold (unit3 (to_vec3 t')).
  rewrite Ef, Et. reflexivity.
Qed.

Lemma scale_vector_zero a v : is_zero v -> is_zero (scale_vector a v).
Proof. intros (A & B & C). unfold is_zero, scale_vector; cbn. rewrite A, B, C. repeat split; ring. Qed.

Lemma scale_vector_not_zero a v : 0 < a -> ~ is_zero v -> ~ is_zero (scale_vector a v).
Proof.
  intros Ha H (A & B & C). apply H. unfold scale_vector in *; cbn in *.
  repeat split; nra.
Qed.

(** Property X3.  Over the reals, [calculate_rotation_matrix] fails exactly
    when one of the two vectors is the zero vector, and then with the
    ValueError of its guard; for every other pair it returns a matrix.
    (The guard tests the computed norm: in binary64 the program also fails
    on a non-zero vector whose norm underflows to 0, such as
    (1e-200, 0, 0).) *)
Theorem rotation_fails_exactly_on_zero_vectors (f t : Vector3D) :
  (calculate_rotation_matrix f t
   = Raise (ValueError "Cannot calculate rotation with zero vectors")
   <-> (is_zero f \/ is_zero t)) /\
  ((exists m, calculate_rotation_matrix f t = Ok m) <-> (~ is_zero f /\ ~ is_zero t)).
Proof.
  assert (Hok : ~ is_zero f -> ~ is_zero t -> exists m, calculate_rotation_matrix f t = Ok m).
  { intros Hf Ht. destruct (calculate_rotation_matrix_spec f t Hf Ht) as (r & Hr & _).
    eexists; exact Hr. }
  split; split.
  - intros H. destruct (classic_zero f) as [Zf | Zf]; [left; exact Zf | ].
    destruct (classic_zero t) as [Zt | Zt]; [right; exact Zt | ].
    destruct (Hok Zf Zt) as (m & Hm). rewrite Hm in H. discriminate.
  - apply rotation_of_zero_vector.
  - intros (m & Hm). split; intros Z.
    + rewrite (rotation_of_zero_vector f t (or_introl Z)) in Hm. discriminate.
    + rewrite (rotation_of_zero_vector f t (or_intror Z)) in Hm. discriminate.
  - intros (Hf & Ht). apply Hok; assumption.
Qed.

(** Property X4.  Over the reals, the rotation depends on the directions of
    the two vectors only: stretching either vector by a positive factor
    changes nothing, neither the matrix nor the failure.  (In binary64 the
    matrices agree up to rounding, and only while no norm underflows.) *)
Theorem rotation_ignores_the_lengths (f t : Vector3D) (a b : R) :
  0 < a -> 0 < b ->
  calculate_rotation_matrix (scale_vector a f) (scale_vector b t)
  = calculate_rotation_matrix f t.
Proof.
  intros Ha Hb.
  destruct (classic_zero f) as [Zf | Zf].
  { rewrite !rotation_of_zero_vector; [reflexivity | left; exact Zf | ].
    left. apply scale_vector_zero; exact Zf. }
  destruct (classic_zero t) as [Zt | Zt].
  { rewrite !rotation_of_zero_vector; [reflexivity | right; exact Zt | ].
    right. apply scale_vector_zero; exact Zt. }
  apply rotation_depends_on_directions;
    try assumption; try (apply scale_vector_not_zero; assumption).
  - rewrite to_vec3_scale_vector. apply unit3_scale_invariant; [exact Ha | ].
    apply to_vec3_dot_pos; exact Zf.
  - rewrite to_vec3_scale_vector. apply unit3_scale_invariant; [exact Hb | ].
    apply to_vec3_dot_pos; exact Zt.
Qed.

(** Property X4 at the x and the z axis, stretched by 2 and by 3. *)
Lemma rotation_ignores_the_lengths_example :
  calculate_rotation_matrix (scale_vector 2 (mkVector3D 1 0 0))
                            (scale_vector 3 (mkVector3D 0 0 1))
  = calculate_rotation_matrix (mkVector3D 1 0 0) (mkVector3D 0 0 1).
Proof.
  apply (rotation_ignores_the_lengths (mkVector3D 1 0 0) (mkVector3D 0 0 1) 2 3); lra.
Defined.

(** ** Rigid motions *)

Lemma m3_scale_one r : m3_scale 1 r = r.
Proof.
  destruct r as [[a b c] [d e f] [g h i]]. unfold m3_scale, v3_scale; cbn.
  f_equal; f_equal; ring.
Qed.

Lemma translation_mat4 r : translation (mkTransformationMatrix (mat4_of r)) = V3 0 0 0.
Proof. reflexivity. Qed.

Lemma scaled_isometry_valid s r p :
  isometry r -> 0 < s -> s * norm p <= 1e10 ->
  valid_vector (of_vec3 (m3_apply (m3_scale s r) (to_vec3 p))).
Proof.
  intros Hiso Hs HB.
  pose proof (scaled_isometry_component s r (to_vec3 p) 1e10 Hiso Hs HB) as H.
  cbv zeta in H. unfold valid_vector, in_range, of_vec3; cbn [x y z].
  repeat split; lra.
Qed.

Lemma scaled_isometry_origin s r :
  of_vec3 (m3_apply (m3_scale s r) (to_vec3 origin)) = origin.
Proof.
  unfold origin, of_vec3, to_vec3, m3_apply, m3_scale, v3_scale, v3_dot; cbn.
  f_equal; ring.
Qed.

Lemma norm_origin : norm origin = 0.
Proof.
  unfold norm, origin, to_vec3, v3_norm, v3_dot; cbn.
  replace (0 * 0 + 0 * 0 + 0 * 0) with 0 by ring. apply sqrt_0.
Qed.

Lemma scaled_isometry_distance s r p q :
  isometry r -> 0 < s ->
  calculate_distance (of_vec3 (m3_apply (m3_scale s r) (to_vec3 p)))
                     (of_vec3 (m3_apply (m3_scale s r) (to_vec3 q)))
  = Ok (s * sqrt ((x q - x p) * (x q - x p) + (y q - y p) * (y q - y p)
                  + (z q - z p) * (z q - z p))).
Proof.
  intros Hiso Hs. unfold calculate_distance. cbv zeta. f_equal.
  set (w := v3_sub (to_vec3 q) (to_vec3 p)).
  assert (Hw : (x q - x p) * (x q - x p) + (y q - y p) * (y q - y p)
               + (z q - z p) * (z q - z p) = v3_dot w w) by reflexivity.
  rewrite Hw.
  assert (Hd : forall u v : Vec3,
             (x (of_vec3 v) - x (of_vec3 u)) * (x (of_vec3 v) - x (of_vec3 u))
             + (y (of_vec3 v) - y (of_vec3 u)) * (y (of_vec3 v) - y (of_vec3 u))
             + (z (of_vec3 v) - z (of_vec3 u)) * (z (of_vec3 v) - z (of_vec3 u))
             = v3_dot (v3_sub v u) (v3_sub v u)) by reflexivity.
  rewrite Hd, <- m3_apply_sub. fold w. rewrite m3_scale_apply.
  replace (v3_dot (v3_scale s (m3_apply r w)) (v3_scale s (m3_apply r w)))
    with (s * s * v3_dot (m3_apply r w) (m3_apply r w))
    by (unfold v3_dot, v3_scale; cbn; ring).
  rewrite Hiso. rewrite sqrt_mult; [ | nra | apply v3_dot_self_nonneg].
  rewrite sqrt_square by lra. reflexivity.
Qed.

Lemma scaled_isometry_moves s r p q :
  isometry r -> 0 < s -> s * norm p <= 1e10 -> s * norm q <= 1e10 ->
  exists p' q' d,
    apply_transformation (mkTransformationMatrix (mat4_of (m3_scale s r))) [origin; p; q]
    = Ok [origin; p'; q'] /\
    calculate_distance p q = Ok d /\ calculate_distance p' q' = Ok (s * d).
Proof.
  intros Hiso Hs Hp Hq.
  exists (of_vec3 (m3_apply (m3_scale s r) (to_vec3 p))),
         (of_vec3 (m3_apply (m3_scale s r) (to_vec3 q))).
  eexists. split; [ | split; [reflexivity | ]].
  - rewrite apply_transformation_mat4.
    + cbn [map]. rewrite scaled_isometry_origin. reflexivity.
    + apply Forall_cons.
      { apply scaled_isometry_valid; [exact Hiso | exact Hs | ].
        rewrite norm_origin. lra. }
      apply Forall_cons; [apply scaled_isometry_valid; assumption | ].
      apply Forall_cons; [apply scaled_isometry_valid; assumption | ].
      apply Forall_nil.
  - apply scaled_isometry_distance; assumption.
Qed.

(** Property X5.  Over the reals, the matrix of [calculate_rotation_matrix]
    is a rigid rotation about the origin: it has no translation, fixes the
    origin, and the transformed images of two points are as far apart as
    the points (for points within 1e10 of the origin, whose images stay in
    the validated range).  In binary64 the two distances agree up to
    rounding. *)
Theorem rotation_is_rigid (f t p q : Vector3D) :
  ~ is_zero f -> ~ is_zero t -> norm p <= 1e10 -> norm q <= 1e10 ->
  exists m p' q' d,
    calculate_rotation_matrix f t = Ok m /\
    translation m = V3 0 0 0 /\
    apply_transformation m [origin; p; q] = Ok [origin; p'; q'] /\
    calculate_distance p q = Ok d /\ calculate_distance p' q' = Ok d.
Proof.
  intros Hf Ht Hp Hq.
  destruct (calculate_rotation_matrix_spec f t Hf Ht) as (r & Hr & Hiso & _).
  destruct (scaled_isometry_moves 1 r p q Hiso) as (p' & q' & d & Ha & Hd & Hd');
    [lra | lra | lra | ].
  rewrite m3_scale_one in Ha. rewrite Rmult_1_l in Hd'.
  exists (mkTransformationMatrix (mat4_of r)), p', q', d.
  repeat split; assumption.
Qed.

Lemma norm_unit_x : norm (mkVector3D 1 0 0) = 1.
Proof.
  unfold norm, to_vec3, v3_norm, v3_dot; cbn.
  replace (1 * 1 + 0 * 0 + 0 * 0) with 1 by ring. apply sqrt_1.
Qed.

Lemma norm_unit_z : norm (mkVector3D 0 0 1) = 1.
Proof.
  unfold norm, to_vec3, v3_norm, v3_dot; cbn.
  replace (0 * 0 + 0 * 0 + 1 * 1) with 1 by ring. apply sqrt_1.
Qed.

Ltac not_zero_vec := unfold is_zero; cbn; intros (? & ? & ?); lra.

(** Property X5 for the rotation from the x axis to the z axis and their unit
    points. *)
Lemma rotation_is_rigid_example :
  exists m p' q' d,
    calculate_rotation_matrix (mkVector3D 1 0 0) (mkVector3D 0 0 1) = Ok m /\
    translation m = V3 0 0 0 /\
    apply_transformation m [origin; mkVector3D 1 0 0; mkVector3D 0 0 1]
    = Ok [origin; p'; q'] /\
    calculate_distance (mkVector3D 1 0 0) (mkVector3D 0 0 1) = Ok d /\
    calculate_distance p' q' = Ok d.
Proof.
  apply (rotation_is_rigid (mkVector3D 1 0 0) (mkVector3D 0 0 1)
                           (mkVector3D 1 0 0) (mkVector3D 0 0 1)).
  - not_zero_vec.
  - not_zero_vec.
  - rewrite norm_unit_x. lra.
  - rewrite norm_unit_z. lra.
Defined.

(** Property X6.  Over the reals, the matrix of [calculate_alignment_matrix]
    is a rotation about the origin followed by nothing but the uniform
    scaling: it has no translation, fixes the origin, and multiplies every
    distance by [scale_factor] (in binary64, up to rounding). *)
Theorem alignment_scales_distances (l : LandmarkSet) (params : GeometryParameters)
        (p q : Vector3D) :
  valid_vector (difference (tail l) (nose l)) ->
  ~ is_zero (difference (tail l) (nose l)) ->
  valid_axis (nose_tail_axis params) ->
  0 < scale_factor params <= 1e10 ->
  scale_factor params * norm p <= 1e10 -> scale_factor params * norm q <= 1e10 ->
  exists m p' q' d,
    calculate_alignment_matrix l params = Ok m /\
    translation m = V3 0 0 0 /\
    apply_transformation m [origin; p; q] = Ok [origin; p'; q'] /\
    calculate_distance p q = Ok d /\
    calculate_distance p' q' = Ok (scale_factor params * d).
Proof.
  intros Hv Hz Hax Hs Hp Hq.
  destruct (calculate_alignment_matrix_spec l params Hv Hz Hax Hs) as (r & Hm & Hiso & _).
  destruct (scaled_isometry_moves (scale_factor params) r p q Hiso)
    as (p' & q' & d & Ha & Hd & Hd'); [lra | assumption | assumption | ].
  exists (mkTransformationMatrix (mat4_of (m3_scale (scale_factor params) r))), p', q', d.
  repeat split; assumption.
Qed.

(** Property X6 at [body_along_x] with the default parameters. *)
Lemma alignment_scales_distances_example :
  exists m p' q' d,
    calculate_alignment_matrix body_along_x default_params = Ok m /\
    translation m = V3 0 0 0 /\
    apply_transformation m [origin; mkVector3D 1 0 0; mkVector3D 0 0 1]
    = Ok [origin; p'; q'] /\
    calculate_distance (mkVector3D 1 0 0) (mkVector3D 0 0 1) = Ok d /\
    calculate_distance p' q' = Ok (scale_factor default_params * d).
Proof.
  apply (alignment_scales_distances body_along_x default_params
                                    (mkVector3D 1 0 0) (mkVector3D 0 0 1)).
  - unfold valid_vector, in_range; cbn; lra.
  - unfold difference; cbn. not_zero_vec.
  - unfold valid_axis; cbn; tauto.
  - cbn; lra.
  - rewrite norm_unit_x. cbn; lra.
  - rewrite norm_unit_z. cbn; lra.
Defined.

(** ** The Rodrigues branch of the rotation; the outcomes of the alignment matrix *)

Lemma isometry_valid r p :
  isometry r -> norm p <= 1e10 -> valid_vector (of_vec3 (m3_apply r (to_vec3 p))).
Proof.
  intros Hiso Hp. rewrite <- (m3_scale_one r).
  apply scaled_isometry_valid; [exact Hiso | lra | lra].
Qed.

(** Property X7.  Outside the two [np.allclose] branches the Rodrigues
    matrix maps the first vector exactly onto the direction of the second,
    keeping its length. *)
Theorem rotation_maps_from_onto_to (f t : Vector3D) :
  ~ is_zero f -> ~ is_zero t -> norm f <= 1e10 ->
  np_allclose (direction_cosine f t) 1 = false ->
  np_allclose (direction_cosine f t) (-1) = false ->
  exists m, calculate_rotation_matrix f t = Ok m /\
            apply_transformation m [f]
            = Ok [of_vec3 (v3_scale (norm f) (unit3 (to_vec3 t)))].
Proof.
  intros Hf Ht Hn H1 H2. unfold direction_cosine in *.
  destruct (calculate_rotation_matrix_spec f t Hf Ht) as (r & Hr & Hiso & Hcase).
  cbv zeta in Hcase.
  assert (Hab : m3_apply r (unit3 (to_vec3 f)) = unit3 (to_vec3 t)).
  { destruct Hcase as [[E _] | [(_ & E & _) | (_ & _ & _ & Hra)]];
      [rewrite E in H1; discriminate | rewrite E in H2; discriminate | exact Hra]. }
  exists (mkTransformationMatrix (mat4_of r)). split; [exact Hr | ].
  rewrite apply_transformation_mat4.
  - cbn [map]. do 3 f_equal.
    rewrite <- (unit3_scale (to_vec3 f) (to_vec3_dot_pos _ Hf)) at 1.
    rewrite m3_apply_scale, Hab. reflexivity.
  - apply Forall_cons; [apply isometry_valid; assumption | apply Forall_nil].
Qed.

Lemma unit3_x : unit3 (V3 1 0 0) = V3 1 0 0.
Proof. apply unit3_of_unit. unfold v3_dot; cbn; ring. Qed.

Lemma unit3_z : unit3 (V3 0 0 1) = V3 0 0 1.
Proof. apply unit3_of_unit. unfold v3_dot; cbn; ring. Qed.

Lemma direction_cosine_x_z : direction_cosine (mkVector3D 1 0 0) (mkVector3D 0 0 1) = 0.
Proof.
  unfold direction_cosine, to_vec3; cbn [x y z]. rewrite unit3_x, unit3_z.
  unfold v3_dot; cbn; ring.
Qed.

(** Property X7 for the x axis and the z axis. *)
Lemma rotation_maps_x_onto_z :
  exists m, calculate_rotation_matrix (mkVector3D 1 0 0) (mkVector3D 0 0 1) = Ok m /\
            apply_transformation m [mkVector3D 1 0 0]
            = Ok [of_vec3 (v3_scale (norm (mkVector3D 1 0 0))
                                    (unit3 (to_vec3 (mkVector3D 0 0 1))))].
Proof.
  apply (rotation_maps_from_onto_to (mkVector3D 1 0 0) (mkVector3D 0 0 1)).
  - not_zero_vec.
  - not_zero_vec.
  - rewrite norm_unit_x. lra.
  - rewrite direction_cosine_x_z. exact np_allclose_0_1.
  - rewrite direction_cosine_x_z. exact np_allclose_0_m1.
Defined.

Lemma Vector3D_new_invalid a b c :
  ~ (in_range a /\ in_range b /\ in_range c) ->
  Vector3D_new a b c = Raise (ValidationError "Coordinate must be a finite number").
Proof.
  intros H. unfold Vector3D_new, validate_finite, in_range in *.
  destruct (Rleb_cases (-1e10) a) as [[E1 H1] | [E1 H1]]; rewrite E1; cbn [andb bind]; [ | reflexivity].
  destruct (Rleb_cases a 1e10) as [[E2 H2] | [E2 H2]]; rewrite E2; cbn [andb bind]; [ | reflexivity].
  destruct (Rleb_cases (-1e10) b) as [[E3 H3] | [E3 H3]]; rewrite E3; cbn [andb bind]; [ | reflexivity].
  destruct (Rleb_cases b 1e10) as [[E4 H4] | [E4 H4]]; rewrite E4; cbn [andb bind]; [ | reflexivity].
  destruct (Rleb_cases (-1e10) c) as [[E5 H5] | [E5 H5]]; rewrite E5; cbn [andb bind]; [ | reflexivity].
  destruct (Rleb_cases c 1e10) as [[E6 H6] | [E6 H6]]; rewrite E6; cbn [andb bind]; [ | reflexivity].
  exfalso. apply H. repeat split; assumption.
Qed.


(** Property X8.  Over the reals and with validated parameters,
    [calculate_alignment_matrix] has three outcomes, decided by the
    nose-to-tail vector alone: a ValidationError when a coordinate of the
    difference leaves the validated range, the ValueError of the rotation
    when nose and tail coincide, and a matrix in every other case.  (In
    binary64 the ValueError is also raised when the norm of a non-zero
    difference underflows to 0.) *)
Theorem alignment_matrix_outcomes (l : LandmarkSet) (params : GeometryParameters) :
  valid_axis (nose_tail_axis params) -> 0 < scale_factor params <= 1e10 ->
  (~ valid_vector (difference (tail l) (nose l)) <->
   calculate_alignment_matrix l params
   = Raise (ValidationError "Coordinate must be a finite number")) /\
  (is_zero (difference (tail l) (nose l)) <->
   calculate_alignment_matrix l params
   = Raise (ValueError "Cannot calculate rotation with zero vectors")) /\
  (valid_vector (difference (tail l) (nose l)) /\ ~ is_zero (difference (tail l) (nose l))
   <-> exists m, calculate_alignment_matrix l params = Ok m).
Proof.
  intros Hax Hs.
  set (v := difference (tail l) (nose l)).
  assert (Hinv : ~ valid_vector v ->
                 calculate_alignment_matrix l params
                 = Raise (ValidationError "Coordinate must be a finite number")).
  { intros H. unfold calculate_alignment_matrix.
    rewrite Vector3D_new_invalid; [reflexivity | exact H]. }
  assert (Hzero : is_zero v ->
                  calculate_alignment_matrix l params
                  = Raise (ValueError "Cannot calculate rotation with zero vectors")).
  { intros H. unfold calculate_alignment_matrix.
    assert (Hv : valid_vector v).
    { destruct H as (A & B & C). unfold valid_vector, in_range. rewrite A, B, C. lra. }
    destruct Hv as (Hx & Hy & Hz). cbn [v difference x y z] in Hx, Hy, Hz.
    rewrite (Vector3D_new_ok _ _ _ Hx Hy Hz). cbn [bind]. fold (difference (tail l) (nose l)).
    rewrite (axis_vector_canonical _ _ Hax). cbn [bind].
    rewrite rotation_of_zero_vector; [reflexivity | left; exact H]. }
  assert (Hok : valid_vector v -> ~ is_zero v ->
                exists m, calculate_alignment_matrix l params = Ok m).
  { intros Hv Hz. destruct (calculate_alignment_matrix_spec l params Hv Hz Hax Hs)
      as (r & Hr & _). eexists; exact Hr. }
  assert (Hdec : valid_vector v \/ ~ valid_vector v).
  { unfold valid_vector, in_range.
    destruct (Rle_dec (-1e10) (x v)), (Rle_dec (x v) 1e10), (Rle_dec (-1e10) (y v)),
      (Rle_dec (y v) 1e10), (Rle_dec (-1e10) (z v)), (Rle_dec (z v) 1e10);
      try (left; repeat split; assumption); right; intros ((? & ?) & (? & ?) & (? & ?));
      contradiction. }
  assert (Hvz : is_zero v -> valid_vector v).
  { intros (A & B & C). unfold valid_vector, in_range. rewrite A, B, C. lra. }
  split; [split | split; [split | split]].
  - exact Hinv.
  - intros E H. destruct (classic_zero v) as [Z | Z].
    + rewrite (Hzero Z) in E. discriminate.
    + destruct (Hok H Z) as (m & Hm). rewrite Hm in E. discriminate.
  - exact Hzero.
  - intros E. destruct Hdec as [Hv | Hv].
    + destruct (classic_zero v) as [Z | Z]; [exact Z | ].
      destruct (Hok Hv Z) as (m & Hm). rewrite Hm in E. discriminate.
    + rewrite (Hinv Hv) in E. discriminate.
  - intros (Hv & Z). apply Hok; assumption.
  - intros (m & Hm). split.
    + destruct Hdec as [Hv | Hv]; [exact Hv | ].
      rewrite (Hinv Hv) in Hm. discriminate.
    + intros Z. rewrite (Hzero Z) in Hm. discriminate.
Qed.

(** Property X8 at [body_along_x] with the default parameters. *)
Lemma alignment_matrix_outcomes_example :
  (~ valid_vector (difference (tail body_along_x) (nose body_along_x)) <->
   calculate_alignment_matrix body_along_x default_params
   = Raise (ValidationError "Coordinate must be a finite number")) /\
  (is_zero (difference (tail body_along_x) (nose body_along_x)) <->
   calculate_alignment_matrix body_along_x default_params
   = Raise (ValueError "Cannot calculate rotation with zero vectors")) /\
  (valid_vector (difference (tail body_along_x) (nose body_along_x))
   /\ ~ is_zero (difference (tail body_along_x) (nose body_along_x))
   <-> exists m, calculate_alignment_matrix body_along_x default_params = Ok m).
Proof.
  apply (alignment_matrix_outcomes body_along_x default_params).
  - unfold valid_axis; cbn; tauto.
  - cbn; lra.
Defined.

(** ** The single-axis alignments *)

Lemma Vector3D_new_inv a b c v :
  Vector3D_new a b c = Ok v -> v = mkVector3D a b c /\ valid_vector v.
Proof.
  intros H.
  assert (Hdec : (in_range a /\ in_range b /\ in_range c)
                 \/ ~ (in_range a /\ in_range b /\ in_range c)).
  { unfold in_range.
    destruct (Rle_dec (-1e10) a), (Rle_dec a 1e10), (Rle_dec (-1e10) b),
      (Rle_dec b 1e10), (Rle_dec (-1e10) c), (Rle_dec c 1e10);
      try (left; repeat split; assumption); right; intros ((? & ?) & (? & ?) & (? & ?));
      contradiction. }
  destruct Hdec as [(Ha & Hb & Hc) | Hn].
  - rewrite (Vector3D_new_ok _ _ _ Ha Hb Hc) in H. injection H as <-.
    split; [reflexivity | repeat split; cbn; apply Ha || apply Hb || apply Hc].
  - rewrite (Vector3D_new_invalid _ _ _ Hn) in H. discriminate.
Qed.

Lemma unit_vector_not_zero u : v3_dot u u = 1 -> ~ is_zero (of_vec3 u).
Proof.
  intros Hu. apply not_zero_iff_dot_pos. rewrite to_vec3_of_vec3, Hu. lra.
Qed.

Lemma rotation_of_normalized v t :
  ~ is_zero v ->
  calculate_rotation_matrix (of_vec3 (unit3 (to_vec3 v))) t = calculate_rotation_matrix v t.
Proof.
  intros Hv. pose proof (unit3_dot _ (to_vec3_dot_pos _ Hv)) as Hu.
  destruct (classic_zero t) as [Zt | Zt].
  - rewrite !rotation_of_zero_vector; [reflexivity | right; exact Zt | right; exact Zt].
  - apply rotation_depends_on_directions; try assumption.
    + apply unit_vector_not_zero; exact Hu.
    + rewrite to_vec3_of_vec3. apply unit3_of_unit; exact Hu.
    + reflexivity.
Qed.

(** Property X9.  Over the reals: when nose and tail differ, the alignment
    matrix is the rotation of [calculate_nose_tail_alignment] multiplied by
    the scale matrix, failures included: normalising the nose-to-tail
    vector before the rotation changes nothing (in binary64 the second
    normalisation can change the last digits of the entries). *)
Theorem alignment_matrix_factors (l : LandmarkSet) (params : GeometryParameters) :
  ~ is_zero (difference (tail l) (nose l)) ->
  calculate_alignment_matrix l params
  = (rotation <- calculate_nose_tail_alignment (nose l) (tail l) params ;;
     TransformationMatrix_new
       (matmul (matrix rotation) (scale_matrix (scale_factor params)))).
Proof.
  intros Hz. unfold calculate_alignment_matrix, calculate_nose_tail_alignment.
  destruct (Vector3D_new (x (tail l) - x (nose l)) (y (tail l) - y (nose l))
                         (z (tail l) - z (nose l))) as [v | e] eqn:E; [ | reflexivity].
  apply Vector3D_new_inv in E. destruct E as [-> _].
  fold (difference (tail l) (nose l)) in *. cbn [bind].
  rewrite (normalize_vector_unit3 _ Hz). cbn [bind].
  destruct (axis_vector "nose_tail_axis" (nose_tail_axis params)) as [tg | e];
    [ | reflexivity].
  cbn [bind]. rewrite (rotation_of_normalized _ tg Hz). reflexivity.
Qed.

(** Property X9 at [body_along_x] with the default parameters. *)
Lemma alignment_matrix_factors_example :
  calculate_alignment_matrix body_along_x default_params
  = (rotation <- calculate_nose_tail_alignment (nose body_along_x) (tail body_along_x)
                                                default_params ;;
     TransformationMatrix_new
       (matmul (matrix rotation) (scale_matrix (scale_factor default_params)))).
Proof.
  apply (alignment_matrix_factors body_along_x default_params).
  unfold difference; cbn. not_zero_vec.
Defined.






(** ** Applying a transform, point by point *)

Lemma apply_transformation_ok_iff m ps : forall qs,
  apply_transformation m ps = Ok qs
  <-> Forall2 (fun p q => transform_point m p = Ok q) ps qs.
Proof.
  induction ps as [| p ps IH]; intros qs; cbn [apply_transformation].
  - split.
    + intros H. injection H as <-. constructor.
    + intros H. inversion H. reflexivity.
  - destruct (transform_point m p) as [q | e] eqn:Ep; cbn [bind].
    + destruct (apply_transformation m ps) as [qs' | e] eqn:Eps; cbn [bind].
      * split.
        -- intros H. injection H as <-. constructor; [exact Ep | apply IH; reflexivity].
        -- intros H. inversion H as [| p0 q0 ps0 qs0 Hq Hrest]; subst.
           rewrite Ep in Hq. injection Hq as <-.
           apply IH in Hrest. injection Hrest as <-. reflexivity.
      * split; [discriminate | ].
        intros H. inversion H as [| p0 q0 ps0 qs0 Hq Hrest]; subst.
        apply IH in Hrest. discriminate.
    + split; [discriminate | ].
      intros H. inversion H as [| p0 q0 ps0 qs0 Hq Hrest]; subst.
      rewrite Ep in Hq. discriminate.
Qed.

Lemma transform_point_valid m p q : transform_point m p = Ok q -> valid_vector q.
Proof.
  unfold transform_point. intros H.
  destruct (mat_vec (matrix m) [x p; y p; z p; 1]) as [h | e]; [ | discriminate].
  cbn [bind] in H.
  destruct (getitem h 3) as [w | e]; [ | discriminate]. cbn [bind] in H.
  destruct (Reqb w 0); [discriminate | ].
  destruct (getitem h 0) as [h0 | e]; [ | discriminate]. cbn [bind] in H.
  destruct (getitem h 1) as [h1 | e]; [ | discriminate]. cbn [bind] in H.
  destruct (getitem h 2) as [h2 | e]; [ | discriminate]. cbn [bind] in H.
  apply Vector3D_new_inv in H. apply H.
Qed.

Lemma apply_transformation_raise_iff m ps : forall e,
  apply_transformation m ps = Raise e
  <-> exists before p after qs,
      ps = before ++ p :: after /\
      apply_transformation m before = Ok qs /\
      transform_point m p = Raise e.
Proof.
  induction ps as [| p ps IH]; intros e; cbn [apply_transformation].
  - split; [discriminate | ].
    intros (before & p & after & qs & E & _). destruct before; discriminate.
  - destruct (transform_point m p) as [q | e'] eqn:Ep; cbn [bind].
    + assert (Htail : (exists before p0 after qs,
                          p :: ps = before ++ p0 :: after /\
                          apply_transformation m before = Ok qs /\
                          transform_point m p0 = Raise e)
                      <-> apply_transformation m ps = Raise e).
      { rewrite IH. split.
        - intros (before & p0 & after & qs & E & Hb & Hp).
          destruct before as [| b0 before]; cbn in E; injection E as -> ->.
          + rewrite Ep in Hp. discriminate.
          + cbn [apply_transformation] in Hb. rewrite Ep in Hb. cbn [bind] in Hb.
            destruct (apply_transformation m before) as [qb | eb] eqn:Eb; [ | discriminate].
            exists before, p0, after, qb. repeat split; assumption.
        - intros (before & p0 & after & qs & E & Hb & Hp).
          exists (p :: before), p0, after, (q :: qs). subst ps.
          split; [reflexivity | ]. split; [ | exact Hp].
          cbn [apply_transformation]. rewrite Ep, Hb. reflexivity. }
      rewrite Htail.
      destruct (apply_transformation m ps) as [qs' | e'']; cbn [bind].
      * split; discriminate.
      * split; intros H; injection H as ->; reflexivity.
    + split.
      * intros H. injection H as ->. exists [], p, ps, []. repeat split. exact Ep.
      * intros (before & p0 & after & qs & E & Hb & Hp).
        destruct before as [| b0 before]; cbn in E; injection E as -> ->.
        -- rewrite Ep in Hp. injection Hp as ->. reflexivity.
        -- cbn [apply_transformation] in Hb. rewrite Ep in Hb. discriminate.
Qed.

(** Property X11.  [apply_transformation] is the pointwise map of the
    per-point transform: it succeeds exactly when every point transforms,
    then returns one validated point per input point in order; and it
    fails exactly with the exception of the first point that fails. *)
Theorem apply_transformation_is_pointwise (m : TransformationMatrix)
        (ps : list Vector3D) :
  (forall qs, apply_transformation m ps = Ok qs
              <-> Forall2 (fun p q => transform_point m p = Ok q) ps qs) /\
  (forall qs, apply_transformation m ps = Ok qs
              -> length qs = length ps /\ Forall valid_vector qs) /\
  (forall e, apply_transformation m ps = Raise e
             <-> exists before p after qs,
                 ps = before ++ p :: after /\
                 apply_transformation m before = Ok qs /\
                 transform_point m p = Raise e).
Proof.
  split; [apply apply_transformation_ok_iff | ].
  split; [ | apply apply_transformation_raise_iff].
  intros qs H. apply apply_transformation_ok_iff in H.
  induction H as [| p q ps' qs' Hq Hrest [IHl IHv]].
  - split; [reflexivity | constructor].
  - split; [cbn; f_equal; exact IHl | ].
    constructor; [exact (transform_point_valid _ _ _ Hq) | exact IHv].
Qed.

(** ** Failures on a validated matrix *)

Lemma length_4_entries {A : Type} (l : list A) :
  length l = 4%nat -> exists a b c d, l = [a; b; c; d].
Proof.
  destruct l as [| a [| b [| c [| d [| e l]]]]]; cbn; intros H; try discriminate.
  exists a, b, c, d. reflexivity.
Qed.

Lemma is_4x4_entries m :
  is_4x4 m ->
  exists a00 a01 a02 a03 a10 a11 a12 a13 a20 a21 a22 a23 a30 a31 a32 a33,
    m = [ [a00; a01; a02; a03]; [a10; a11; a12; a13];
          [a20; a21; a22; a23]; [a30; a31; a32; a33] ].
Proof.
  intros [Hl Hr]. destruct (length_4_entries m Hl) as (r0 & r1 & r2 & r3 & ->).
  inversion Hr as [| ? ? H0 Hr1]; subst. inversion Hr1 as [| ? ? H1 Hr2]; subst.
  inversion Hr2 as [| ? ? H2 Hr3]; subst. inversion Hr3 as [| ? ? H3 _]; subst.
  destruct (length_4_entries r0 H0) as (a00 & a01 & a02 & a03 & ->).
  destruct (length_4_entries r1 H1) as (a10 & a11 & a12 & a13 & ->).
  destruct (length_4_entries r2 H2) as (a20 & a21 & a22 & a23 & ->).
  destruct (length_4_entries r3 H3) as (a30 & a31 & a32 & a33 & ->).
  repeat eexists.
Qed.

Lemma validated_matrix_is_4x4 m0 m :
  TransformationMatrix_new m0 = Ok m -> matrix m = m0 /\ is_4x4 m0.
Proof.
  unfold TransformationMatrix_new, validate_matrix_dimensions. intros H.
  destruct (negb (length m0 =? 4)%nat
            || existsb (fun row => negb (length row =? 4)%nat) m0) eqn:E;
    [discriminate | ].
  cbn [bind] in H. apply orb_false_iff in E. destruct E as [E1 E2].
  unfold validate_matrix_values in H.
  destruct (forallb (forallb (fun val => Rleb (-1e10) val && Rleb val 1e10)) m0);
    [ | discriminate].
  cbn [bind] in H. injection H as <-. split; [reflexivity | ]. split.
  - apply negb_false_iff, Nat.eqb_eq in E1. exact E1.
  - apply Forall_forall. intros row Hin.
    destruct (length row =? 4)%nat eqn:El; [apply Nat.eqb_eq; exact El | ].
    exfalso. assert (Hex : existsb (fun row => negb (length row =? 4)%nat) m0 = true).
    { apply existsb_exists. exists row. rewrite El. split; [exact Hin | reflexivity]. }
    rewrite Hex in E2. discriminate.
Qed.

Lemma Vector3D_new_outcome a b c :
  (exists v, Vector3D_new a b c = Ok v)
  \/ Vector3D_new a b c = Raise (ValidationError "Coordinate must be a finite number").
Proof.
  destruct (Vector3D_new a b c) as [v | e] eqn:E; [left; exists v; reflexivity | right].
  assert (Hn : ~ (in_range a /\ in_range b /\ in_range c)).
  { intros (Ha & Hb & Hc). rewrite (Vector3D_new_ok _ _ _ Ha Hb Hc) in E. discriminate. }
  rewrite (Vector3D_new_invalid _ _ _ Hn) in E. symmetry. exact E.
Qed.

Lemma transform_point_4x4_failures m p e :
  is_4x4 (matrix m) -> transform_point m p = Raise e ->
  e = ValueError "Transformation resulted in invalid homogeneous coordinates"
  \/ e = ValidationError "Coordinate must be a finite number".
Proof.
  intros Hm H. destruct m as [mm]. cbn [matrix] in Hm.
  destruct (is_4x4_entries mm Hm)
    as (a00 & a01 & a02 & a03 & a10 & a11 & a12 & a13 & a20 & a21 & a22 & a23
        & a30 & a31 & a32 & a33 & ->).
  unfold transform_point in H. cbn [matrix mat_vec forallb length Nat.eqb andb map bind
                                    getitem nth_error] in H.
  match type of H with
  | (if Reqb ?w 0 then _ else _) = _ => destruct (Reqb w 0)
  end.
  - injection H as <-. left; reflexivity.
  - match type of H with
    | Vector3D_new ?a ?b ?c = _ => destruct (Vector3D_new_outcome a b c) as [(v & E) | E]
    end; rewrite E in H; [discriminate | ].
    injection H as <-. right; reflexivity.
Qed.

(** Property X12.  On a matrix that passed the [TransformationMatrix]
    validators, [apply_transformation] can fail in two ways only: the
    ValueError of a zero homogeneous coordinate, or the ValidationError of
    a transformed coordinate outside the validated range; the shapes
    always agree and no index is out of range. *)
Theorem validated_transform_failures (m0 : list (list R)) (m : TransformationMatrix)
        (ps : list Vector3D) (e : exn) :
  TransformationMatrix_new m0 = Ok m ->
  apply_transformation m ps = Raise e ->
  e = ValueError "Transformation resulted in invalid homogeneous coordinates"
  \/ e = ValidationError "Coordinate must be a finite number".
Proof.
  intros Hm H. destruct (validated_matrix_is_4x4 _ _ Hm) as [Em H4].
  apply apply_transformation_raise_iff in H.
  destruct H as (before & p & after & qs & _ & _ & Hp).
  apply (transform_point_4x4_failures m p e); [rewrite Em; exact H4 | exact Hp].
Qed.

Lemma zero_matrix_validated :
  TransformationMatrix_new zero_matrix = Ok (mkTransformationMatrix zero_matrix).
Proof.
  unfold TransformationMatrix_new, validate_matrix_dimensions. cbn [zero_matrix length
    Nat.eqb negb orb existsb bind].
  rewrite validate_matrix_values_ok; [reflexivity | ].
  unfold zero_matrix.
  repeat (apply Forall_cons;
          [repeat (apply Forall_cons; [unfold in_range; lra | ]); apply Forall_nil | ]).
  apply Forall_nil.
Qed.

Lemma zero_matrix_fails :
  apply_transformation (mkTransformationMatrix zero_matrix) [origin]
  = Raise (ValueError "Transformation resulted in invalid homogeneous coordinates").
Proof.
  cbn [apply_transformation]. unfold transform_point.
  cbn [matrix zero_matrix mat_vec forallb length Nat.eqb andb map bind getitem nth_error
       origin x y z].
  rewrite Reqb_true; [reflexivity | ].
  unfold np_dot, np_sum; cbn. ring.
Qed.

(** Property X12 at the matrix of zeros, which passes the validators and
    fails on the origin. *)
Lemma zero_matrix_failure :
  TransformationMatrix_new zero_matrix = Ok (mkTransformationMatrix zero_matrix) /\
  apply_transformation (mkTransformationMatrix zero_matrix) [origin]
  = Raise (ValueError "Transformation resulted in invalid homogeneous coordinates") /\
  (ValueError "Transformation resulted in invalid homogeneous coordinates"
   = ValueError "Transformation resulted in invalid homogeneous coordinates"
   \/ ValueError "Transformation resulted in invalid homogeneous coordinates"
      = ValidationError "Coordinate must be a finite number").
Proof.
  split; [exact zero_matrix_validated | ]. split; [exact zero_matrix_fails | ].
  exact (validated_transform_failures zero_matrix (mkTransformationMatrix zero_matrix)
           [origin] _ zero_matrix_validated zero_matrix_fails).
Defined.

(** ** Composition of transforms *)

Lemma Reqb_div_zero g w : w <> 0 -> Reqb (g / w) 0 = Reqb g 0.
Proof.
  intros Hw. destruct (Req_dec g 0) as [E | E].
  - rewrite (Reqb_true g 0 E). apply Reqb_true. rewrite E. field. exact Hw.
  - rewrite (Reqb_false g 0 E). apply Reqb_false. intros H. apply E.
    apply (Rmult_eq_compat_r w) in H. unfold Rdiv in H.
    rewrite Rmult_assoc, Rinv_l, Rmult_1_r, Rmult_0_l in H; assumption.
Qed.

Lemma Reqb_false_inv a b : Reqb a b = false -> a <> b.
Proof. unfold Reqb. destruct (Req_dec_T a b); [discriminate | intros _; assumption]. Qed.

Lemma transform_point_compose a b c p q :
  is_4x4 (matrix a) -> is_4x4 (matrix b) ->
  matrix c = matmul (matrix a) (matrix b) ->
  transform_point b p = Ok q ->
  transform_point c p = transform_point a q.
Proof.
  intros Ha Hb Hc Hq. destruct a as [ma], b as [mb], c as [mc].
  cbn [matrix] in *. subst mc.
  destruct (is_4x4_entries ma Ha)
    as (a00 & a01 & a02 & a03 & a10 & a11 & a12 & a13 & a20 & a21 & a22 & a23
        & a30 & a31 & a32 & a33 & ->).
  destruct (is_4x4_entries mb Hb)
    as (b00 & b01 & b02 & b03 & b10 & b11 & b12 & b13 & b20 & b21 & b22 & b23
        & b30 & b31 & b32 & b33 & ->).
  clear Ha Hb.
  unfold transform_point in Hq.
  cbn [matrix mat_vec forallb length Nat.eqb andb map bind getitem nth_error] in Hq.
  set (h0 := np_dot [b00; b01; b02; b03] [x p; y p; z p; 1]) in *.
  set (h1 := np_dot [b10; b11; b12; b13] [x p; y p; z p; 1]) in *.
  set (h2 := np_dot [b20; b21; b22; b23] [x p; y p; z p; 1]) in *.
  set (w := np_dot [b30; b31; b32; b33] [x p; y p; z p; 1]) in *.
  destruct (Reqb w 0) eqn:Ew; [discriminate | ].
  apply Reqb_false_inv in Ew.
  apply Vector3D_new_inv in Hq. destruct Hq as [-> _].
  assert (F : forall i0 i1 i2 i3 : R,
             np_dot [np_dot [i0; i1; i2; i3] [b00; b10; b20; b30];
                     np_dot [i0; i1; i2; i3] [b01; b11; b21; b31];
                     np_dot [i0; i1; i2; i3] [b02; b12; b22; b32];
                     np_dot [i0; i1; i2; i3] [b03; b13; b23; b33]]
                    [x p; y p; z p; 1]
             = np_dot [i0; i1; i2; i3] [h0; h1; h2; w]).
  { intros. unfold h0, h1, h2, w, np_dot, np_sum; cbn. ring. }
  clearbody h0 h1 h2 w.
  unfold transform_point.
  cbn [matrix matmul ncols column seq mat_vec forallb length Nat.eqb andb map bind
       getitem nth_error nth x y z].
  set (g0 := np_dot [a00; a01; a02; a03] [h0; h1; h2; w]).
  set (g1 := np_dot [a10; a11; a12; a13] [h0; h1; h2; w]).
  set (g2 := np_dot [a20; a21; a22; a23] [h0; h1; h2; w]).
  set (g3 := np_dot [a30; a31; a32; a33] [h0; h1; h2; w]).
  assert (E3 : np_dot [a30; a31; a32; a33] [h0 / w; h1 / w; h2 / w; 1] = g3 / w).
  { unfold g3, np_dot, np_sum; cbn. field. exact Ew. }
  assert (E0 : np_dot [a00; a01; a02; a03] [h0 / w; h1 / w; h2 / w; 1] = g0 / w).
  { unfold g0, np_dot, np_sum; cbn. field. exact Ew. }
  assert (E1 : np_dot [a10; a11; a12; a13] [h0 / w; h1 / w; h2 / w; 1] = g1 / w).
  { unfold g1, np_dot, np_sum; cbn. field. exact Ew. }
  assert (E2 : np_dot [a20; a21; a22; a23] [h0 / w; h1 / w; h2 / w; 1] = g2 / w).
  { unfold g2, np_dot, np_sum; cbn. field. exact Ew. }
  rewrite E0, E1, E2, E3. rewrite (Reqb_div_zero g3 w Ew).
  rewrite !F. fold g0 g1 g2 g3.
  destruct (Reqb g3 0) eqn:Eg; [reflexivity | ].
  apply Reqb_false_inv in Eg.
  f_equal; field; split; assumption.
Qed.

(** Property X13.  Transforms compose as their matrices multiply: applying
    the product of two 4x4 matrices to a list of points gives what applying
    the right factor and then the left factor gives, failures of the second
    step included.  (So the alignment matrix, rotation times scale, scales
    first and rotates afterwards.) *)
Theorem transforms_compose (a b c : TransformationMatrix) (ps qs : list Vector3D) :
  is_4x4 (matrix a) -> is_4x4 (matrix b) ->
  matrix c = matmul (matrix a) (matrix b) ->
  apply_transformation b ps = Ok qs ->
  apply_transformation c ps = apply_transformation a qs.
Proof.
  intros Ha Hb Hc H. apply apply_transformation_ok_iff in H.
  induction H as [| p q ps' qs' Hq Hrest IH]; [reflexivity | ].
  cbn [apply_transformation].
  rewrite (transform_point_compose a b c p q Ha Hb Hc Hq), IH. reflexivity.
Qed.

Lemma eye_is_4x4 : is_4x4 (eye 4).
Proof. split; [reflexivity | ]. repeat (apply Forall_cons; [reflexivity | ]). apply Forall_nil. Qed.

(** Property X13 for the identity composed with itself. *)
Lemma transforms_compose_example :
  apply_transformation (mkTransformationMatrix (matmul (eye 4) (eye 4))) [mkVector3D 1 0 0]
  = apply_transformation identity_transform [mkVector3D 1 0 0].
Proof.
  apply (transforms_compose identity_transform identity_transform
           (mkTransformationMatrix (matmul (eye 4) (eye 4)))
           [mkVector3D 1 0 0] [mkVector3D 1 0 0]).
  - exact eye_is_4x4.
  - exact eye_is_4x4.
  - reflexivity.
  - apply identity_transform_applies.
    apply Forall_cons; [unfold valid_vector, in_range; cbn; lra | apply Forall_nil].
Defined.

(** ** Extremes of the alignment error *)

Lemma degrees_eq_0 a : degrees a = 0 <-> a = 0.
Proof.
  pose proof PI_pos as HP. unfold degrees. split.
  - intros H. apply Rmult_integral in H. destruct H as [H | H]; [exact H | ].
    exfalso. assert (0 < 180 / PI) by (apply Rdiv_lt_0_compat; lra). lra.
  - intros ->. ring.
Qed.

Lemma degrees_eq_90 a : degrees a = 90 <-> a = PI / 2.
Proof.
  pose proof PI_pos as HP. unfold degrees. split.
  - intros H. apply (Rmult_eq_compat_r (PI / 180)) in H.
    replace (a * (180 / PI) * (PI / 180)) with a in H by (field; lra).
    rewrite H. field.
  - intros ->. field. lra.
Qed.

Lemma acos_eq_0 c : -1 <= c <= 1 -> (acos c = 0 <-> c = 1).
Proof.
  intros Hc. split.
  - intros H. rewrite <- (cos_acos c Hc), H. apply cos_0.
  - intros ->. apply acos_1.
Qed.

Lemma acos_eq_half_pi c : -1 <= c <= 1 -> (acos c = PI / 2 <-> c = 0).
Proof.
  intros Hc. split.
  - intros H. rewrite <- (cos_acos c Hc), H. apply cos_PI2.
  - intros ->. apply acos_0.
Qed.

Lemma unit3_dot_scaled V A :
  0 < v3_dot V V -> v3_dot (unit3 V) A = v3_dot V A / v3_norm V.
Proof.
  intros HV. pose proof (v3_norm_pos V HV) as Hn.
  unfold unit3, v3_div, v3_dot; cbn [c0 c1 c2].
  set (n := v3_norm V) in *. clearbody n. field. lra.
Qed.

Lemma lagrange_identity V A :
  v3_dot (v3_cross V A) (v3_cross V A)
  = v3_dot V V * v3_dot A A - v3_dot V A * v3_dot V A.
Proof. unfold v3_dot, v3_cross; cbn [c0 c1 c2]. ring. Qed.

Lemma v3_dot_self_zero u : v3_dot u u = 0 -> u = V3 0 0 0.
Proof.
  intros H. unfold v3_dot in H.
  apply Vec3_eq; cbn [c0 c1 c2]; nra.
Qed.

Lemma Rabs_one_iff_sq q : Rabs q = 1 <-> q * q = 1.
Proof.
  unfold Rabs. destruct (Rcase_abs q); split; intros H; nra.
Qed.

Lemma abs_cosine_one V A :
  0 < v3_dot V V -> v3_dot A A = 1 ->
  (Rabs (v3_dot (unit3 V) A) = 1 <-> v3_cross V A = V3 0 0 0).
Proof.
  intros HV HA. pose proof (v3_norm_pos V HV) as Hn.
  pose proof (v3_norm_sq V) as Hsq. pose proof (lagrange_identity V A) as L.
  rewrite HA, Rmult_1_r in L.
  rewrite (unit3_dot_scaled V A HV).
  set (n := v3_norm V) in *. set (d := v3_dot V A) in *.
  assert (Hc : (d / n) * (d / n) = d * d / (n * n)) by (field; lra).
  split.
  - intros H. apply v3_dot_self_zero. rewrite L.
    assert (H2 : (d / n) * (d / n) = 1) by (apply Rabs_one_iff_sq; exact H).
    rewrite Hc, Hsq in H2.
    apply (Rmult_eq_compat_r (v3_dot V V)) in H2.
    unfold Rdiv in H2. rewrite Rmult_assoc, Rinv_l in H2 by lra. lra.
  - intros H. rewrite H in L.
    replace (v3_dot (V3 0 0 0) (V3 0 0 0)) with 0 in L
      by (unfold v3_dot; cbn; ring).
    assert (H2 : (d / n) * (d / n) = 1).
    { rewrite Hc, Hsq. replace (d * d) with (v3_dot V V) by lra. field. lra. }
    apply Rabs_one_iff_sq; exact H2.
Qed.

Lemma abs_cosine_zero V A :
  0 < v3_dot V V -> (Rabs (v3_dot (unit3 V) A) = 0 <-> v3_dot V A = 0).
Proof.
  intros HV. pose proof (v3_norm_pos V HV) as Hn.
  rewrite (unit3_dot_scaled V A HV).
  set (n := v3_norm V) in *. set (d := v3_dot V A) in *.
  split.
  - intros H. assert (H0 : d / n = 0).
    { unfold Rabs in H. destruct (Rcase_abs (d / n)); lra. }
    apply (Rmult_eq_compat_r n) in H0. unfold Rdiv in H0.
    rewrite Rmult_assoc, Rinv_l, Rmult_1_r, Rmult_0_l in H0; lra.
  - intros ->. unfold Rdiv. rewrite Rmult_0_l. apply Rabs_R0.
Qed.

Lemma abs_cosine_scale k V A :
  k <> 0 -> 0 < v3_dot V V ->
  Rabs (v3_dot (unit3 (v3_scale k V)) A) = Rabs (v3_dot (unit3 V) A).
Proof.
  intros Hk HV. destruct (Rlt_dec 0 k) as [Hp | Hn].
  - rewrite (unit3_scale_invariant k V Hp HV). reflexivity.
  - assert (Hm : 0 < - k) by lra.
    replace (v3_scale k V) with (v3_scale (-1) (v3_scale (- k) V))
      by (rewrite v3_scale_scale; f_equal; ring).
    rewrite unit3_neg, (unit3_scale_invariant (- k) V Hm HV).
    replace (v3_dot (v3_scale (-1) (unit3 V)) A) with (- v3_dot (unit3 V) A)
      by (unfold v3_dot, v3_scale; cbn; ring).
    apply Rabs_Ropp.
Qed.

Lemma scale_vector_not_zero' k v : k <> 0 -> ~ is_zero v -> ~ is_zero (scale_vector k v).
Proof.
  intros Hk H (A & B & C). apply H. unfold scale_vector in *; cbn in *.
  repeat split.
  - apply Rmult_integral in A. destruct A; [contradiction | assumption].
  - apply Rmult_integral in B. destruct B; [contradiction | assumption].
  - apply Rmult_integral in C. destruct C; [contradiction | assumption].
Qed.

(** Property X14.  Over the reals, the alignment error of a non-zero vector
    is 0 exactly when the vector lies on the target axis, 90 exactly when
    it is perpendicular to it, and it is the same for every non-zero
    multiple of the vector.  (In binary64 a vector within rounding of the
    axis, or of the plane perpendicular to it, also gives 0.0 or 90.0, and
    multiples agree up to rounding.) *)
Theorem alignment_error_extremes_and_scaling (v : Vector3D) (axis : string) :
  ~ is_zero v -> valid_axis axis ->
  exists e,
    _calculate_alignment_error v axis = Ok e /\
    (e = 0 <-> v3_cross (to_vec3 v) (canonical_axis axis) = V3 0 0 0) /\
    (e = 90 <-> v3_dot (to_vec3 v) (canonical_axis axis) = 0) /\
    (forall k, k <> 0 -> _calculate_alignment_error (scale_vector k v) axis = Ok e).
Proof.
  intros Hz Hax. exists (angular_deviation v axis).
  pose proof (to_vec3_dot_pos _ Hz) as HV.
  pose proof (canonical_axis_unit axis) as HA.
  pose proof (unit_dot_range _ _ (unit3_dot _ HV) HA) as Hr.
  assert (Habs : -1 <= Rabs (v3_dot (unit3 (to_vec3 v)) (canonical_axis axis)) <= 1).
  { split; [pose proof (Rabs_pos (v3_dot (unit3 (to_vec3 v)) (canonical_axis axis))); lra | ].
    apply Rabs_le. exact Hr. }
  split; [apply alignment_error_formula; assumption | ].
  unfold angular_deviation. split; [ | split].
  - rewrite degrees_eq_0, (acos_eq_0 _ Habs). apply abs_cosine_one; assumption.
  - rewrite degrees_eq_90, (acos_eq_half_pi _ Habs). apply abs_cosine_zero; assumption.
  - intros k Hk.
    rewrite (alignment_error_formula _ _ (scale_vector_not_zero' k v Hk Hz) Hax).
    unfold angular_deviation. rewrite to_vec3_scale_vector.
    rewrite (abs_cosine_scale k _ _ Hk HV). reflexivity.
Qed.

(** Property X14 at the unit vector of the x axis against the z axis. *)
Lemma alignment_error_extremes_of_unit_x :
  exists e,
    _calculate_alignment_error (mkVector3D 1 0 0) "z" = Ok e /\
    (e = 0 <-> v3_cross (to_vec3 (mkVector3D 1 0 0)) (canonical_axis "z") = V3 0 0 0) /\
    (e = 90 <-> v3_dot (to_vec3 (mkVector3D 1 0 0)) (canonical_axis "z") = 0) /\
    (forall k, k <> 0 ->
               _calculate_alignment_error (scale_vector k (mkVector3D 1 0 0)) "z" = Ok e).
Proof.
  apply (alignment_error_extremes_and_scaling (mkVector3D 1 0 0) "z").
  - not_zero_vec.
  - unfold valid_axis; cbn; tauto.
Defined.

(** ** Normalisation; the CV landmark detector *)

(** Property X15.  Over the reals, [normalize_vector] returns, for a
    non-zero vector, the vector of length one in the same direction: it
    lies at distance 1 from the origin, the input is its multiple by the
    input's length, it is its own normalisation, and every positive
    multiple of the input has the same normalisation.  (In binary64 each
    of these holds up to rounding.) *)
Theorem normalize_vector_unit_direction (v : Vector3D) :
  ~ is_zero v ->
  exists n,
    normalize_vector v = Ok n /\
    calculate_distance origin n = Ok 1 /\
    v = scale_vector (norm v) n /\
    normalize_vector n = Ok n /\
    (forall a, 0 < a -> normalize_vector (scale_vector a v) = Ok n).
Proof.
  intros Hz. pose proof (to_vec3_dot_pos _ Hz) as HV.
  pose proof (unit3_dot _ HV) as Hu.
  exists (of_vec3 (unit3 (to_vec3 v))).
  split; [apply normalize_vector_unit3; exact Hz | ]. split.
  { unfold calculate_distance. cbv zeta. f_equal.
    rewrite <- sqrt_1. f_equal. rewrite <- Hu.
    unfold v3_dot, origin, of_vec3; cbn [x y z]. ring. }
  split.
  { pose proof (unit3_scale _ HV) as Hs. unfold norm.
    apply Vector3D_eq; cbn [scale_vector of_vec3 x y z].
    - apply (f_equal c0) in Hs. cbn [v3_scale c0 to_vec3] in Hs. symmetry. exact Hs.
    - apply (f_equal c1) in Hs. cbn [v3_scale c1 to_vec3] in Hs. symmetry. exact Hs.
    - apply (f_equal c2) in Hs. cbn [v3_scale c2 to_vec3] in Hs. symmetry. exact Hs. }
  split.
  { rewrite (normalize_vector_unit3 _ (unit_vector_not_zero _ Hu)).
    rewrite to_vec3_of_vec3, (unit3_of_unit _ Hu). reflexivity. }
  intros a Ha.
  rewrite (normalize_vector_unit3 _ (scale_vector_not_zero a v Ha Hz)).
  rewrite to_vec3_scale_vector, (unit3_scale_invariant a _ Ha HV). reflexivity.
Qed.

(** Property X15 at the unit vector of the x axis. *)
Lemma normalize_vector_of_unit_x :
  exists n,
    normalize_vector (mkVector3D 1 0 0) = Ok n /\
    calculate_distance origin n = Ok 1 /\
    mkVector3D 1 0 0 = scale_vector (norm (mkVector3D 1 0 0)) n /\
    normalize_vector n = Ok n /\
    (forall a, 0 < a -> normalize_vector (scale_vector a (mkVector3D 1 0 0)) = Ok n).
Proof.
  apply (normalize_vector_unit_direction (mkVector3D 1 0 0)). not_zero_vec.
Defined.

Lemma cv_extract_positions {A : Type} (d : A) :
  CVLandmarkDetector._extract_landmark_positions d
  = Ok (CVLandmarkDetector.mkLandmarkPositions
          (mkVector3D 0 0 5) (mkVector3D 0 0 (-5)) (mkVector3D (-2) 0 2)
          (mkVector3D 2 0 2) (mkVector3D 0 0 3)).
Proof.
  unfold CVLandmarkDetector._extract_landmark_positions.
  rewrite !Vector3D_new_ok; try (unfold in_range; lra). reflexivity.
Qed.

Lemma cv_detect_landmarks_value {A : Type} (d : A) :
  CVLandmarkDetector.detect_landmarks (Some d) = Ok cv_landmarks.
Proof.
  unfold CVLandmarkDetector.detect_landmarks, CVLandmarkDetector._detect_landmarks_cv.
  rewrite (cv_extract_positions d). reflexivity.
Qed.

(** Property X16.  [CVLandmarkDetector] does not look at the model: for
    every model data other than [None] it returns one and the same
    landmark set, whose ears and whose nose and tail are what
    [detect_ears] and [detect_nose_tail] return; on [None] all three
    raise ValueError. *)
Theorem cv_detector_ignores_the_model (A B : Type) (d : A) (d' : B) :
  CVLandmarkDetector.detect_landmarks (Some d) = Ok cv_landmarks /\
  CVLandmarkDetector.detect_landmarks (Some d') = Ok cv_landmarks /\
  CVLandmarkDetector.detect_ears (Some d)
  = Ok (left_ear cv_landmarks, right_ear cv_landmarks) /\
  CVLandmarkDetector.detect_nose_tail (Some d)
  = Ok (nose cv_landmarks, tail cv_landmarks) /\
  CVLandmarkDetector.detect_landmarks (@None A)
  = Raise (ValueError "model_data cannot be None") /\
  CVLandmarkDetector.detect_ears (@None A)
  = Raise (ValueError "model_data cannot be None") /\
  CVLandmarkDetector.detect_nose_tail (@None A)
  = Raise (ValueError "model_data cannot be None").
Proof.
  split; [apply cv_detect_landmarks_value | ].
  split; [apply cv_detect_landmarks_value | ].
  unfold CVLandmarkDetector.detect_ears, CVLandmarkDetector.detect_nose_tail,
    CVLandmarkDetector._detect_ear_positions,
    CVLandmarkDetector._detect_nose_tail_positions.
  rewrite (cv_extract_positions d). repeat split.
Qed.

Lemma half_turn_axis_down : half_turn_axis (V3 0 0 (-1)) = V3 0 (-1) 0.
Proof.
  unfold half_turn_axis. cbn [c0]. rewrite Rabs_R0, Rltb_true by lra.
  replace (v3_cross (V3 0 0 (-1)) (V3 1 0 0)) with (V3 0 (-1) 0)
    by (unfold v3_cross; cbn; f_equal; ring).
  apply unit3_of_unit. unfold v3_dot; cbn; ring.
Qed.

Lemma degrees_acos_abs_one : degrees (acos (Rabs 1)) = 0.
Proof. rewrite Rabs_R1, acos_1. unfold degrees. ring. Qed.

(** Property X17.  The landmarks of [CVLandmarkDetector] align exactly
    under the default parameters: the alignment matrix exists, and its
    verification reports a nose-tail error and an ear error of 0 degrees
    and a valid alignment. *)
Theorem cv_landmarks_align_exactly (A : Type) (d : A) :
  exists l m r,
    CVLandmarkDetector.detect_landmarks (Some d) = Ok l /\
    calculate_alignment_matrix l default_params = Ok m /\
    verify_alignment l m default_params = Ok r /\
    error_of r "nose_tail_alignment" = Some 0 /\
    error_of r "ear_alignment" = Some 0 /\
    is_valid r = true.
Proof.
  exists cv_landmarks.
  assert (Hs : 0 < scale_factor default_params <= 1e10) by (cbn; lra).
  assert (Hz1 : ~ is_zero (difference (tail cv_landmarks) (nose cv_landmarks)))
    by (unfold difference; cbn; not_zero_vec).
  assert (Hz2 : ~ is_zero (difference (right_ear cv_landmarks) (left_ear cv_landmarks)))
    by (unfold difference; cbn; not_zero_vec).
  assert (Hpts : Forall (fun v => norm v <= 5e9 /\ scale_factor default_params * norm v <= 5e9)
                        (landmark_points cv_landmarks)).
  { assert (Hb : forall v, x v * x v + y v * y v + z v * z v <= 10 * 10 ->
                           norm v <= 5e9 /\ scale_factor default_params * norm v <= 5e9).
    { intros v Hv. assert (Hn : norm v <= 10) by (apply norm_bound; lra).
      cbn [scale_factor default_params]. split; lra. }
    unfold landmark_points; cbn.
    repeat (apply Forall_cons; [apply Hb; cbn; lra | ]). apply Forall_nil. }
  destruct (compute_then_verify_result cv_landmarks default_params Hs
              ltac:(unfold valid_axis; cbn; tauto) ltac:(unfold valid_axis; cbn; tauto)
              Hpts Hz1 Hz2)
    as (r & res & Hm & Hcase & Hres & Hnt & Hear & Hvalid).
  exists (mkTransformationMatrix (mat4_of (m3_scale (scale_factor default_params) r))), res.
  split; [apply cv_detect_landmarks_value | ].
  split; [exact Hm | ]. split; [exact Hres | ].
  assert (Ea : unit3 (to_vec3 (difference (tail cv_landmarks) (nose cv_landmarks)))
               = V3 0 0 (-1)).
  { replace (to_vec3 (difference (tail cv_landmarks) (nose cv_landmarks)))
      with (v3_scale 10 (V3 0 0 (-1)))
      by (unfold to_vec3, difference, v3_scale; cbn; f_equal; ring).
    apply unit3_of_scaled; [lra | unfold v3_dot; cbn; ring]. }
  assert (Ee : unit3 (to_vec3 (difference (right_ear cv_landmarks) (left_ear cv_landmarks)))
               = V3 1 0 0).
  { replace (to_vec3 (difference (right_ear cv_landmarks) (left_ear cv_landmarks)))
      with (v3_scale 4 (V3 1 0 0))
      by (unfold to_vec3, difference, v3_scale; cbn; f_equal; ring).
    apply unit3_of_scaled; [lra | unfold v3_dot; cbn; ring]. }
  rewrite Ea in Hcase, Hnt, Hvalid. rewrite Ee in Hear, Hvalid.
  change (canonical_axis (nose_tail_axis default_params)) with (V3 0 0 1) in Hcase.
  replace (v3_dot (V3 0 0 (-1)) (V3 0 0 1)) with (-1) in Hcase
    by (unfold v3_dot; cbn; ring).
  rewrite np_allclose_m1_1, np_allclose_m1_m1 in Hcase.
  destruct Hcase as [[E _] | [(_ & _ & -> & _) | (_ & E & _)]]; try discriminate.
  rewrite half_turn_axis_down in Hnt, Hear, Hvalid.
  assert (E1 : direction_error (m3_apply (rodrigues 0 2 (V3 0 (-1) 0)) (V3 0 0 (-1)))
                               (nose_tail_axis default_params) = 0).
  { unfold direction_error.
    change (canonical_axis (nose_tail_axis default_params)) with (V3 0 0 1).
    replace (v3_dot (m3_apply (rodrigues 0 2 (V3 0 (-1) 0)) (V3 0 0 (-1))) (V3 0 0 1))
      with 1 by (unfold m3_apply, rodrigues, v3_dot; cbn; ring).
    exact degrees_acos_abs_one. }
  assert (E2 : direction_error (m3_apply (rodrigues 0 2 (V3 0 (-1) 0)) (V3 1 0 0))
                               (ear_alignment_axis default_params) = 0).
  { unfold direction_error.
    change (canonical_axis (ear_alignment_axis default_params)) with (V3 1 0 0).
    replace (v3_dot (m3_apply (rodrigues 0 2 (V3 0 (-1) 0)) (V3 1 0 0)) (V3 1 0 0))
      with (- (1)) by (unfold m3_apply, rodrigues, v3_dot; cbn; ring).
    rewrite Rabs_Ropp. exact degrees_acos_abs_one. }
  rewrite E1 in Hnt, Hvalid. rewrite E2 in Hear, Hvalid.
  split; [exact Hnt | ]. split; [exact Hear | ].
  apply Hvalid. unfold Rmax. destruct (Rle_dec 0 0); cbn; lra.
Qed.

(** ** [np.argmax] and [np.argmin] return the index of an extreme entry *)

Lemma argmax_from_spec l : forall i best bi,
  (bi < i)%nat ->
  let r := argmax_from l i best bi in
  let val := if (r <? i)%nat then best else nth (r - i) l 0 in
  best <= val /\ (forall a, In a l -> a <= val) /\
  (r = bi \/ (i <= r < i + length l)%nat).
Proof.
  induction l as [| a l IH]; intros i best bi Hbi; cbn [argmax_from].
  - cbv zeta. destruct (Nat.ltb_spec bi i); [ | lia].
    split; [lra | ]. split; [intros a [] | left; reflexivity].
  - cbv zeta. destruct (Rltb best a) eqn:Elt.
    + assert (Hlt : best < a).
      { unfold Rltb in Elt. destruct (Rlt_dec best a); [assumption | discriminate]. }
      specialize (IH (S i) a i (Nat.lt_succ_diag_r i)). cbv zeta in IH.
      set (r := argmax_from l (S i) a i) in *.
      destruct IH as (Hb & Hall & Hr).
      destruct Hr as [Hr | Hr].
      * rewrite Hr in *. rewrite Nat.ltb_irrefl, Nat.sub_diag. cbn [nth].
        destruct (Nat.ltb_spec i (S i)); [ | lia].
        split; [lra | ]. split; [ | right; cbn [length]; lia].
        intros b [<- | Hin]; [lra | apply Hall; exact Hin].
      * destruct (Nat.ltb_spec r (S i)); [lia | ].
        destruct (Nat.ltb_spec r i); [lia | ].
        replace (r - i)%nat with (S (r - S i)) by lia. cbn [nth].
        split; [lra | ]. split; [ | right; cbn [length]; lia].
        intros b [<- | Hin]; [lra | apply Hall; exact Hin].
    + assert (Hle : a <= best).
      { unfold Rltb in Elt. destruct (Rlt_dec best a); [discriminate | lra]. }
      specialize (IH (S i) best bi (Nat.lt_lt_succ_r _ _ Hbi)). cbv zeta in IH.
      set (r := argmax_from l (S i) best bi) in *.
      destruct IH as (Hb & Hall & Hr).
      destruct Hr as [Hr | Hr].
      * rewrite Hr in *. destruct (Nat.ltb_spec bi (S i)); [ | lia].
        destruct (Nat.ltb_spec bi i); [ | lia].
        split; [lra | ]. split; [ | left; reflexivity].
        intros b [<- | Hin]; [lra | apply Hall; exact Hin].
      * destruct (Nat.ltb_spec r (S i)); [lia | ].
        destruct (Nat.ltb_spec r i); [lia | ].
        replace (r - i)%nat with (S (r - S i)) by lia. cbn [nth].
        split; [lra | ]. split; [ | right; cbn [length]; lia].
        intros b [<- | Hin]; [lra | apply Hall; exact Hin].
Qed.

Lemma argmin_from_spec l : forall i best bi,
  (bi < i)%nat ->
  let r := argmin_from l i best bi in
  let val := if (r <? i)%nat then best else nth (r - i) l 0 in
  val <= best /\ (forall a, In a l -> val <= a) /\
  (r = bi \/ (i <= r < i + length l)%nat).
Proof.
  induction l as [| a l IH]; intros i best bi Hbi; cbn [argmin_from].
  - cbv zeta. destruct (Nat.ltb_spec bi i); [ | lia].
    split; [lra | ]. split; [intros a [] | left; reflexivity].
  - cbv zeta. destruct (Rltb a best) eqn:Elt.
    + assert (Hlt : a < best).
      { unfold Rltb in Elt. destruct (Rlt_dec a best); [assumption | discriminate]. }
      specialize (IH (S i) a i (Nat.lt_succ_diag_r i)). cbv zeta in IH.
      set (r := argmin_from l (S i) a i) in *.
      destruct IH as (Hb & Hall & Hr).
      destruct Hr as [Hr | Hr].
      * rewrite Hr in *. rewrite Nat.ltb_irrefl, Nat.sub_diag. cbn [nth].
        destruct (Nat.ltb_spec i (S i)); [ | lia].
        split; [lra | ]. split; [ | right; cbn [length]; lia].
        intros b [<- | Hin]; [lra | apply Hall; exact Hin].
      * destruct (Nat.ltb_spec r (S i)); [lia | ].
        destruct (Nat.ltb_spec r i); [lia | ].
        replace (r - i)%nat with (S (r - S i)) by lia. cbn [nth].
        split; [lra | ]. split; [ | right; cbn [length]; lia].
        intros b [<- | Hin]; [lra | apply Hall; exact Hin].
    + assert (Hle : best <= a).
      { unfold Rltb in Elt. destruct (Rlt_dec a best); [discriminate | lra]. }
      specialize (IH (S i) best bi (Nat.lt_lt_succ_r _ _ Hbi)). cbv zeta in IH.
      set (r := argmin_from l (S i) best bi) in *.
      destruct IH as (Hb & Hall & Hr).
      destruct Hr as [Hr | Hr].
      * rewrite Hr in *. destruct (Nat.ltb_spec bi (S i)); [ | lia].
        destruct (Nat.ltb_spec bi i); [ | lia].
        split; [lra | ]. split; [ | left; reflexivity].
        intros b [<- | Hin]; [lra | apply Hall; exact Hin].
      * destruct (Nat.ltb_spec r (S i)); [lia | ].
        destruct (Nat.ltb_spec r i); [lia | ].
        replace (r - i)%nat with (S (r - S i)) by lia. cbn [nth].
        split; [lra | ]. split; [ | right; cbn [length]; lia].
        intros b [<- | Hin]; [lra | apply Hall; exact Hin].
Qed.

Lemma np_argmax_spec l i :
  np_argmax l = Ok i ->
  (i < length l)%nat /\ forall a, In a l -> a <= nth i l 0.
Proof.
  destruct l as [| a l]; [discriminate | ]. cbn [np_argmax]. intros H. injection H as <-.
  pose proof (argmax_from_spec l 1 a 0 Nat.lt_0_1) as S. cbv zeta in S.
  set (r := argmax_from l 1 a 0) in *. destruct S as (Hb & Hall & Hr).
  assert (Hv : (if (r <? 1)%nat then a else nth (r - 1) l 0) = nth r (a :: l) 0).
  { destruct (Nat.ltb_spec r 1).
    - replace r with 0%nat by lia. reflexivity.
    - replace r with (S (r - 1)) at 2 by lia. reflexivity. }
  rewrite Hv in *. split; [cbn [length]; lia | ].
  intros b [<- | Hin]; [exact Hb | apply Hall; exact Hin].
Qed.

Lemma np_argmin_spec l i :
  np_argmin l = Ok i ->
  (i < length l)%nat /\ forall a, In a l -> nth i l 0 <= a.
Proof.
  destruct l as [| a l]; [discriminate | ]. cbn [np_argmin]. intros H. injection H as <-.
  pose proof (argmin_from_spec l 1 a 0 Nat.lt_0_1) as S. cbv zeta in S.
  set (r := argmin_from l 1 a 0) in *. destruct S as (Hb & Hall & Hr).
  assert (Hv : (if (r <? 1)%nat then a else nth (r - 1) l 0) = nth r (a :: l) 0).
  { destruct (Nat.ltb_spec r 1).
    - replace r with 0%nat by lia. reflexivity.
    - replace r with (S (r - 1)) at 2 by lia. reflexivity. }
  rewrite Hv in *. split; [cbn [length]; lia | ].
  intros b [<- | Hin]; [exact Hb | apply Hall; exact Hin].
Qed.

Lemma getitem_inv {A : Type} (l : list A) i a :
  getitem l i = Ok a -> nth_error l i = Some a /\ In a l.
Proof.
  unfold getitem. destruct (nth_error l i) as [b | ] eqn:E; [ | discriminate].
  intros H. injection H as <-. split; [reflexivity | ].
  apply nth_error_In with i. exact E.
Qed.

Lemma nth_map_of_nth_error {A : Type} (f : A -> R) (l : list A) i a :
  nth_error l i = Some a -> nth i (map f l) 0 = f a.
Proof.
  revert i. induction l as [| b l IH]; intros [| i] H; cbn in *; try discriminate.
  - injection H as <-. reflexivity.
  - apply IH. exact H.
Qed.

Lemma mask_select_in {A : Type} (mask : list bool) (l : list A) a :
  In a (mask_select mask l) -> In a l.
Proof.
  unfold mask_select. intros H. apply in_map_iff in H.
  destruct H as ((b & a') & <- & Hin). apply filter_In in Hin. destruct Hin as [Hin _].
  apply in_combine_r in Hin. exact Hin.
Qed.

(** ** The density detector: where the landmarks lie *)

Ltac bind_inv H :=
  match type of H with
  | bind ?c _ = Ok _ =>
      let E := fresh "E" in
      destruct c eqn:E; [cbn [bind] in H | discriminate H]
  end.

Lemma fallback_to_extremes_inv self vs projections st :
  vertices self = Some vs ->
  Density._fallback_to_extremes self projections = Ok st ->
  exists nose tail_tip,
    extremes_estimate vs projections nose tail_tip /\
    st = with_landmarks self nose tail_tip (seventy_percent nose tail_tip).
Proof.
  intros Hvs H. unfold Density._fallback_to_extremes in H.
  bind_inv H. bind_inv H. rewrite Hvs in H. bind_inv H.
  cbn [vertices set_landmark] in H. bind_inv H.
  injection H as <-.
  apply getitem_inv in E1, E2. destruct E1 as [N1 _], E2 as [N2 _].
  eexists. eexists. split; [ | reflexivity].
  eexists. eexists. repeat split; eassumption.
Qed.

Lemma extremes_estimate_bounds vs (f : Vec3 -> R) nose tail_tip :
  extremes_estimate vs (map f vs) nose tail_tip ->
  In nose vs /\ In tail_tip vs /\ forall v, In v vs -> f tail_tip <= f v <= f nose.
Proof.
  intros (imax & imin & Emax & Emin & Nmax & Nmin).
  apply np_argmax_spec in Emax. apply np_argmin_spec in Emin.
  destruct Emax as [_ Hmax], Emin as [_ Hmin].
  rewrite (nth_map_of_nth_error f vs imax nose Nmax) in Hmax.
  rewrite (nth_map_of_nth_error f vs imin tail_tip Nmin) in Hmin.
  split; [apply nth_error_In with imax; exact Nmax | ].
  split; [apply nth_error_In with imin; exact Nmin | ].
  intros v Hv. split; [apply Hmin | apply Hmax]; apply in_map; exact Hv.
Qed.

Lemma extremes_estimate_in vs projections nose tail_tip :
  extremes_estimate vs projections nose tail_tip -> In nose vs /\ In tail_tip vs.
Proof.
  intros (imax & imin & _ & _ & Nmax & Nmin).
  split; [apply nth_error_In with imax | apply nth_error_In with imin]; assumption.
Qed.

Lemma region_extreme_in vs projections center tol take_max v :
  Density.region_extreme vs projections center tol take_max = Ok v -> In v vs.
Proof.
  unfold Density.region_extreme. intros H.
  destruct (0 <? count_true _)%nat; bind_inv H; apply getitem_inv in H; destruct H as [_ H].
  - apply mask_select_in in H. exact H.
  - exact H.
Qed.

Lemma density_sweep_inv self vs st :
  vertices self = Some vs ->
  Density._detect_nose_and_tail_by_density self = Ok st ->
  exists nose tail_tip att,
    st = with_landmarks self nose tail_tip att /\ In nose vs /\ In tail_tip vs /\
    (In att vs \/ att = seventy_percent nose tail_tip).
Proof.
  intros Hvs H. unfold Density._detect_nose_and_tail_by_density in H.
  rewrite Hvs in H.
  destruct (principal_axes self) as [axes | ]; [ | discriminate].
  destruct (centroid self) as [c | ]; [ | discriminate].
  assert (Hfb : forall projections,
             Density._fallback_to_extremes self projections = Ok st ->
             exists nose tail_tip att,
               st = with_landmarks self nose tail_tip att /\ In nose vs /\ In tail_tip vs /\
               (In att vs \/ att = seventy_percent nose tail_tip)).
  { intros projections Hf.
    destruct (fallback_to_extremes_inv self vs projections st Hvs Hf) as (n & t & He & ->).
    destruct (extremes_estimate_in _ _ _ _ He) as [Hn Ht].
    exists n, t, (seventy_percent n t). repeat split; try assumption. right; reflexivity. }
  bind_inv H. bind_inv H.
  match type of H with (if ?b then _ else _) = _ => destruct b end; [eapply Hfb; exact H | ].
  bind_inv H. bind_inv H. bind_inv H.
  match type of H with (if ?b then _ else _) = _ => destruct b end; [ | eapply Hfb; exact H].
  match type of H with context [if Rltb ?a ?b then _ else _] => destruct (Rltb a b) end;
    bind_inv H; bind_inv H; bind_inv H; bind_inv H; injection H as <-;
    match goal with
    | Hn : Density.region_extreme _ _ _ _ _ = Ok ?n,
      Ht : Density.region_extreme _ _ _ _ _ = Ok ?t,
      Ha : getitem vs _ = Ok ?a |- _ =>
        first [ constr_eq n t; fail 1 | idtac ];
        exists n, t, a;
        apply region_extreme_in in Hn; apply region_extreme_in in Ht;
        apply getitem_inv in Ha; destruct Ha as [_ Ha];
        repeat split; try assumption; try (left; assumption)
    end.
Qed.

Lemma with_landmarks_fresh self a b c :
  landmarks self = [] -> landmarks (with_landmarks self a b c) = landmark_dict a b c.
Proof.
  intros H. unfold with_landmarks, set_landmark; cbn [landmarks]. rewrite H. reflexivity.
Qed.

Lemma density_detect_inv (eigh : Mat3 -> result (Vec3 * Mat3)) self vs fs d st :
  Density.detect_landmarks eigh self vs fs = Ok (d, st) ->
  exists axes nose tail_tip att,
    st = with_landmarks (mkDetector (Some vs) fs (Some (mean_axis0 vs)) (Some axes) [])
                        nose tail_tip att /\
    d = Density._format_results st /\
    In nose vs /\ In tail_tip vs /\ (In att vs \/ att = seventy_percent nose tail_tip).
Proof.
  unfold Density.detect_landmarks. intros H. bind_inv H. bind_inv H.
  injection H as <- <-.
  unfold Density._analyze_mesh_geometry in E. cbn [vertices] in E.
  bind_inv E. injection E as <-. cbn [vertices faces landmarks] in E0.
  match type of E0 with
  | Density._detect_nose_and_tail_by_density (mkDetector _ _ _ (Some ?ax) _) = _ =>
      set (axes := ax) in *
  end.
  destruct (density_sweep_inv
              (mkDetector (Some vs) fs (Some (mean_axis0 vs)) (Some axes) []) vs _ eq_refl E0)
    as (n & t & a & -> & Hn & Ht & Ha).
  exists axes, n, t, a. repeat split; assumption.
Qed.

(** Property X19.  Whenever the density detector returns, the nose and the
    tail tip it reports are vertices of the input cloud, the tail
    attachment is a vertex too or the point at 70% of the way from the nose
    to the tail tip, and the metadata reports the number of input vertices
    and their mean as the centroid. *)
Theorem density_landmarks_are_vertices
        (eigh : Mat3 -> result (Vec3 * Mat3)) (self : detector) (vs : list Vec3)
        (fs : option (list (list nat))) (d : detection) (st : detector) :
  Density.detect_landmarks eigh self vs fs = Ok (d, st) ->
  exists nose tail_tip att,
    det_landmarks d = landmark_dict nose tail_tip att /\
    In nose vs /\ In tail_tip vs /\
    (In att vs \/ att = seventy_percent nose tail_tip) /\
    dict_get (det_metadata d) "vertex_count" = Some (PyInt (length vs)) /\
    dict_get (det_metadata d) "centroid" = Some (PyFloats (v3_tolist (mean_axis0 vs))).
Proof.
  intros H.
  destruct (density_detect_inv eigh self vs fs d st H)
    as (axes & n & t & a & -> & -> & Hn & Ht & Ha).
  exists n, t, a. repeat split; try assumption.
Qed.

(** Property X19 at [two_points]. *)
Lemma density_landmarks_of_two_points :
  exists d st,
    Density.detect_landmarks two_points_eigh detector_init two_points None = Ok (d, st) /\
    exists nose tail_tip att,
      det_landmarks d = landmark_dict nose tail_tip att /\
      In nose two_points /\ In tail_tip two_points /\
      (In att two_points \/ att = seventy_percent nose tail_tip) /\
      dict_get (det_metadata d) "vertex_count" = Some (PyInt (length two_points)) /\
      dict_get (det_metadata d) "centroid"
      = Some (PyFloats (v3_tolist (mean_axis0 two_points))).
Proof.
  destruct (detect_landmarks_run two_points_eigh detector_init two_points None
              (V3 0 0 2, axes_zyx) ltac:(discriminate) (eigh_known_hit _ _ _))
    as (axes & n & t & a & H).
  eexists. eexists. split; [exact H | ].
  exact (density_landmarks_are_vertices two_points_eigh detector_init two_points None _ _ H).
Defined.

(** Property X20.  The fallback to the extremes picks extreme vertices: the
    nose is a vertex of greatest and the tail tip a vertex of least
    projection on the axis, so the projection of every vertex lies between
    theirs, and the tail attachment is the point at 70% of the way from the
    nose to the tail tip. *)
Theorem fallback_extremes_bound_the_cloud
        (self : detector) (vs : list Vec3) (c axis : Vec3) (st : detector) :
  vertices self = Some vs ->
  Density._fallback_to_extremes self (density_projections vs c axis) = Ok st ->
  exists nose tail_tip,
    st = with_landmarks self nose tail_tip (seventy_percent nose tail_tip) /\
    In nose vs /\ In tail_tip vs /\
    forall v, In v vs ->
              v3_dot (v3_sub tail_tip c) axis <= v3_dot (v3_sub v c) axis
              <= v3_dot (v3_sub nose c) axis.
Proof.
  intros Hvs H.
  destruct (fallback_to_extremes_inv self vs _ st Hvs H) as (n & t & He & ->).
  unfold density_projections in He.
  destruct (extremes_estimate_bounds vs (fun v => v3_dot (v3_sub v c) axis) n t He)
    as (Hn & Ht & Hb).
  exists n, t. repeat split; try assumption; apply Hb; assumption.
Qed.

(** Property X20 at the analysed [two_points]. *)
Lemma fallback_extremes_of_two_points :
  exists st,
    Density._fallback_to_extremes two_points_analysed
      (density_projections two_points (V3 1 0 0) (row0 m3_identity)) = Ok st /\
    exists nose tail_tip,
      st = with_landmarks two_points_analysed nose tail_tip (seventy_percent nose tail_tip) /\
      In nose two_points /\ In tail_tip two_points /\
      forall v, In v two_points ->
                v3_dot (v3_sub tail_tip (V3 1 0 0)) (row0 m3_identity)
                <= v3_dot (v3_sub v (V3 1 0 0)) (row0 m3_identity)
                <= v3_dot (v3_sub nose (V3 1 0 0)) (row0 m3_identity).
Proof.
  destruct (fallback_to_extremes_ok two_points_analysed two_points
              (density_projections two_points (V3 1 0 0) (row0 m3_identity))
              eq_refl ltac:(discriminate) eq_refl) as (n & t & _ & H).
  eexists. split; [exact H | ].
  exact (fallback_extremes_bound_the_cloud two_points_analysed two_points (V3 1 0 0)
           (row0 m3_identity) _ eq_refl H).
Defined.

(** ** The density detector under translation *)

Lemma v3_sub_translate t v c : v3_sub (v3_add t v) (v3_add t c) = v3_sub v c.
Proof. apply Vec3_eq; cbn; ring. Qed.

Lemma np_mean_shift (k : R) (f : Vec3 -> R) (vs : list Vec3) :
  vs <> [] -> np_mean (map (fun v => k + f v) vs) = k + np_mean (map f vs).
Proof.
  intros Hne. unfold np_mean. rewrite !length_map.
  rewrite (np_sum_map_plus (fun _ => k) f vs), np_sum_map_const.
  assert (Hn : INR (length vs) <> 0).
  { apply not_0_INR. destruct vs; [contradiction | discriminate]. }
  field. exact Hn.
Qed.

Lemma mean_axis0_translate t vs :
  vs <> [] -> mean_axis0 (translate t vs) = v3_add t (mean_axis0 vs).
Proof.
  intros Hne. unfold mean_axis0, translate. rewrite !map_map.
  cbn [v3_add c0 c1 c2].
  rewrite (np_mean_shift (c0 t) c0 vs Hne), (np_mean_shift (c1 t) c1 vs Hne),
    (np_mean_shift (c2 t) c2 vs Hne).
  reflexivity.
Qed.

Lemma centered_about_translate t c vs :
  map (fun v => v3_sub v (v3_add t c)) (translate t vs) = map (fun v => v3_sub v c) vs.
Proof.
  unfold translate. rewrite map_map. apply map_ext. intros v. apply v3_sub_translate.
Qed.

Lemma projections_translate t c axis vs :
  map (fun v => v3_dot (v3_sub v (v3_add t c)) axis) (translate t vs)
  = map (fun v => v3_dot (v3_sub v c) axis) vs.
Proof.
  unfold translate. rewrite map_map. apply map_ext. intros v.
  rewrite v3_sub_translate. reflexivity.
Qed.

Lemma mask_select_map {A B : Type} (f : A -> B) (mask : list bool) (l : list A) :
  mask_select mask (map f l) = map f (mask_select mask l).
Proof.
  unfold mask_select. revert mask. induction l as [| a l IH]; intros [| b mask]; cbn;
    try reflexivity.
  destruct b; cbn; rewrite IH; reflexivity.
Qed.

Lemma distance_from_axis_translate t center axis v :
  distance_from_axis (v3_add t center) axis (v3_add t v) = distance_from_axis center axis v.
Proof. unfold distance_from_axis. rewrite v3_sub_translate. reflexivity. Qed.

Lemma distances_from_axis_translate t center axis l :
  map (distance_from_axis (v3_add t center) axis) (map (v3_add t) l)
  = map (distance_from_axis center axis) l.
Proof.
  rewrite map_map. apply map_ext. intros v. apply distance_from_axis_translate.
Qed.

Lemma slice_center_translate t c pos axis :
  v3_add (v3_add t c) (v3_scale pos axis) = v3_add t (v3_add c (v3_scale pos axis)).
Proof. apply Vec3_eq; cbn; ring. Qed.

Lemma analyze_slice_translate t vs projections c axis th pos :
  Density.analyze_slice (translate t vs) projections (v3_add t c) axis th pos
  = Density.analyze_slice vs projections c axis th pos.
Proof.
  unfold Density.analyze_slice, translate. cbv zeta.
  rewrite mask_select_map, !length_map, slice_center_translate.
  rewrite distances_from_axis_translate. reflexivity.
Qed.

Lemma analyze_slices_translate t vs projections c axis mn mx :
  Density.analyze_slices (translate t vs) projections (v3_add t c) axis mn mx
  = Density.analyze_slices vs projections c axis mn mx.
Proof.
  unfold Density.analyze_slices. cbv zeta. apply flat_map_ext. intros pos.
  rewrite analyze_slice_translate. reflexivity.
Qed.

Lemma getitem_map {A B : Type} (f : A -> B) (l : list A) i :
  getitem (map f l) i = match getitem l i with Ok a => Ok (f a) | Raise e => Raise e end.
Proof.
  unfold getitem. rewrite nth_error_map. destruct (nth_error l i); reflexivity.
Qed.

Lemma region_extreme_translate t vs projections center tol take_max :
  Density.region_extreme (translate t vs) projections center tol take_max
  = shift_result t (Density.region_extreme vs projections center tol take_max).
Proof.
  unfold Density.region_extreme, translate. cbv zeta. rewrite mask_select_map.
  destruct (0 <? count_true _)%nat.
  - destruct (if take_max then np_argmax _ else np_argmin _) as [i | e]; cbn [bind];
      [ | reflexivity].
    rewrite getitem_map. unfold shift_result. destruct (getitem _ i); reflexivity.
  - destruct (if take_max then np_argmax _ else np_argmin _) as [i | e]; cbn [bind];
      [ | reflexivity].
    rewrite getitem_map. unfold shift_result. destruct (getitem _ i); reflexivity.
Qed.

Lemma distances_to_attachment_translate t c pos axis vs :
  map (fun v => v3_norm (v3_sub v (v3_add (v3_add t c) (v3_scale pos axis)))) (translate t vs)
  = map (fun v => v3_norm (v3_sub v (v3_add c (v3_scale pos axis)))) vs.
Proof.
  unfold translate. rewrite map_map. apply map_ext. intros v.
  rewrite slice_center_translate, v3_sub_translate. reflexivity.
Qed.

Lemma seventy_percent_translate t n tl :
  seventy_percent (v3_add t n) (v3_add t tl) = v3_add t (seventy_percent n tl).
Proof. apply Vec3_eq; cbn; ring. Qed.

Lemma fallback_translate t self self' vs projections :
  vertices self = Some vs -> vertices self' = Some (translate t vs) ->
  moved_by t self self' (Density._fallback_to_extremes self projections)
           (Density._fallback_to_extremes self' projections).
Proof.
  intros Hvs Hvs'. unfold Density._fallback_to_extremes.
  destruct (np_argmin projections) as [imin | e]; cbn [bind]; [ | reflexivity].
  destruct (np_argmax projections) as [imax | e]; cbn [bind]; [ | reflexivity].
  rewrite Hvs, Hvs'. unfold translate at 1. rewrite getitem_map.
  destruct (getitem vs imax) as [n | e]; cbn [bind]; [ | reflexivity].
  cbn [vertices set_landmark]. unfold translate. rewrite getitem_map.
  destruct (getitem vs imin) as [tl | e]; cbn [bind]; [ | reflexivity].
  unfold moved_by. exists n, tl, (seventy_percent n tl). split; [reflexivity | ].
  rewrite <- seventy_percent_translate. reflexivity.
Qed.

Lemma density_sweep_translate t self self' vs c axes :
  vertices self = Some vs -> centroid self = Some c -> principal_axes self = Some axes ->
  vertices self' = Some (translate t vs) -> centroid self' = Some (v3_add t c) ->
  principal_axes self' = Some axes ->
  moved_by t self self' (Density._detect_nose_and_tail_by_density self)
           (Density._detect_nose_and_tail_by_density self').
Proof.
  intros Hvs Hc Hax Hvs' Hc' Hax'.
  pose proof (fun projections => fallback_translate t self self' vs projections Hvs Hvs') as Hfb.
  unfold Density._detect_nose_and_tail_by_density.
  rewrite Hvs, Hc, Hax, Hvs', Hc', Hax'.
  rewrite projections_translate.
  set (projections := map (fun v => v3_dot (v3_sub v c) (row0 axes)) vs) in *.
  destruct (np_min projections) as [mn | e]; cbn [bind]; [ | reflexivity].
  destruct (np_max projections) as [mx | e]; cbn [bind]; [ | reflexivity].
  rewrite analyze_slices_translate.
  set (slices := Density.analyze_slices vs projections c (row0 axes) mn mx) in *.
  destruct (length (map (fun s => fst (fst s)) slices) <? 10)%nat; [apply Hfb | ].
  destruct (np_convolve_same _ _) as [smoothed | e]; cbn [bind]; [ | reflexivity].
  destruct (np_argmax (np_diff smoothed)) as [gi | e]; cbn [bind]; [ | reflexivity].
  destruct (getitem (map (fun s => snd (fst s)) slices) gi) as [pos | e]; cbn [bind];
    [ | reflexivity].
  match goal with |- context [if ?b then _ else Density._fallback_to_extremes _ _] =>
    destruct b end; [ | apply Hfb].
  rewrite distances_to_attachment_translate.
  match goal with |- context [if Rltb ?a ?b then _ else _] => destruct (Rltb a b) end;
    (rewrite !region_extreme_translate;
     repeat match goal with
       | |- context [shift_result t (Density.region_extreme vs projections ?ctr ?tl ?tm)] =>
           destruct (Density.region_extreme vs projections ctr tl tm) as [? | ?];
           cbn [shift_result bind]; [ | reflexivity]
       end;
     (match goal with
      | |- context [np_argmin ?d] => destruct (np_argmin d) as [ai | ?]; cbn [bind];
                                     [ | reflexivity]
      end);
     unfold translate; rewrite getitem_map;
     destruct (getitem vs ai) as [att | ?]; cbn [bind]; [ | reflexivity];
     unfold moved_by; eexists; eexists; eexists; split; reflexivity).
Qed.

Lemma analysis_translate (eigh : Mat3 -> result (Vec3 * Mat3)) self self' vs fs t :
  vs <> [] ->
  self = mkDetector (Some vs) fs (centroid self) (principal_axes self) [] ->
  self' = mkDetector (Some (translate t vs)) fs (centroid self') (principal_axes self') [] ->
  match Density._analyze_mesh_geometry eigh self,
        Density._analyze_mesh_geometry eigh self' with
  | Ok st, Ok st' =>
      exists axes,
        st = mkDetector (Some vs) fs (Some (mean_axis0 vs)) (Some axes) [] /\
        st' = mkDetector (Some (translate t vs)) fs (Some (v3_add t (mean_axis0 vs)))
                         (Some axes) []
  | Raise e, Raise e' => e = e'
  | _, _ => False
  end.
Proof.
  intros Hne -> ->. unfold Density._analyze_mesh_geometry. cbn [vertices faces landmarks].
  rewrite (mean_axis0_translate t vs Hne), centered_about_translate.
  destruct (eigh _) as [ev | e]; cbn [bind]; [ | reflexivity].
  eexists. split; reflexivity.
Qed.

(** Property X21.  The density detector commutes with translations of the
    cloud: moving every vertex by [t] moves the centroid and the three
    landmarks by [t] and leaves the principal axes as they are; and the
    moved cloud fails exactly as the original one does. *)
Theorem density_detection_commutes_with_translation
        (eigh : Mat3 -> result (Vec3 * Mat3)) (self : detector) (vs : list Vec3)
        (fs : option (list (list nat))) (t : Vec3) :
  vs <> [] ->
  (forall d st,
      Density.detect_landmarks eigh self vs fs = Ok (d, st) ->
      exists nose tail_tip att d' st',
        Density.detect_landmarks eigh self (translate t vs) fs = Ok (d', st') /\
        det_landmarks d = landmark_dict nose tail_tip att /\
        det_landmarks d'
        = landmark_dict (v3_add t nose) (v3_add t tail_tip) (v3_add t att) /\
        principal_axes st' = principal_axes st /\
        centroid st = Some (mean_axis0 vs) /\
        centroid st' = Some (v3_add t (mean_axis0 vs))) /\
  (forall e,
      Density.detect_landmarks eigh self vs fs = Raise e ->
      Density.detect_landmarks eigh self (translate t vs) fs = Raise e).
Proof.
  intros Hne.
  pose proof (analysis_translate eigh
                (mkDetector (Some vs) fs (centroid self) (principal_axes self) [])
                (mkDetector (Some (translate t vs)) fs (centroid self) (principal_axes self) [])
                vs fs t Hne eq_refl eq_refl) as Ha.
  unfold Density.detect_landmarks.
  destruct (Density._analyze_mesh_geometry eigh
              (mkDetector (Some vs) fs (centroid self) (principal_axes self) []))
    as [s1 | e1];
    destruct (Density._analyze_mesh_geometry eigh
                (mkDetector (Some (translate t vs)) fs (centroid self) (principal_axes self) []))
    as [s1' | e1']; try contradiction; cbn [bind].
  - destruct Ha as (axes & -> & ->).
    pose proof (density_sweep_translate t
                  (mkDetector (Some vs) fs (Some (mean_axis0 vs)) (Some axes) [])
                  (mkDetector (Some (translate t vs)) fs (Some (v3_add t (mean_axis0 vs)))
                              (Some axes) [])
                  vs (mean_axis0 vs) axes eq_refl eq_refl eq_refl eq_refl eq_refl eq_refl)
      as Hm.
    unfold moved_by in Hm.
    destruct (Density._detect_nose_and_tail_by_density
                (mkDetector (Some vs) fs (Some (mean_axis0 vs)) (Some axes) []))
      as [s2 | e2];
      destruct (Density._detect_nose_and_tail_by_density
                  (mkDetector (Some (translate t vs)) fs (Some (v3_add t (mean_axis0 vs)))
                              (Some axes) []))
      as [s2' | e2']; try contradiction; cbn [bind].
    + destruct Hm as (n & tl & a & -> & ->). split; [ | discriminate].
      intros d st H. injection H as <- <-.
      exists n, tl, a. eexists. eexists. split; [reflexivity | ].
      repeat split.
    + subst e2'. split; [discriminate | ]. intros e H. exact H.
  - subst e1'. split; [discriminate | ]. intros e H. exact H.
Qed.

(** Property X21 at [two_points], moved by (1, 2, 3). *)
Lemma density_detection_of_moved_two_points :
  (forall d st,
      Density.detect_landmarks two_points_eigh detector_init two_points None = Ok (d, st) ->
      exists nose tail_tip att d' st',
        Density.detect_landmarks two_points_eigh detector_init
          (translate (V3 1 2 3) two_points) None = Ok (d', st') /\
        det_landmarks d = landmark_dict nose tail_tip att /\
        det_landmarks d'
        = landmark_dict (v3_add (V3 1 2 3) nose) (v3_add (V3 1 2 3) tail_tip)
                        (v3_add (V3 1 2 3) att) /\
        principal_axes st' = principal_axes st /\
        centroid st = Some (mean_axis0 two_points) /\
        centroid st' = Some (v3_add (V3 1 2 3) (mean_axis0 two_points))) /\
  (forall e,
      Density.detect_landmarks two_points_eigh detector_init two_points None = Raise e ->
      Density.detect_landmarks two_points_eigh detector_init
        (translate (V3 1 2 3) two_points) None = Raise e).
Proof.
  apply (density_detection_commutes_with_translation two_points_eigh detector_init
           two_points None (V3 1 2 3)).
  discriminate.
Defined.

(** ** The geometric detector: nose and tail *)

Lemma v3_eqb_true a b : Geometric.v3_eqb a b = true -> a = b.
Proof.
  unfold Geometric.v3_eqb, Reqb. intros H.
  destruct (Req_dec_T (c0 a) (c0 b)); [ | discriminate].
  destruct (Req_dec_T (c1 a) (c1 b)); [ | discriminate].
  destruct (Req_dec_T (c2 a) (c2 b)); [ | discriminate].
  apply Vec3_eq; assumption.
Qed.

Lemma geometric_sweep_inv self vs c axes st :
  vertices self = Some vs -> centroid self = Some c -> principal_axes self = Some axes ->
  Geometric._detect_nose_and_tail self = Ok st ->
  exists nose tail_tip low high hi lo,
    st = with_landmarks self nose tail_tip (seventy_percent nose tail_tip) /\
    extremes_estimate vs (density_projections vs c (row0 axes)) high low /\
    ((nose = low /\ tail_tip = high) \/ (nose = high /\ tail_tip = low)) /\
    max_axis0 vs = Ok hi /\ min_axis0 vs = Ok lo /\
    (nearby_count vs (search_radius hi lo) nose
     <= nearby_count vs (search_radius hi lo) tail_tip)%nat.
Proof.
  intros Hvs Hc Hax H. unfold Geometric._detect_nose_and_tail in H.
  rewrite Hax, Hvs, Hc in H.
  fold (density_projections vs c (row0 axes)) in H.
  bind_inv H. rename a into imin. bind_inv H. rename a into imax.
  bind_inv H. rename a into e1. bind_inv H. rename a into e2.
  bind_inv H. rename a into hi. bind_inv H. rename a into lo.
  cbv zeta in H.
  fold (search_radius hi lo) in H.
  fold (nearby_count vs (search_radius hi lo) e1) in H.
  fold (nearby_count vs (search_radius hi lo) e2) in H.
  set (n1 := nearby_count vs (search_radius hi lo) e1) in *.
  set (n2 := nearby_count vs (search_radius hi lo) e2) in *.
  apply getitem_inv in E1, E2. destruct E1 as [N1 _], E2 as [N2 _].
  assert (Hext : extremes_estimate vs (density_projections vs c (row0 axes)) e2 e1).
  { exists imax, imin. repeat split; assumption. }
  match type of H with context [Rltb ?a ?b] => destruct (Rltb a b) end.
  - (* extreme1 is the first choice for the nose *)
    assert (Eq : Geometric.v3_eqb e1 e1 = true).
    { unfold Geometric.v3_eqb. rewrite !Reqb_true; reflexivity. }
    rewrite Eq in H.
    destruct (Nat.ltb_spec n2 n1) as [Hlt | Hge]; injection H as <-.
    + exists e2, e1, e1, e2, hi, lo. repeat split; try assumption;
        [right; split; reflexivity | fold n1 n2; lia].
    + exists e1, e2, e1, e2, hi, lo. repeat split; try assumption.
      left; split; reflexivity.
  - (* extreme2 is the first choice for the nose *)
    destruct (Geometric.v3_eqb e2 e1) eqn:Eq.
    + apply v3_eqb_true in Eq. subst e2.
      destruct (Nat.ltb_spec n2 n1) as [Hlt | Hge]; injection H as <-;
        exists e1, e1, e1, e1, hi, lo; repeat split; try assumption;
        try (left; split; reflexivity); lia.
    + destruct (Nat.ltb_spec n1 n2) as [Hlt | Hge]; injection H as <-.
      * exists e1, e2, e1, e2, hi, lo. repeat split; try assumption;
          [left; split; reflexivity | fold n1 n2; lia].
      * exists e2, e1, e1, e2, hi, lo. repeat split; try assumption.
        right; split; reflexivity.
Qed.

Lemma map_nonempty {A B : Type} (f : A -> B) (l : list A) : l <> [] -> map f l <> [].
Proof. destruct l; [contradiction | discriminate]. Qed.

Lemma max_axis0_ok vs : vs <> [] -> exists hi, max_axis0 vs = Ok hi.
Proof.
  intros Hne. unfold max_axis0.
  destruct (np_max_ok _ (map_nonempty c0 vs Hne)) as (a & ->).
  destruct (np_max_ok _ (map_nonempty c1 vs Hne)) as (b & ->).
  destruct (np_max_ok _ (map_nonempty c2 vs Hne)) as (c & ->).
  eexists; reflexivity.
Qed.

Lemma min_axis0_ok vs : vs <> [] -> exists lo, min_axis0 vs = Ok lo.
Proof.
  intros Hne. unfold min_axis0.
  destruct (np_min_ok _ (map_nonempty c0 vs Hne)) as (a & ->).
  destruct (np_min_ok _ (map_nonempty c1 vs Hne)) as (b & ->).
  destruct (np_min_ok _ (map_nonempty c2 vs Hne)) as (c & ->).
  eexists; reflexivity.
Qed.

Lemma geometric_sweep_ok self vs c axes :
  vertices self = Some vs -> centroid self = Some c -> principal_axes self = Some axes ->
  vs <> [] ->
  exists st, Geometric._detect_nose_and_tail self = Ok st.
Proof.
  intros Hvs Hc Hax Hne. unfold Geometric._detect_nose_and_tail.
  rewrite Hax, Hvs, Hc.
  set (projections := map (fun v => v3_dot (v3_sub v c) (row0 axes)) vs).
  assert (Hlen : length projections = length vs) by (unfold projections; apply length_map).
  assert (Hp : projections <> []) by (apply map_nonempty; exact Hne).
  destruct (np_argmin_ok _ Hp) as (imin & -> & Lmin).
  destruct (np_argmax_ok _ Hp) as (imax & -> & Lmax). cbn [bind].
  rewrite Hlen in Lmin, Lmax.
  destruct (getitem_ok vs imin Lmin) as (e1 & -> & _).
  destruct (getitem_ok vs imax Lmax) as (e2 & -> & _). cbn [bind].
  destruct (max_axis0_ok vs Hne) as (hi & ->).
  destruct (min_axis0_ok vs Hne) as (lo & ->). cbn [bind]. cbv zeta.
  match goal with |- context [Rltb ?a ?b] => destruct (Rltb a b) end;
    match goal with |- context [Geometric.v3_eqb ?a ?b] => destruct (Geometric.v3_eqb a b) end;
    match goal with |- context [Nat.ltb ?a ?b] => destruct (Nat.ltb a b) end;
    eexists; reflexivity.
Qed.

(** Property X22.  In the geometric detector the local density decides:
    the nose and the tail tip are the two vertices of extreme projection on
    the primary axis, and of the two the nose never has more vertices
    within the search radius than the tail tip (the sharpness score only
    decides between extremes of equal density); the tail attachment is the
    point at 70% of the way from the nose to the tail tip. *)
Theorem geometric_nose_is_the_sparser_extreme
        (self : detector) (vs : list Vec3) (c : Vec3) (axes : Mat3) (st : detector) :
  vertices self = Some vs -> centroid self = Some c -> principal_axes self = Some axes ->
  Geometric._detect_nose_and_tail self = Ok st ->
  exists nose tail_tip low high hi lo,
    st = with_landmarks self nose tail_tip (seventy_percent nose tail_tip) /\
    In low vs /\ In high vs /\
    (forall v, In v vs ->
               v3_dot (v3_sub low c) (row0 axes) <= v3_dot (v3_sub v c) (row0 axes)
               <= v3_dot (v3_sub high c) (row0 axes)) /\
    ((nose = low /\ tail_tip = high) \/ (nose = high /\ tail_tip = low)) /\
    max_axis0 vs = Ok hi /\ min_axis0 vs = Ok lo /\
    (nearby_count vs (search_radius hi lo) nose
     <= nearby_count vs (search_radius hi lo) tail_tip)%nat.
Proof.
  intros Hvs Hc Hax H.
  destruct (geometric_sweep_inv self vs c axes st Hvs Hc Hax H)
    as (n & t & low & high & hi & lo & Hst & Hext & Hcase & Hhi & Hlo & Hcount).
  unfold density_projections in Hext.
  destruct (extremes_estimate_bounds vs (fun v => v3_dot (v3_sub v c) (row0 axes))
              high low Hext) as (Hh & Hl & Hb).
  exists n, t, low, high, hi, lo. repeat split; try assumption; apply Hb; assumption.
Qed.

(** Property X22 at the analysed [two_points]. *)
Lemma geometric_nose_of_two_points :
  exists st,
    Geometric._detect_nose_and_tail two_points_analysed = Ok st /\
    exists nose tail_tip low high hi lo,
      st = with_landmarks two_points_analysed nose tail_tip (seventy_percent nose tail_tip) /\
      In low two_points /\ In high two_points /\
      (forall v, In v two_points ->
                 v3_dot (v3_sub low (V3 1 0 0)) (row0 m3_identity)
                 <= v3_dot (v3_sub v (V3 1 0 0)) (row0 m3_identity)
                 <= v3_dot (v3_sub high (V3 1 0 0)) (row0 m3_identity)) /\
      ((nose = low /\ tail_tip = high) \/ (nose = high /\ tail_tip = low)) /\
      max_axis0 two_points = Ok hi /\ min_axis0 two_points = Ok lo /\
      (nearby_count two_points (search_radius hi lo) nose
       <= nearby_count two_points (search_radius hi lo) tail_tip)%nat.
Proof.
  destruct (geometric_sweep_ok two_points_analysed two_points (V3 1 0 0) m3_identity
              eq_refl eq_refl eq_refl ltac:(discriminate)) as (st & H).
  exists st. split; [exact H | ].
  exact (geometric_nose_is_the_sparser_extreme two_points_analysed two_points (V3 1 0 0)
           m3_identity st eq_refl eq_refl eq_refl H).
Defined.

Lemma rows_to_vec3_nonempty a : rows a <> [] -> rows_to_vec3 a <> [].
Proof. unfold rows_to_vec3. apply map_nonempty. Qed.

(** Property X23.  The geometric detector succeeds on every non-empty Nx3
    array on which the PCA fits (sklearn's [PCA(n_components=3)] fits
    arrays of at least three rows only): it returns the landmarks nose,
    tail tip and tail attachment, the first two being rows of the array
    and the third the point at 70% of the way between them, with the
    principal axes of the PCA, the number of rows and the method
    "pure_geometric" in the metadata; and an exception of the PCA is the
    exception of the call. *)
Theorem geometric_detection_succeeds
        (pca_fit : list Vec3 -> result (Mat3 * Vec3)) (self : detector) (a : ndarray2)
        (fs : option (list (list nat))) (pca : Mat3 * Vec3) :
  shape1 a = 3%nat -> rows a <> [] ->
  pca_fit (centered (rows_to_vec3 a)) = Ok pca ->
  (exists d st nose tail_tip,
      Geometric.detect_landmarks pca_fit self a fs = Ok (d, st) /\
      det_landmarks d = landmark_dict nose tail_tip (seventy_percent nose tail_tip) /\
      In nose (rows_to_vec3 a) /\ In tail_tip (rows_to_vec3 a) /\
      principal_axes st = Some (fst pca) /\
      dict_get (det_metadata d) "detection_method" = Some (PyStr "pure_geometric") /\
      dict_get (det_metadata d) "landmarks_detected" = Some (PyStrs landmark_names) /\
      dict_get (det_metadata d) "vertex_count" = Some (PyInt (length (rows a)))) /\
  (forall pca_fit' e,
      pca_fit' (centered (rows_to_vec3 a)) = Raise e ->
      Geometric.detect_landmarks pca_fit' self a fs = Raise e).
Proof.
  intros Hshape Hrows Hpca. split.
  - unfold Geometric.detect_landmarks. rewrite Hshape. cbn [Nat.eqb negb].
    unfold Geometric._analyze_mesh_geometry. cbn [vertices faces landmarks].
    fold (centered (rows_to_vec3 a)). rewrite Hpca. cbn [bind].
    set (s1 := mkDetector (Some (rows_to_vec3 a)) fs (Some (mean_axis0 (rows_to_vec3 a)))
                          (Some (fst pca)) []).
    destruct (geometric_sweep_ok s1 (rows_to_vec3 a) (mean_axis0 (rows_to_vec3 a)) (fst pca)
                eq_refl eq_refl eq_refl (rows_to_vec3_nonempty a Hrows)) as (st & Hst).
    rewrite Hst. cbn [bind].
    destruct (geometric_sweep_inv s1 _ _ _ st eq_refl eq_refl eq_refl Hst)
      as (n & t & low & high & hi & lo & -> & Hext & Hcase & _).
    destruct (extremes_estimate_in _ _ _ _ Hext) as [Hh Hl].
    exists (Geometric._format_results (with_landmarks s1 n t (seventy_percent n t))),
      (with_landmarks s1 n t (seventy_percent n t)), n, t.
    split; [reflexivity | ]. split; [reflexivity | ].
    split; [destruct Hcase as [[-> _] | [-> _]]; assumption | ].
    split; [destruct Hcase as [[_ ->] | [_ ->]]; assumption | ].
    split; [reflexivity | ]. split; [reflexivity | ]. split; [reflexivity | ].
    cbn. unfold rows_to_vec3. rewrite length_map. reflexivity.
  - intros pca_fit' e He. unfold Geometric.detect_landmarks. rewrite Hshape.
    cbn [Nat.eqb negb]. unfold Geometric._analyze_mesh_geometry. cbn [vertices].
    fold (centered (rows_to_vec3 a)). rewrite He. reflexivity.
Qed.

Lemma v3_eqb_refl a : Geometric.v3_eqb a a = true.
Proof. unfold Geometric.v3_eqb. rewrite !Reqb_true; reflexivity. Qed.

Lemma cloud_eqb_refl X : cloud_eqb X X = true.
Proof.
  unfold cloud_eqb. rewrite Nat.eqb_refl. cbn [andb].
  induction X as [ | v X IH]; [reflexivity | ].
  cbn [combine forallb fst snd]. rewrite v3_eqb_refl. exact IH.
Qed.

Lemma pca_known_hit X components ratio :
  pca_known X components ratio X = Ok (components, ratio).
Proof. unfold pca_known. rewrite cloud_eqb_refl. reflexivity. Qed.

(** The cloud [uneven_cloud] is centred, and its covariance is diagonal
    with the variances in descending order: the coordinate axes x, y, z
    are its principal components, with the ratios of [uneven_pca]. *)
Lemma uneven_cloud_cov :
  mean_axis0 uneven_cloud = V3 0 0 0 /\
  np_cov (centered uneven_cloud) = M3 (V3 21 0 0) (V3 0 (21 / 4) 0) (V3 0 0 (7 / 4)) /\
  V3 (21 / (21 + 21 / 4 + 7 / 4)) (21 / 4 / (21 + 21 / 4 + 7 / 4))
     (7 / 4 / (21 + 21 / 4 + 7 / 4))
  = V3 (3 / 4) (3 / 16) (1 / 16).
Proof.
  split; [ | split].
  - unfold mean_axis0, np_mean, np_sum, uneven_cloud.
    cbn [map fold_right length c0 c1 c2 INR]. f_equal; field.
  - unfold np_cov, centered, mean_axis0, np_mean, np_sum, uneven_cloud, v3_sub.
    cbn [map fold_right length c0 c1 c2 INR].
    f_equal; f_equal; field.
  - f_equal; field.
Qed.

Lemma geometric_detection_run
      (pca_fit : list Vec3 -> result (Mat3 * Vec3)) self a fs pca :
  shape1 a = 3%nat -> rows a <> [] ->
  pca_fit (centered (rows_to_vec3 a)) = Ok pca ->
  exists d st, Geometric.detect_landmarks pca_fit self a fs = Ok (d, st).
Proof.
  intros Hshape Hrows Hpca. unfold Geometric.detect_landmarks. rewrite Hshape.
  cbn [Nat.eqb negb]. unfold Geometric._analyze_mesh_geometry. cbn [vertices faces landmarks].
  fold (centered (rows_to_vec3 a)). rewrite Hpca. cbn [bind].
  destruct (geometric_sweep_ok
              (mkDetector (Some (rows_to_vec3 a)) fs (Some (mean_axis0 (rows_to_vec3 a)))
                          (Some (fst pca)) [])
              (rows_to_vec3 a) (mean_axis0 (rows_to_vec3 a)) (fst pca)
              eq_refl eq_refl eq_refl (rows_to_vec3_nonempty a Hrows)) as (st & Hst).
  rewrite Hst. cbn [bind]. eexists. eexists. reflexivity.
Qed.

(** Property X23 at [uneven_rows], with the PCA of that cloud. *)
Lemma geometric_detection_of_uneven_rows :
  (exists d st nose tail_tip,
      Geometric.detect_landmarks uneven_pca detector_init uneven_rows None = Ok (d, st) /\
      det_landmarks d = landmark_dict nose tail_tip (seventy_percent nose tail_tip) /\
      In nose (rows_to_vec3 uneven_rows) /\ In tail_tip (rows_to_vec3 uneven_rows) /\
      principal_axes st = Some (fst (m3_identity, V3 (3 / 4) (3 / 16) (1 / 16))) /\
      dict_get (det_metadata d) "detection_method" = Some (PyStr "pure_geometric") /\
      dict_get (det_metadata d) "landmarks_detected" = Some (PyStrs landmark_names) /\
      dict_get (det_metadata d) "vertex_count" = Some (PyInt (length (rows uneven_rows)))) /\
  (forall pca_fit' e,
      pca_fit' (centered (rows_to_vec3 uneven_rows)) = Raise e ->
      Geometric.detect_landmarks pca_fit' detector_init uneven_rows None = Raise e).
Proof.
  apply (geometric_detection_succeeds uneven_pca detector_init uneven_rows None
                                      (m3_identity, V3 (3 / 4) (3 / 16) (1 / 16))).
  - reflexivity.
  - discriminate.
  - apply pca_known_hit.
Defined.

(** ** A detector that is used again *)

(** Property X18.  A call of [detect_landmarks] that returns owes nothing
    to an earlier run: from any other state of the detector object, the
    same call returns the same result and leaves the same attributes
    behind.  (This is about calls that return; what the object holds after
    a call that raises is not modelled.) *)
Theorem detection_ignores_previous_state
        (eigh : Mat3 -> result (Vec3 * Mat3)) (pca_fit : list Vec3 -> result (Mat3 * Vec3))
        (self self' : detector) (vs : list Vec3) (a : ndarray2)
        (fs : option (list (list nat))) :
  (forall d st, Density.detect_landmarks eigh self vs fs = Ok (d, st) ->
                Density.detect_landmarks eigh self' vs fs = Ok (d, st)) /\
  (forall d st, Geometric.detect_landmarks pca_fit self a fs = Ok (d, st) ->
                Geometric.detect_landmarks pca_fit self' a fs = Ok (d, st)).
Proof.
  split; intros d st H; rewrite <- H.
  - unfold Density.detect_landmarks, Density._analyze_mesh_geometry. cbn [vertices faces landmarks].
    reflexivity.
  - unfold Geometric.detect_landmarks, Geometric._analyze_mesh_geometry.
    cbn [vertices faces landmarks]. reflexivity.
Qed.

(** Property X18 at [two_points] and at [uneven_rows]: a detector that has
    analysed [two_points] before returns what a fresh one returns. *)
Lemma detection_by_a_used_detector :
  (exists d st,
      Density.detect_landmarks two_points_eigh detector_init two_points None = Ok (d, st) /\
      Density.detect_landmarks two_points_eigh two_points_analysed two_points None
      = Ok (d, st)) /\
  (exists d st,
      Geometric.detect_landmarks uneven_pca detector_init uneven_rows None = Ok (d, st) /\
      Geometric.detect_landmarks uneven_pca two_points_analysed uneven_rows None
      = Ok (d, st)).
Proof.
  pose proof (detection_ignores_previous_state two_points_eigh uneven_pca
                detector_init two_points_analysed two_points uneven_rows None) as [HD HG].
  split.
  - destruct (detect_landmarks_run two_points_eigh detector_init two_points None
                (V3 0 0 2, axes_zyx) ltac:(discriminate) (eigh_known_hit _ _ _))
      as (axes & n & t & a & Hrun).
    cbv zeta in Hrun. eexists. eexists. split; [exact Hrun | ]. apply HD. exact Hrun.
  - destruct (geometric_detection_run uneven_pca detector_init uneven_rows None
                (m3_identity, V3 (3 / 4) (3 / 16) (1 / 16))
                eq_refl ltac:(discriminate) (pca_known_hit _ _ _)) as (d & st & Hrun).
    exists d, st. split; [exact Hrun | ]. apply HG. exact Hrun.
Defined.

(** ** The geometric detector: feet and ears *)

(** *** [np.min] and [np.max] return the least and the greatest entry *)

Lemma fold_left_Rmin_spec l : forall a,
  let m := fold_left Rmin l a in
  m <= a /\ (forall b, In b l -> m <= b) /\ In m (a :: l).
Proof.
  induction l as [| b l IH]; intros a; cbn [fold_left].
  - cbv zeta. split; [lra | ]. split; [intros b [] | left; reflexivity].
  - cbv zeta. specialize (IH (Rmin a b)). cbv zeta in IH.
    destruct IH as (H1 & H2 & H3).
    pose proof (Rmin_l a b). pose proof (Rmin_r a b).
    split; [lra | ]. split.
    + intros d [<- | Hd]; [lra | apply H2; exact Hd].
    + destruct H3 as [H3 | H3]; [ | right; right; exact H3].
      rewrite <- H3. unfold Rmin. destruct (Rle_dec a b); [left | right; left]; reflexivity.
Qed.

Lemma fold_left_Rmax_spec l : forall a,
  let m := fold_left Rmax l a in
  a <= m /\ (forall b, In b l -> b <= m) /\ In m (a :: l).
Proof.
  induction l as [| b l IH]; intros a; cbn [fold_left].
  - cbv zeta. split; [lra | ]. split; [intros b [] | left; reflexivity].
  - cbv zeta. specialize (IH (Rmax a b)). cbv zeta in IH.
    destruct IH as (H1 & H2 & H3).
    pose proof (Rmax_l a b). pose proof (Rmax_r a b).
    split; [lra | ]. split.
    + intros d [<- | Hd]; [lra | apply H2; exact Hd].
    + destruct H3 as [H3 | H3]; [ | right; right; exact H3].
      rewrite <- H3. unfold Rmax. destruct (Rle_dec a b); [right; left | left]; reflexivity.
Qed.

Lemma np_min_spec l m : np_min l = Ok m -> In m l /\ forall b, In b l -> m <= b.
Proof.
  destruct l as [| a l]; [discriminate | ]. cbn [np_min]. intros H. injection H as <-.
  destruct (fold_left_Rmin_spec l a) as (H1 & H2 & H3). split; [exact H3 | ].
  intros b [<- | Hb]; [exact H1 | apply H2; exact Hb].
Qed.

Lemma np_max_spec l m : np_max l = Ok m -> In m l /\ forall b, In b l -> b <= m.
Proof.
  destruct l as [| a l]; [discriminate | ]. cbn [np_max]. intros H. injection H as <-.
  destruct (fold_left_Rmax_spec l a) as (H1 & H2 & H3). split; [exact H3 | ].
  intros b [<- | Hb]; [exact H1 | apply H2; exact Hb].
Qed.

Lemma np_min_map_spec (f : Vec3 -> R) vs m :
  np_min (map f vs) = Ok m -> attained_lower_bound f m vs.
Proof.
  intros H. apply np_min_spec in H. destruct H as [Hin Hall]. split.
  - apply in_map_iff in Hin. destruct Hin as (v & E & Hv). exists v. split; assumption.
  - intros v Hv. apply Hall. apply in_map. exact Hv.
Qed.

Lemma np_max_map_spec (f : Vec3 -> R) vs m :
  np_max (map f vs) = Ok m -> attained_upper_bound f m vs.
Proof.
  intros H. apply np_max_spec in H. destruct H as [Hin Hall]. split.
  - apply in_map_iff in Hin. destruct Hin as (v & E & Hv). exists v. split; assumption.
  - intros v Hv. apply Hall. apply in_map. exact Hv.
Qed.

Lemma min_axis0_spec vs lo :
  min_axis0 vs = Ok lo ->
  attained_lower_bound c0 (c0 lo) vs /\ attained_lower_bound c1 (c1 lo) vs
  /\ attained_lower_bound c2 (c2 lo) vs.
Proof.
  unfold min_axis0. intros H. bind_inv H. bind_inv H. bind_inv H. injection H as <-.
  cbn [c0 c1 c2]. repeat split; apply np_min_map_spec; assumption.
Qed.

Lemma max_axis0_spec vs hi :
  max_axis0 vs = Ok hi ->
  attained_upper_bound c0 (c0 hi) vs /\ attained_upper_bound c1 (c1 hi) vs
  /\ attained_upper_bound c2 (c2 hi) vs.
Proof.
  unfold max_axis0. intros H. bind_inv H. bind_inv H. bind_inv H. injection H as <-.
  cbn [c0 c1 c2]. repeat split; apply np_max_map_spec; assumption.
Qed.

Lemma mask_select_filter {A : Type} (p : A -> bool) (l : list A) :
  mask_select (map p l) l = filter p l.
Proof.
  unfold mask_select. induction l as [| a l IH]; [reflexivity | ].
  cbn [map combine filter fst]. destruct (p a); cbn [map snd]; rewrite IH; reflexivity.
Qed.

Lemma bottom_region_lowest vs lo hi bmin :
  min_axis0 vs = Ok lo -> max_axis0 vs = Ok hi ->
  min_axis0 (bottom_region vs lo hi) = Ok bmin -> c1 bmin = c1 lo.
Proof.
  intros Hlo Hhi Hb.
  destruct (min_axis0_spec _ _ Hlo) as (_ & ((v0 & Hv0 & E0) & Hall) & _).
  destruct (max_axis0_spec _ _ Hhi) as (_ & (_ & Hmax) & _).
  destruct (min_axis0_spec _ _ Hb) as (_ & ((v1 & Hv1 & E1) & Hall1) & _).
  apply Rle_antisym.
  - rewrite <- E0. apply Hall1. unfold bottom_region. apply filter_In.
    split; [exact Hv0 | ].
    apply Rleb_true. pose proof (Hmax v0 Hv0). lra.
  - rewrite <- E1. apply Hall. unfold bottom_region in Hv1.
    apply filter_In in Hv1. apply Hv1.
Qed.

Lemma sub_region_bounds (f : Vec3 -> R) vs sub lo hi blo bhi :
  (forall v, In v sub -> In v vs) ->
  attained_lower_bound f lo vs -> attained_upper_bound f hi vs ->
  attained_lower_bound f blo sub -> attained_upper_bound f bhi sub ->
  lo <= blo /\ blo <= bhi /\ bhi <= hi.
Proof.
  intros Hsub [_ Hlo] [_ Hhi] [(v & Hv & E) Hblo] [(w & Hw & E') Hbhi].
  repeat split.
  - rewrite <- E. apply Hlo, Hsub, Hv.
  - rewrite <- E. apply Hbhi, Hv.
  - rewrite <- E'. apply Hhi, Hsub, Hw.
Qed.

(** Property X24.  On a non-empty mesh [_detect_feet] leaves the detector
    as it is when fewer than four vertices lie in the lowest tenth of the
    height range; otherwise it stores four feet that all sit at the lowest
    height of the mesh and form an axis-aligned rectangle inside its
    bounding box, the left feet not to the right of the right feet and the
    back feet not in front of the front feet. *)
Theorem feet_form_a_rectangle_at_the_lowest_height (self : detector) (vs : list Vec3) :
  vertices self = Some vs -> vs <> [] ->
  exists lo hi,
    min_axis0 vs = Ok lo /\ max_axis0 vs = Ok hi /\
    (((length (bottom_region vs lo hi) < 4)%nat /\ Geometric._detect_feet self = Ok self)
     \/
     ((4 <= length (bottom_region vs lo hi))%nat /\
      exists left_x right_x back_z front_z,
        Geometric._detect_feet self
        = Ok (with_feet self left_x right_x (c1 lo) back_z front_z) /\
        c0 lo <= left_x /\ left_x <= right_x /\ right_x <= c0 hi /\
        c2 lo <= back_z /\ back_z <= front_z /\ front_z <= c2 hi)).
Proof.
  intros Hvs Hne.
  destruct (min_axis0_ok vs Hne) as (lo & Hlo). destruct (max_axis0_ok vs Hne) as (hi & Hhi).
  exists lo, hi. split; [exact Hlo | ]. split; [exact Hhi | ].
  unfold Geometric._detect_feet. rewrite Hvs, Hlo, Hhi. cbn [bind]. cbv zeta.
  rewrite (mask_select_filter (fun v => Rleb (c1 v) (c1 lo + 0.1 * (c1 hi - c1 lo))) vs).
  fold (bottom_region vs lo hi).
  destruct (Nat.ltb_spec (length (bottom_region vs lo hi)) 4) as [Hfew | Hmany].
  - left. split; [exact Hfew | reflexivity].
  - right. split; [exact Hmany | ].
    assert (Hbne : bottom_region vs lo hi <> []).
    { intros E. rewrite E in Hmany. cbn in Hmany. lia. }
    destruct (min_axis0_ok _ Hbne) as (bmin & Hbmin).
    destruct (max_axis0_ok _ Hbne) as (bmax & Hbmax).
    rewrite Hbmin, Hbmax. cbn [bind].
    rewrite (bottom_region_lowest vs lo hi bmin Hlo Hhi Hbmin).
    eexists. eexists. eexists. eexists. split; [reflexivity | ].
    assert (Hsub : forall v, In v (bottom_region vs lo hi) -> In v vs).
    { intros v Hv. unfold bottom_region in Hv. apply filter_In in Hv. apply Hv. }
    destruct (min_axis0_spec _ _ Hlo) as (L0 & _ & L2).
    destruct (max_axis0_spec _ _ Hhi) as (U0 & _ & U2).
    destruct (min_axis0_spec _ _ Hbmin) as (BL0 & _ & BL2).
    destruct (max_axis0_spec _ _ Hbmax) as (BU0 & _ & BU2).
    pose proof (sub_region_bounds c0 _ _ _ _ _ _ Hsub L0 U0 BL0 BU0).
    pose proof (sub_region_bounds c2 _ _ _ _ _ _ Hsub L2 U2 BL2 BU2).
    repeat split; lra.
Qed.

(** Property X24 at the analysed [two_points]. *)
Lemma feet_of_two_points :
  exists lo hi,
    min_axis0 two_points = Ok lo /\ max_axis0 two_points = Ok hi /\
    (((length (bottom_region two_points lo hi) < 4)%nat
      /\ Geometric._detect_feet two_points_analysed = Ok two_points_analysed)
     \/
     ((4 <= length (bottom_region two_points lo hi))%nat /\
      exists left_x right_x back_z front_z,
        Geometric._detect_feet two_points_analysed
        = Ok (with_feet two_points_analysed left_x right_x (c1 lo) back_z front_z) /\
        c0 lo <= left_x /\ left_x <= right_x /\ right_x <= c0 hi /\
        c2 lo <= back_z /\ back_z <= front_z /\ front_z <= c2 hi)).
Proof.
  apply (feet_form_a_rectangle_at_the_lowest_height two_points_analysed two_points).
  - reflexivity.
  - discriminate.
Defined.

Lemma head_mask_filter vs nose r :
  mask_select (map (fun d => Rleb d r) (map (fun v => v3_norm (v3_sub v nose)) vs)) vs
  = head_region vs nose r.
Proof.
  rewrite map_map. apply (mask_select_filter (fun v => Rleb (v3_norm (v3_sub v nose)) r)).
Qed.

(** Property X25.  [_detect_ears] does nothing without a nose landmark.
    With a nose on a non-empty analysed mesh it leaves the detector as it
    is when fewer than ten vertices lie within 15% of the bounding-box
    diagonal of the nose; otherwise the two ears are vertices of that head
    region, the left ear one of least and the right ear one of greatest
    projection on the secondary axis among them. *)
Theorem ears_are_extreme_head_vertices
        (self : detector) (vs : list Vec3) (axes : Mat3) (nose : Vec3) :
  vertices self = Some vs -> vs <> [] -> principal_axes self = Some axes ->
  dict_get (landmarks self) "nose" = Some (v3_tolist nose) ->
  (forall self', dict_get (landmarks self') "nose" = None ->
                 Geometric._detect_ears self' = Ok self') /\
  exists hi lo,
    max_axis0 vs = Ok hi /\ min_axis0 vs = Ok lo /\
    (((length (head_region vs nose (head_region_radius hi lo)) < 10)%nat
      /\ Geometric._detect_ears self = Ok self)
     \/
     ((10 <= length (head_region vs nose (head_region_radius hi lo)))%nat /\
      exists left_ear right_ear,
        Geometric._detect_ears self = Ok (with_ears self left_ear right_ear) /\
        In left_ear (head_region vs nose (head_region_radius hi lo)) /\
        In right_ear (head_region vs nose (head_region_radius hi lo)) /\
        forall v, In v (head_region vs nose (head_region_radius hi lo)) ->
                  v3_dot (v3_sub left_ear nose) (row1 axes)
                  <= v3_dot (v3_sub v nose) (row1 axes)
                  <= v3_dot (v3_sub right_ear nose) (row1 axes))).
Proof.
  intros Hvs Hne Hax Hnose. split.
  { intros self' H. unfold Geometric._detect_ears. rewrite H. reflexivity. }
  destruct (max_axis0_ok vs Hne) as (hi & Hhi). destruct (min_axis0_ok vs Hne) as (lo & Hlo).
  exists hi, lo. split; [exact Hhi | ]. split; [exact Hlo | ].
  unfold Geometric._detect_ears. rewrite Hnose, Hvs, Hax, Hhi, Hlo. cbn [bind].
  destruct nose as [n0 n1 n2]. cbn [v3_tolist c0 c1 c2 Geometric.broadcast_row bind].
  cbv zeta. fold (head_region_radius hi lo).
  rewrite head_mask_filter.
  set (head := head_region vs (V3 n0 n1 n2) (head_region_radius hi lo)).
  destruct (Nat.ltb_spec (length head) 10) as [Hfew | Hmany].
  - left. split; [exact Hfew | reflexivity].
  - right. split; [exact Hmany | ].
    assert (Hh : head <> []).
    { intros E. rewrite E in Hmany. cbn in Hmany. lia. }
    set (f := fun v => v3_dot (v3_sub v (V3 n0 n1 n2)) (row1 axes)).
    assert (Hp : map f head <> []) by (apply map_nonempty; exact Hh).
    destruct (np_argmin_ok _ Hp) as (il & El & Ll).
    destruct (np_argmax_ok _ Hp) as (ir & Er & Lr).
    rewrite length_map in Ll, Lr.
    destruct (getitem_ok head il Ll) as (le & Gl & Nl).
    destruct (getitem_ok head ir Lr) as (re & Gr & Nr).
    fold f. rewrite El, Er. cbn [bind]. rewrite Gl, Gr. cbn [bind].
    exists le, re. split; [reflexivity | ].
    assert (Hext : extremes_estimate head (map f head) re le).
    { exists ir, il. repeat split; assumption. }
    destruct (extremes_estimate_bounds head f re le Hext) as (Hr & Hl & Hb).
    split; [exact Hl | ]. split; [exact Hr | ]. exact Hb.
Qed.

(** Property X25 at [two_points_with_nose]. *)
Lemma ears_of_two_points :
  (forall self', dict_get (landmarks self') "nose" = None ->
                 Geometric._detect_ears self' = Ok self') /\
  exists hi lo,
    max_axis0 two_points = Ok hi /\ min_axis0 two_points = Ok lo /\
    (((length (head_region two_points (V3 0 0 0) (head_region_radius hi lo)) < 10)%nat
      /\ Geometric._detect_ears two_points_with_nose = Ok two_points_with_nose)
     \/
     ((10 <= length (head_region two_points (V3 0 0 0) (head_region_radius hi lo)))%nat /\
      exists left_ear right_ear,
        Geometric._detect_ears two_points_with_nose
        = Ok (with_ears two_points_with_nose left_ear right_ear) /\
        In left_ear (head_region two_points (V3 0 0 0) (head_region_radius hi lo)) /\
        In right_ear (head_region two_points (V3 0 0 0) (head_region_radius hi lo)) /\
        forall v, In v (head_region two_points (V3 0 0 0) (head_region_radius hi lo)) ->
                  v3_dot (v3_sub left_ear (V3 0 0 0)) (row1 m3_identity)
                  <= v3_dot (v3_sub v (V3 0 0 0)) (row1 m3_identity)
                  <= v3_dot (v3_sub right_ear (V3 0 0 0)) (row1 m3_identity))).
Proof.
  apply (ears_are_extreme_head_vertices two_points_with_nose two_points m3_identity
                                        (V3 0 0 0)).
  - reflexivity.
  - discriminate.
  - reflexivity.
  - reflexivity.
Defined.

(** ** Validated constructors; the empty cloud; the rotation there and back *)

Lemma in_range_b_inv v : Rleb (-1e10) v && Rleb v 1e10 = true -> in_range v.
Proof.
  intros H. apply andb_true_iff in H. destruct H as [H1 H2].
  apply Rleb_iff in H1, H2. split; assumption.
Qed.

Lemma validate_matrix_values_inv m0 m :
  validate_matrix_values m0 = Ok m -> m = m0 /\ Forall (Forall in_range) m0.
Proof.
  unfold validate_matrix_values. intros H.
  destruct (forallb (forallb (fun val => Rleb (-1e10) val && Rleb val 1e10)) m0) eqn:E;
    [ | discriminate].
  injection H as <-. split; [reflexivity | ].
  apply Forall_forall. intros row Hrow. apply Forall_forall. intros v Hv.
  rewrite forallb_forall in E. specialize (E row Hrow).
  rewrite forallb_forall in E. apply in_range_b_inv, E, Hv.
Qed.

Lemma validate_matrix_dimensions_ok m0 :
  is_4x4 m0 -> validate_matrix_dimensions m0 = Ok m0.
Proof.
  intros [Hl Hr]. unfold validate_matrix_dimensions. rewrite Hl. cbn [Nat.eqb negb orb].
  assert (E : existsb (fun row => negb (length row =? 4)%nat) m0 = false).
  { destruct (existsb _ m0) eqn:E; [ | reflexivity].
    apply existsb_exists in E. destruct E as (row & Hin & Hn).
    rewrite Forall_forall in Hr. rewrite (Hr row Hin) in Hn. discriminate. }
  rewrite E. reflexivity.
Qed.

Lemma validate_matrix_dimensions_bad m0 :
  ~ is_4x4 m0 -> validate_matrix_dimensions m0 = Raise (ValidationError "Matrix must be 4x4").
Proof.
  intros Hn. unfold validate_matrix_dimensions.
  destruct (negb (length m0 =? 4)%nat
            || existsb (fun row => negb (length row =? 4)%nat) m0) eqn:E; [reflexivity | ].
  exfalso. apply Hn. apply orb_false_iff in E. destruct E as [E1 E2]. split.
  - apply negb_false_iff, Nat.eqb_eq in E1. exact E1.
  - apply Forall_forall. intros row Hin.
    destruct (length row =? 4)%nat eqn:El; [apply Nat.eqb_eq; exact El | ].
    assert (Hex : existsb (fun row => negb (length row =? 4)%nat) m0 = true).
    { apply existsb_exists. exists row. rewrite El. split; [exact Hin | reflexivity]. }
    rewrite Hex in E2. discriminate.
Qed.

Lemma validate_axis_iff v : (exists a, validate_axis v = Ok a) <-> valid_axis v.
Proof.
  unfold validate_axis, valid_axis. split.
  - intros (a & H). destruct (existsb (String.eqb v) ["x"; "y"; "z"]%string) eqn:E;
      [ | discriminate].
    apply existsb_exists in E. destruct E as (s & Hin & Es).
    apply String.eqb_eq in Es. subst s. exact Hin.
  - intros Hin. assert (E : existsb (String.eqb v) ["x"; "y"; "z"]%string = true).
    { apply existsb_exists. exists v. split; [exact Hin | apply String.eqb_refl]. }
    rewrite E. exists v. reflexivity.
Qed.

Lemma validate_axis_value v a : validate_axis v = Ok a -> a = v.
Proof.
  unfold validate_axis. destruct (existsb _ _); [ | discriminate].
  intros H. injection H as <-. reflexivity.
Qed.

Lemma Rltb_iff a b : Rltb a b = true <-> a < b.
Proof.
  unfold Rltb. destruct (Rlt_dec a b); split; intros H;
    try reflexivity; try assumption; try discriminate; contradiction.
Qed.

(** Property X26.  The validated constructors accept exactly the values in
    range and store them unchanged: a [Vector3D] needs its three
    coordinates within [-1e10, 1e10]; a [TransformationMatrix] needs a
    4x4 list of such numbers, and a list that is not 4x4 is rejected as
    such before its values are looked at; [GeometryParameters] needs a
    positive scale, a tolerance in (0, 5] and axes among x, y and z, which
    the defaults satisfy. *)
Theorem constructors_accept_exactly_the_valid_values :
  (forall a b c v,
      Vector3D_new a b c = Ok v
      <-> (v = mkVector3D a b c /\ in_range a /\ in_range b /\ in_range c)) /\
  (forall m0 m,
      TransformationMatrix_new m0 = Ok m
      <-> (m = mkTransformationMatrix m0 /\ is_4x4 m0 /\ Forall (Forall in_range) m0)) /\
  (forall m0, ~ is_4x4 m0 ->
              TransformationMatrix_new m0 = Raise (ValidationError "Matrix must be 4x4")) /\
  (forall s t e n p,
      GeometryParameters_new s t e n = Ok p
      <-> (p = mkGeometryParameters s t e n /\ 0 < s /\ 0 < t <= 5
           /\ valid_axis e /\ valid_axis n)) /\
  GeometryParameters_new 8 0.5 "x" "z" = Ok default_params.
Proof.
  assert (HG : forall s t e n p,
             GeometryParameters_new s t e n = Ok p
             <-> (p = mkGeometryParameters s t e n /\ 0 < s /\ 0 < t <= 5
                  /\ valid_axis e /\ valid_axis n)).
  { intros s t e n p. unfold GeometryParameters_new. split.
    - intros H.
      destruct (Rltb 0 s) eqn:Es; cbn [negb] in H; [ | discriminate].
      destruct (Rltb 0 t) eqn:Et; cbn [negb] in H; [ | discriminate].
      destruct (Rleb t 5) eqn:Et5; cbn [negb] in H; [ | discriminate].
      bind_inv H. bind_inv H. injection H as <-.
      pose proof (validate_axis_value _ _ E) as ->.
      pose proof (validate_axis_value _ _ E0) as ->.
      apply Rltb_iff in Es, Et. apply Rleb_iff in Et5.
      split; [reflexivity | ]. split; [exact Es | ]. split; [split; assumption | ].
      split; apply validate_axis_iff; eexists; eassumption.
    - intros (-> & Hs & [Ht Ht5] & He & Hn).
      rewrite (Rltb_true _ _ Hs), (Rltb_true _ _ Ht), (Rleb_true _ _ Ht5). cbn [negb].
      apply validate_axis_iff in He, Hn. destruct He as (e' & He), Hn as (n' & Hn).
      rewrite He, Hn. cbn [bind].
      rewrite (validate_axis_value _ _ He), (validate_axis_value _ _ Hn). reflexivity. }
  split; [ | split; [ | split; [ | split; [exact HG | ]]]].
  - intros a b c v. split.
    + intros H. destruct (Vector3D_new_inv _ _ _ _ H) as [-> (Hx & Hy & Hz)].
      cbn [x y z] in Hx, Hy, Hz.
      split; [reflexivity | ]. split; [exact Hx | ]. split; [exact Hy | exact Hz].
    + intros (-> & Ha & Hb & Hc). apply Vector3D_new_ok; assumption.
  - intros m0 m. split.
    + intros H. destruct (validated_matrix_is_4x4 _ _ H) as [Em H4].
      unfold TransformationMatrix_new in H.
      rewrite (validate_matrix_dimensions_ok _ H4) in H. cbn [bind] in H.
      bind_inv H. injection H as <-.
      destruct (validate_matrix_values_inv _ _ E) as [-> Hv].
      repeat split; try assumption; apply H4.
    + intros (-> & H4 & Hv). unfold TransformationMatrix_new.
      rewrite (validate_matrix_dimensions_ok _ H4). cbn [bind].
      rewrite (validate_matrix_values_ok _ Hv). reflexivity.
  - intros m0 Hn. unfold TransformationMatrix_new.
    rewrite (validate_matrix_dimensions_bad _ Hn). reflexivity.
  - apply HG. split; [reflexivity | ]. split; [lra | ]. split; [lra | ].
    split; unfold valid_axis; cbn; tauto.
Qed.

(** Property X27.  Neither detector returns landmarks for an empty cloud:
    [detect_landmarks] raises, with the exception of the eigen-solver or
    of the PCA when that fails, with the ValueError of the shape guard
    when the empty array is not Nx3, and with the ValueError of the empty
    reduction otherwise. *)
Theorem detectors_reject_the_empty_cloud
        (eigh : Mat3 -> result (Vec3 * Mat3)) (pca_fit : list Vec3 -> result (Mat3 * Vec3))
        (self : detector) (fs : option (list (list nat))) (n : nat) :
  (exists e, Density.detect_landmarks eigh self [] fs = Raise e) /\
  (exists e, Geometric.detect_landmarks pca_fit self (mkNdarray2 n []) fs = Raise e).
Proof.
  split.
  - unfold Density.detect_landmarks, Density._analyze_mesh_geometry.
    cbn [vertices faces landmarks map].
    destruct (eigh _) as [ev | e]; cbn [bind]; [ | eexists; reflexivity].
    unfold Density._detect_nose_and_tail_by_density.
    cbn [principal_axes vertices centroid map np_min bind]. eexists; reflexivity.
  - unfold Geometric.detect_landmarks. cbn [shape1].
    destruct (negb (n =? 3)%nat); [eexists; reflexivity | ].
    unfold Geometric._analyze_mesh_geometry.
    cbn [rows rows_to_vec3 vertices faces landmarks map].
    destruct (pca_fit _) as [pca | e]; cbn [bind]; [ | eexists; reflexivity].
    unfold Geometric._detect_nose_and_tail.
    cbn [principal_axes vertices centroid map np_argmin bind]. eexists; reflexivity.
Qed.

Lemma direction_cosine_sym f t : direction_cosine f t = direction_cosine t f.
Proof. unfold direction_cosine. apply v3_dot_comm. Qed.

Lemma scaled_unit_norm l w : 0 <= l -> v3_dot w w = 1 -> v3_norm (v3_scale l w) = l.
Proof.
  intros Hl Hw. unfold v3_norm.
  replace (v3_dot (v3_scale l w) (v3_scale l w)) with (l * l * v3_dot w w)
    by (unfold v3_dot, v3_scale; cbn; ring).
  rewrite Hw, Rmult_1_r. apply sqrt_square. exact Hl.
Qed.

(** Property X28.  Outside the two [np.allclose] branches the rotation from
    the second vector back to the first undoes the rotation from the first
    to the second: applying one and then the other returns the first
    vector. *)
Theorem rotation_round_trip (f t : Vector3D) :
  ~ is_zero f -> ~ is_zero t -> norm f <= 1e10 ->
  np_allclose (direction_cosine f t) 1 = false ->
  np_allclose (direction_cosine f t) (-1) = false ->
  exists m m' q,
    calculate_rotation_matrix f t = Ok m /\ calculate_rotation_matrix t f = Ok m' /\
    apply_transformation m [f] = Ok [q] /\ apply_transformation m' [q] = Ok [f].
Proof.
  intros Hf Ht Hn H1 H2.
  pose proof (to_vec3_dot_pos _ Hf) as HF. pose proof (to_vec3_dot_pos _ Ht) as HT.
  pose proof (unit3_dot _ HF) as Ha. pose proof (unit3_dot _ HT) as Hb.
  set (a := unit3 (to_vec3 f)) in *. set (b := unit3 (to_vec3 t)) in *.
  destruct (calculate_rotation_matrix_spec f t Hf Ht) as (r & Hr & Hiso & Hcase).
  destruct (calculate_rotation_matrix_spec t f Ht Hf) as (r' & Hr' & Hiso' & Hcase').
  cbv zeta in Hcase, Hcase'. fold a b in Hcase, Hcase'.
  unfold direction_cosine in H1, H2. fold a b in H1, H2.
  assert (Hab : m3_apply r a = b).
  { destruct Hcase as [[E _] | [(_ & E & _) | (_ & _ & _ & Hra)]];
      [rewrite E in H1; discriminate | rewrite E in H2; discriminate | exact Hra]. }
  assert (Hba : m3_apply r' b = a).
  { rewrite (v3_dot_comm b a) in Hcase'.
    destruct Hcase' as [[E _] | [(_ & E & _) | (_ & _ & _ & Hra)]];
      [rewrite E in H1; discriminate | rewrite E in H2; discriminate | exact Hra]. }
  set (q := of_vec3 (v3_scale (norm f) b)).
  assert (Hq : m3_apply r (to_vec3 f) = v3_scale (norm f) b).
  { rewrite <- (unit3_scale (to_vec3 f) HF) at 1. fold a.
    rewrite m3_apply_scale, Hab. reflexivity. }
  assert (Hnn : 0 <= norm f) by (unfold norm, v3_norm; apply sqrt_pos).
  assert (Hqn : norm q <= 1e10).
  { unfold norm, q. rewrite to_vec3_of_vec3, (scaled_unit_norm _ _ Hnn Hb). exact Hn. }
  exists (mkTransformationMatrix (mat4_of r)), (mkTransformationMatrix (mat4_of r')), q.
  split; [exact Hr | ]. split; [exact Hr' | ]. split.
  - rewrite apply_transformation_mat4.
    + cbn [map]. rewrite Hq. reflexivity.
    + apply Forall_cons; [apply isometry_valid; assumption | apply Forall_nil].
  - rewrite apply_transformation_mat4.
    + cbn [map]. unfold q. rewrite to_vec3_of_vec3, m3_apply_scale, Hba.
      unfold a, norm. rewrite (unit3_scale _ HF).
      destruct f; reflexivity.
    + apply Forall_cons; [apply isometry_valid; assumption | apply Forall_nil].
Qed.

(** Property X28 for the x axis and the z axis. *)
Lemma rotation_round_trip_x_z :
  exists m m' q,
    calculate_rotation_matrix (mkVector3D 1 0 0) (mkVector3D 0 0 1) = Ok m /\
    calculate_rotation_matrix (mkVector3D 0 0 1) (mkVector3D 1 0 0) = Ok m' /\
    apply_transformation m [mkVector3D 1 0 0] = Ok [q] /\
    apply_transformation m' [q] = Ok [mkVector3D 1 0 0].
Proof.
  apply (rotation_round_trip (mkVector3D 1 0 0) (mkVector3D 0 0 1)).
  - not_zero_vec.
  - not_zero_vec.
  - rewrite norm_unit_x. lra.
  - rewrite direction_cosine_x_z. exact np_allclose_0_1.
  - rewrite direction_cosine_x_z. exact np_allclose_0_m1.
Defined.

(** ** The result of the verification *)

Lemma axis_vector_inv what axis tg : axis_vector what axis = Ok tg -> valid_axis axis.
Proof.
  unfold axis_vector, valid_axis. intros H.
  destruct (String.eqb axis "x") eqn:Ex; [apply String.eqb_eq in Ex; subst; cbn; tauto | ].
  destruct (String.eqb axis "y") eqn:Ey; [apply String.eqb_eq in Ey; subst; cbn; tauto | ].
  destruct (String.eqb axis "z") eqn:Ez; [apply String.eqb_eq in Ez; subst; cbn; tauto | ].
  discriminate.
Qed.

Lemma alignment_error_inv v axis e :
  _calculate_alignment_error v axis = Ok e ->
  ~ is_zero v /\ valid_axis axis /\ e = angular_deviation v axis /\ 0 <= e <= 90.
Proof.
  intros H.
  assert (Hz : ~ is_zero v).
  { intros Z. rewrite (alignment_error_zero v axis Z) in H. discriminate. }
  assert (Hax : valid_axis axis).
  { unfold _calculate_alignment_error in H. bind_inv H. bind_inv H.
    eapply axis_vector_inv; eassumption. }
  rewrite (alignment_error_formula v axis Hz Hax) in H. injection H as <-.
  split; [exact Hz | ]. split; [exact Hax | ]. split; [reflexivity | ].
  unfold angular_deviation. apply degrees_acos_abs_range.
  apply unit_dot_range; [apply unit3_dot, to_vec3_dot_pos; exact Hz | apply canonical_axis_unit].
Qed.

Lemma verify_alignment_inv l m p r :
  verify_alignment l m p = Ok r ->
  exists nose_tail_error ear_error,
    r = mkAlignmentResult m (error_dict nose_tail_error ear_error)
                          (Rleb (Rmax nose_tail_error ear_error) (alignment_tolerance p)) /\
    0 <= nose_tail_error <= 90 /\ 0 <= ear_error <= 90.
Proof.
  unfold verify_alignment. intros H.
  bind_inv H. bind_inv H. bind_inv H. bind_inv H. bind_inv H. bind_inv H.
  bind_inv H. bind_inv H. bind_inv H. bind_inv H. bind_inv H.
  unfold AlignmentResult_new, validate_errors in H.
  cbn [forallb has_key existsb fst String.eqb Ascii.eqb Bool.eqb orb andb bind] in H.
  injection H as <-.
  match goal with
  | E1 : _calculate_alignment_error _ (nose_tail_axis p) = Ok ?e1,
    E2 : _calculate_alignment_error _ (ear_alignment_axis p) = Ok ?e2 |- _ =>
      exists e1, e2;
      destruct (alignment_error_inv _ _ _ E1) as (_ & _ & _ & R1);
      destruct (alignment_error_inv _ _ _ E2) as (_ & _ & _ & R2)
  end.
  split; [reflexivity | ]. split; assumption.
Qed.

(** Property X29.  Whatever the landmarks, the matrix and the parameters:
    when [verify_alignment] returns, the result carries the matrix it was
    given, a nose-tail error and an ear error between 0 and 90 degrees,
    their maximum as the overall error (so between 0 and 90 as well), and
    [is_valid] says exactly that the overall error is at most the
    tolerance. *)
Theorem verification_result_is_well_formed
        (l : LandmarkSet) (m : TransformationMatrix) (p : GeometryParameters)
        (r : AlignmentResult) :
  verify_alignment l m p = Ok r ->
  exists nose_tail_error ear_error overall_error,
    transformation_matrix r = m /\
    alignment_errors r = error_dict nose_tail_error ear_error /\
    error_of r "overall_error" = Some overall_error /\
    overall_error = Rmax nose_tail_error ear_error /\
    0 <= nose_tail_error <= 90 /\ 0 <= ear_error <= 90 /\ 0 <= overall_error <= 90 /\
    (is_valid r = true <-> overall_error <= alignment_tolerance p).
Proof.
  intros H. destruct (verify_alignment_inv l m p r H) as (e1 & e2 & -> & R1 & R2).
  exists e1, e2, (Rmax e1 e2). cbn [transformation_matrix alignment_errors is_valid].
  split; [reflexivity | ]. split; [reflexivity | ]. split; [reflexivity | ].
  split; [reflexivity | ]. split; [exact R1 | ]. split; [exact R2 | ].
  split; [unfold Rmax; destruct (Rle_dec e1 e2); lra | apply Rleb_iff].
Qed.

(** Property X29 at [aligned_landmarks] under the identity transform. *)
Lemma verification_of_aligned_landmarks_is_well_formed :
  exists r,
    verify_alignment aligned_landmarks identity_transform default_params = Ok r /\
    exists nose_tail_error ear_error overall_error,
      transformation_matrix r = identity_transform /\
      alignment_errors r = error_dict nose_tail_error ear_error /\
      error_of r "overall_error" = Some overall_error /\
      overall_error = Rmax nose_tail_error ear_error /\
      0 <= nose_tail_error <= 90 /\ 0 <= ear_error <= 90 /\ 0 <= overall_error <= 90 /\
      (is_valid r = true <-> overall_error <= alignment_tolerance default_params).
Proof.
  assert (Hap : apply_transformation identity_transform
                  [nose aligned_landmarks; tail aligned_landmarks;
                   left_ear aligned_landmarks; right_ear aligned_landmarks]
                = Ok [nose aligned_landmarks; tail aligned_landmarks;
                      left_ear aligned_landmarks; right_ear aligned_landmarks]).
  { apply identity_transform_applies.
    repeat (apply Forall_cons; [unfold valid_vector, in_range; cbn; lra | ]).
    apply Forall_nil. }
  destruct (verify_alignment_result aligned_landmarks identity_transform default_params
              _ _ _ _ Hap I
              ltac:(unfold valid_vector, in_range, difference; cbn; lra)
              ltac:(unfold valid_vector, in_range, difference; cbn; lra)
              ltac:(unfold difference; cbn; not_zero_vec)
              ltac:(unfold difference; cbn; not_zero_vec)
              ltac:(unfold valid_axis; cbn; tauto) ltac:(unfold valid_axis; cbn; tauto))
    as (r & Hr & _).
  exists r. split; [exact Hr | ].
  exact (verification_result_is_well_formed aligned_landmarks identity_transform
           default_params r Hr).
Defined.

(** Property X30.  Verification reads the parameters through the two axes
    and the tolerance only: with the same axes, another scale factor and a
    tolerance at least as large give the same errors and the same
    failures, and an alignment that was valid stays valid. *)
Theorem verification_depends_on_axes_and_tolerance
        (l : LandmarkSet) (m : TransformationMatrix) (p p' : GeometryParameters) :
  nose_tail_axis p' = nose_tail_axis p -> ear_alignment_axis p' = ear_alignment_axis p ->
  alignment_tolerance p <= alignment_tolerance p' ->
  (forall r, verify_alignment l m p = Ok r ->
             exists r', verify_alignment l m p' = Ok r' /\
                        alignment_errors r' = alignment_errors r /\
                        transformation_matrix r' = transformation_matrix r /\
                        (is_valid r = true -> is_valid r' = true)) /\
  (forall e, verify_alignment l m p = Raise e -> verify_alignment l m p' = Raise e).
Proof.
  intros Hnt Hear Htol. unfold verify_alignment. rewrite Hnt, Hear.
  repeat match goal with
         | |- context [bind ?c _] =>
             lazymatch c with
             | AlignmentResult_new _ _ _ => fail
             | _ => destruct c as [? | ?]; cbn [bind];
                    [ | split; [discriminate | intros ? H; exact H]]
             end
         end.
  unfold AlignmentResult_new, validate_errors.
  cbn [forallb has_key existsb fst String.eqb Ascii.eqb Bool.eqb orb andb bind].
  split; [ | discriminate].
  intros r H. injection H as <-. eexists. split; [reflexivity | ].
  cbn [alignment_errors transformation_matrix is_valid].
  split; [reflexivity | ]. split; [reflexivity | ].
  intros Hv. apply Rleb_iff in Hv. apply Rleb_iff. lra.
Qed.

(** Property X30 at [aligned_landmarks], from the default parameters to
    [loose_params]. *)
Lemma verification_with_loose_params :
  (forall r, verify_alignment aligned_landmarks identity_transform default_params = Ok r ->
             exists r', verify_alignment aligned_landmarks identity_transform loose_params
                        = Ok r' /\
                        alignment_errors r' = alignment_errors r /\
                        transformation_matrix r' = transformation_matrix r /\
                        (is_valid r = true -> is_valid r' = true)) /\
  (forall e, verify_alignment aligned_landmarks identity_transform default_params = Raise e ->
             verify_alignment aligned_landmarks identity_transform loose_params = Raise e).
Proof.
  apply (verification_depends_on_axes_and_tolerance aligned_landmarks identity_transform
           default_params loose_params).
  - reflexivity.
  - reflexivity.
  - cbn; lra.
Defined.
